(** * GitHub-Reporter: the report model, the correlator and the error path

    A shallow embedding of [src/models/report.model.js] (PullRequest,
    Activity, ProjectSummary, GitHubReport), of the logger, of the parts of
    [src/services/github.service.js] that build these objects and of
    [generateReport] / [generateMarkdownReport] in [src/index.js].

    Conventions.
    - A JavaScript [Date] is its time value: milliseconds since the epoch as
      a [Z], or [None] for an Invalid Date (time value NaN).  Time values are
      taken inside the range on which ECMAScript's TimeClip is the identity.
    - Local time follows ECMAScript: [LocalTime t = t + LocalTZA(t, true)]
      and [UTC t = t - LocalTZA(t, false)]; the two offset functions of the
      host's time zone are the fields of [TimeZone].
    - [ProjectSummary] objects live in a store and are named by references:
      [generateReport] keeps every project in two arrays ([projects] and
      [report.projects]) and mutates it through one of them.
    - The clock is read as one instant [now] during a query.
    - A field of an answer that holds an object, [null] or nothing at all is
      a [JS.Maybe]; reading a property of [null] or [undefined] throws the
      TypeError with the message that Node gives it for that value. *)

From Stdlib Require Import ZArith Lia Ascii Sorting.Sorted Sorting.Permutation.
From stdpp Require Import base list strings pretty.

Open Scope Z_scope.

(** ** Dates *)

Module JSDate.

Definition msPerDay : Z := 86400000.
Definition msPerHour : Z := 3600000.
Definition msPerMinute : Z := 60000.
Definition msPerSecond : Z := 1000.

Definition Day (t : Z) : Z := t / msPerDay.
Definition TimeWithinDay (t : Z) : Z := t mod msPerDay.

Definition DaysInYear (y : Z) : Z :=
  if negb (y mod 4 =? 0) then 365
  else if negb (y mod 100 =? 0) then 366
  else if negb (y mod 400 =? 0) then 365
  else 366.

Definition DayFromYear (y : Z) : Z :=
  365 * (y - 1970) + (y - 1969) / 4 - (y - 1901) / 100 + (y - 1601) / 400.

Definition TimeFromYear (y : Z) : Z := msPerDay * DayFromYear y.

(** The largest [y] with [TimeFromYear y <= t]: an estimate from the mean
    length of a year, moved by one where it is off. *)
Definition YearFromTime (t : Z) : Z :=
  let d := Day t in
  let y := 1970 + (400 * d) / 146097 in
  if d <? DayFromYear y then y - 1
  else if DayFromYear (y + 1) <=? d then y + 1
  else y.

Definition InLeapYear (t : Z) : Z :=
  if DaysInYear (YearFromTime t) =? 366 then 1 else 0.

Definition DayWithinYear (t : Z) : Z := Day t - DayFromYear (YearFromTime t).

(** Days of the year before month [m] (0 = January), [leap] being 0 or 1. *)
Definition DaysBeforeMonth (m leap : Z) : Z :=
  match m with
  | 0 => 0
  | 1 => 31
  | 2 => 59 + leap
  | 3 => 90 + leap
  | 4 => 120 + leap
  | 5 => 151 + leap
  | 6 => 181 + leap
  | 7 => 212 + leap
  | 8 => 243 + leap
  | 9 => 273 + leap
  | 10 => 304 + leap
  | _ => 334 + leap
  end.

Definition MonthFromTime (t : Z) : Z :=
  let d := DayWithinYear t in
  let l := InLeapYear t in
  if d <? 31 then 0
  else if d <? 59 + l then 1
  else if d <? 90 + l then 2
  else if d <? 120 + l then 3
  else if d <? 151 + l then 4
  else if d <? 181 + l then 5
  else if d <? 212 + l then 6
  else if d <? 243 + l then 7
  else if d <? 273 + l then 8
  else if d <? 304 + l then 9
  else if d <? 334 + l then 10
  else 11.

Definition DateFromTime (t : Z) : Z :=
  DayWithinYear t - DaysBeforeMonth (MonthFromTime t) (InLeapYear t) + 1.

Definition MakeTime (hour min sec ms : Z) : Z :=
  hour * msPerHour + min * msPerMinute + sec * msPerSecond + ms.

(** The day number of day [date] of month [month] of year [year]; months
    outside 0..11 carry into the year. *)
Definition MakeDay (year month date : Z) : Z :=
  let ym := year + month / 12 in
  let mn := month mod 12 in
  let leap := if DaysInYear ym =? 366 then 1 else 0 in
  DayFromYear ym + DaysBeforeMonth mn leap + date - 1.

Definition MakeDate (day time : Z) : Z := day * msPerDay + time.

(** The host's time zone: the offset of local time from UTC in
    milliseconds, as a function of a UTC instant ([LocalTZA(t, true)]) and
    as a function of a local time ([LocalTZA(t, false)]). *)
Record TimeZone : Type := {
  LocalTZA_utc : Z -> Z;
  LocalTZA_local : Z -> Z
}.

Definition LocalTime (tz : TimeZone) (t : Z) : Z := t + LocalTZA_utc tz t.
Definition UTC (tz : TimeZone) (t : Z) : Z := t - LocalTZA_local tz t.

(** [d.getDate()] *)
Definition getDate (tz : TimeZone) (tv : Z) : Z :=
  DateFromTime (LocalTime tz tv).

(** [d.setDate(dt)]: the new time value of [d]. *)
Definition setDate (tz : TimeZone) (dt : Z) (tv : Z) : Z :=
  let t := LocalTime tz tv in
  let newDate :=
    MakeDate (MakeDay (YearFromTime t) (MonthFromTime t) dt) (TimeWithinDay t) in
  UTC tz newDate.

(** [d.setHours(hour, min, sec, ms)]: the new time value of [d]. *)
Definition setHours (tz : TimeZone) (hour min sec ms : Z) (tv : Z) : Z :=
  let t := LocalTime tz tv in
  UTC tz (MakeDate (Day t) (MakeTime hour min sec ms)).

(** [a >= b] and [a < b] on Date objects compare the time values; a
    comparison with an Invalid Date is false. *)
Definition ge (a b : option Z) : bool :=
  match a, b with
  | Some x, Some y => y <=? x
  | _, _ => false
  end.

Definition lt (a b : option Z) : bool :=
  match a, b with
  | Some x, Some y => x <? y
  | _, _ => false
  end.

(** [a - b] on Date objects: NaN ([None]) if either is invalid. *)
Definition sub (a b : option Z) : option Z :=
  match a, b with
  | Some x, Some y => Some (x - y)
  | _, _ => None
  end.

(** A time zone with one fixed offset. *)
Definition fixedZone (offset : Z) : TimeZone :=
  {| LocalTZA_utc := fun _ => offset; LocalTZA_local := fun _ => offset |}.

(** The instant [y-m-d h:mi] UTC, months counted from 0. *)
Definition utc (y m d h mi : Z) : Z :=
  MakeDate (MakeDay y m d) (MakeTime h mi 0 0).

(** US Eastern time around the start of daylight saving time in 2024:
    UTC-5 before 2024-03-10 02:00 local (07:00 UTC), UTC-4 after.  A local
    time inside the skipped hour is read with the offset before the
    transition. *)
Definition usEastern2024 : TimeZone :=
  {| LocalTZA_utc := fun t =>
       if t <? utc 2024 2 10 7 0 then -5 * msPerHour else -4 * msPerHour;
     LocalTZA_local := fun t =>
       if t <? utc 2024 2 10 3 0 then -5 * msPerHour else -4 * msPerHour |}.

End JSDate.

(** ** JavaScript values and strings *)

Module JS.

(** The values that the modelled expressions can produce. *)
Inductive value : Type :=
| VUndefined
| VNull
| VBool (b : bool)
| VString (s : string)
| VObjectPrototypeMember (name : string).

Definition ToBoolean (v : value) : bool :=
  match v with
  | VUndefined | VNull => false
  | VBool b => b
  | VString s => negb (String.eqb s "")
  | VObjectPrototypeMember _ => true
  end.

(** The property names that every object literal inherits from
    [Object.prototype]: functions, and for [__proto__] the prototype
    object itself. *)
Definition ObjectPrototype_keys : list string :=
  [ "constructor"; "hasOwnProperty"; "isPrototypeOf";
    "propertyIsEnumerable"; "toLocaleString"; "toString"; "valueOf";
    "__proto__"; "__defineGetter__"; "__defineSetter__";
    "__lookupGetter__"; "__lookupSetter__" ]%string.

Fixpoint assoc (own : list (string * string)) (key : string) : option string :=
  match own with
  | [] => None
  | (k, v) :: rest => if String.eqb k key then Some v else assoc rest key
  end.

(** [obj[key]] on an object literal whose own properties are [own] (all
    string-valued): own properties first, then the prototype. *)
Definition getProperty (own : list (string * string)) (key : string) : value :=
  match assoc own key with
  | Some v => VString v
  | None =>
      if existsb (String.eqb key) ObjectPrototype_keys
      then VObjectPrototypeMember key
      else VUndefined
  end.

(** [a || b] *)
Definition or (a b : value) : value := if ToBoolean a then a else b.

(** [s.split(sep)] for a one-character separator. *)
Fixpoint split (sep : Ascii.ascii) (s : string) : list string :=
  match s with
  | EmptyString => [EmptyString]
  | String c rest =>
      if Ascii.eqb c sep then EmptyString :: split sep rest
      else match split sep rest with
           | [] => [String c EmptyString]
           | seg :: segs => String c seg :: segs
           end
  end.

(** [arr.pop()]: the last element, [undefined] on an empty array. *)
Definition pop (arr : list string) : option string := last arr.

(** [s.repeat(n)] *)
Fixpoint repeat (s : string) (n : nat) : string :=
  match n with
  | O => EmptyString
  | S k => String.append s (repeat s k)
  end.

Record Error : Type := { message : string }.

(** The two values that have no properties, and a value that is one of
    them or an object. *)
Inductive Nullish : Type := null | undefined.

Inductive Maybe (A : Type) : Type :=
| Present (a : A)
| Absent (n : Nullish).
Arguments Present {A} a.
Arguments Absent {A} n.

Definition toOption {A} (m : Maybe A) : option A :=
  match m with
  | Present a => Some a
  | Absent _ => None
  end.

(** A field that holds an object or [null]. *)
Definition orNull {A} (o : option A) : Maybe A :=
  match o with
  | Some a => Present a
  | None => Absent null
  end.

(** The TypeError of [o.prop] where [o] is [null] or [undefined], with the
    message that Node gives it. *)
Definition cannotRead (n : Nullish) (prop : string) : Error :=
  {| message :=
       String.append "Cannot read properties of "
         (String.append (match n with
                         | null => "null"
                         | undefined => "undefined"
                         end)
            (String.append " (reading '" (String.append prop "')"))) |}.

(** The result of awaiting a request to a collaborator. *)
Inductive Response (A : Type) : Type :=
| Resolved (a : A)
| Rejected (e : Error).
Arguments Resolved {A} a.
Arguments Rejected {A} e.

(** [arr.sort(compare)]: a stable sort; [x] stays before [y] unless
    [compare x y] is positive, a NaN result ([None]) counting as 0. *)
Section Sort.
Context {A : Type} (compare : A -> A -> option Z).

Definition before (x y : A) : bool :=
  match compare x y with
  | Some v => v <=? 0
  | None => true
  end.

Fixpoint insert (x : A) (l : list A) : list A :=
  match l with
  | [] => [x]
  | y :: ys => if before x y then x :: y :: ys else y :: insert x ys
  end.

Fixpoint sort (l : list A) : list A :=
  match l with
  | [] => []
  | x :: xs => insert x (sort xs)
  end.
End Sort.

End JS.

(** ** The host: clock, time zone, locale formatting, terminal styling *)

Record Runtime : Type := {
  tz : JSDate.TimeZone;
  now : Z;
  chalk : string -> string -> string;
  toLocaleDateString : Z -> string;
  toLocaleString : Z -> string;
  toLocaleTimeString : Z -> string;
  toDateString : Z -> string;
  toISOString : Z -> string
}.

(** A date-formatting method applied to a Date object. *)
Definition formatDate (f : Z -> string) (d : option Z) : string :=
  match d with
  | Some t => f t
  | None => "Invalid Date"
  end.

(** The window test shared by [PullRequest] and [Activity]:
    [yesterday] is [now] moved one calendar day back and set to local
    midnight, [tomorrow] is [yesterday] moved one calendar day forward. *)
Definition yesterday (rt : Runtime) : Z :=
  let y := now rt in
  let y := JSDate.setDate (tz rt) (JSDate.getDate (tz rt) y - 1) y in
  JSDate.setHours (tz rt) 0 0 0 0 y.

Definition tomorrow (rt : Runtime) : Z :=
  let t := yesterday rt in
  JSDate.setDate (tz rt) (JSDate.getDate (tz rt) t + 1) t.

(** ** models/report.model.js *)

Module PullRequest.

Record t : Type := {
  title : string;
  url : string;
  author : string;
  date : option Z;
  state : string
}.

(** [new PullRequest(title, url, author, date, state = 'unknown')]; [date]
    is the time value that [new Date(date)] yields. *)
Definition new (title url author : string) (date : option Z)
    (state : option string) : t :=
  {| title := title; url := url; author := author; date := date;
     state := default "unknown"%string state |}.

Definition getFormattedDate (rt : Runtime) (this : t) : string :=
  formatDate (toLocaleDateString rt) (date this).

Definition isFromYesterday (rt : Runtime) (this : t) : bool :=
  JSDate.ge (date this) (Some (yesterday rt))
  && JSDate.lt (date this) (Some (tomorrow rt)).

End PullRequest.

Module Activity.

Record t : Type := {
  type : string;
  title : string;
  url : string;
  date : option Z;
  repoName : string
}.

Definition new (type title url : string) (date : option Z)
    (repoName : string) : t :=
  {| type := type; title := title; url := url; date := date;
     repoName := repoName |}.

Definition getFormattedDate (rt : Runtime) (this : t) : string :=
  formatDate (toLocaleDateString rt) (date this).

Definition isFromYesterday (rt : Runtime) (this : t) : bool :=
  JSDate.ge (date this) (Some (yesterday rt))
  && JSDate.lt (date this) (Some (tomorrow rt)).

Definition typeMap : list (string * string) :=
  [ ("pr_created", "Created PR");
    ("pr_commented", "Commented on PR");
    ("pr_reviewed", "Reviewed PR");
    ("issue_commented", "Commented on Issue") ]%string.

(** [typeMap[this.type] || this.type] *)
Definition getTypeDisplay (this : t) : JS.value :=
  JS.or (JS.getProperty typeMap (type this)) (JS.VString (type this)).

End Activity.


(** ** The state of a run and the monad of effects *)

(** One entry of the logger's (and of the report's) error list. *)
Record ErrorEntry : Type := {
  entry_message : string;
  entry_context : option string;
  entry_timestamp : string
}.

Definition Ref : Type := nat.

(** What a run can change: the store of objects of type [Obj] (allocated
    in order, a reference is an index), the error list of the logger
    singleton, the lines written with [console.log], and the files
    written. *)
Record World (Obj : Type) : Type := {
  heap : list Obj;
  loggerErrors : list ErrorEntry;
  console : list string;
  files : list (string * string)
}.
Arguments heap {Obj} w.
Arguments loggerErrors {Obj} w.
Arguments console {Obj} w.
Arguments files {Obj} w.

Inductive Completion (A : Type) : Type :=
| Normal (a : A)
| Throw (e : JS.Error).
Arguments Normal {A} a.
Arguments Throw {A} e.

Definition M (Obj A : Type) : Type := World Obj -> Completion A * World Obj.

Module Eff.
Section Ops.
Context {Obj : Type}.

Definition ret {A} (a : A) : M Obj A := fun w => (Normal a, w).

Definition bind {A B} (m : M Obj A) (k : A -> M Obj B) : M Obj B :=
  fun w =>
    match m w with
    | (Normal a, w') => k a w'
    | (Throw e, w') => (Throw e, w')
    end.

Definition throw {A} (e : JS.Error) : M Obj A := fun w => (Throw e, w).

(** [try { body } catch (error) { handler }] *)
Definition tryCatch {A} (body : M Obj A) (handler : JS.Error -> M Obj A) : M Obj A :=
  fun w =>
    match body w with
    | (Normal a, w') => (Normal a, w')
    | (Throw e, w') => handler e w'
    end.

(** [await request] *)
Definition await {A} (r : JS.Response A) : M Obj A :=
  match r with
  | JS.Resolved a => ret a
  | JS.Rejected e => throw e
  end.

(** Reading [o.prop] where [o] may be [null] or [undefined]: a TypeError
    there. *)
Definition member {A} (o : JS.Maybe A) (prop : string) : M Obj A :=
  match o with
  | JS.Present a => ret a
  | JS.Absent n => throw (JS.cannotRead n prop)
  end.

(** [new C(...)]: the object is stored at a fresh reference. *)
Definition alloc (o : Obj) : M Obj Ref :=
  fun w =>
    (Normal (length (heap w)),
     {| heap := heap w ++ [o]; loggerErrors := loggerErrors w;
        console := console w; files := files w |}).

(** Reading the object behind a reference.  Every reference that the
    program holds was returned by [alloc]; the other case is there to make
    the function total. *)
Definition deref (r : Ref) : M Obj Obj :=
  fun w =>
    match heap w !! r with
    | Some o => (Normal o, w)
    | None => (Throw {| JS.message := "dangling reference" |}, w)
    end.

(** Assigning to the fields of the object behind a reference. *)
Definition update (r : Ref) (f : Obj -> Obj) : M Obj unit :=
  fun w =>
    match heap w !! r with
    | Some o =>
        (Normal tt,
         {| heap := <[r := f o]> (heap w); loggerErrors := loggerErrors w;
            console := console w; files := files w |})
    | None => (Throw {| JS.message := "dangling reference" |}, w)
    end.

(** [console.log(line)] *)
Definition consoleLog (line : string) : M Obj unit :=
  fun w =>
    (Normal tt,
     {| heap := heap w; loggerErrors := loggerErrors w;
        console := console w ++ [line]; files := files w |}).

Definition pushLoggerError (e : ErrorEntry) : M Obj unit :=
  fun w =>
    (Normal tt,
     {| heap := heap w; loggerErrors := loggerErrors w ++ [e];
        console := console w; files := files w |}).

Definition getLoggerErrors : M Obj (list ErrorEntry) :=
  fun w => (Normal (loggerErrors w), w).

Definition recordFile (path content : string) : M Obj unit :=
  fun w =>
    (Normal tt,
     {| heap := heap w; loggerErrors := loggerErrors w;
        console := console w; files := files w ++ [(path, content)] |}).

(** [arr.forEach(f)] and a [for] loop over an array. *)
Fixpoint forEach {A} (f : A -> M Obj unit) (arr : list A) : M Obj unit :=
  match arr with
  | [] => ret tt
  | x :: xs => bind (f x) (fun _ => forEach f xs)
  end.

(** [arr.filter(f)] with a callback that reads the store. *)
Fixpoint filterM {A} (f : A -> M Obj JS.value) (arr : list A) : M Obj (list A) :=
  match arr with
  | [] => ret []
  | x :: xs =>
      bind (f x) (fun v =>
      bind (filterM f xs) (fun rest =>
      ret (if JS.ToBoolean v then x :: rest else rest)))
  end.

(** [arr.find(f)] with a callback that reads the store. *)
Fixpoint findM {A} (f : A -> M Obj bool) (arr : list A) : M Obj (option A) :=
  match arr with
  | [] => ret None
  | x :: xs =>
      bind (f x) (fun b => if b then ret (Some x) else findM f xs)
  end.

(** A loop that threads an accumulator through the elements in order. *)
Fixpoint foldM {A B} (f : B -> A -> M Obj B) (acc : B) (arr : list A) : M Obj B :=
  match arr with
  | [] => ret acc
  | x :: xs => bind (f acc x) (fun acc' => foldM f acc' xs)
  end.

End Ops.
End Eff.

Notation "'do' x <- m ; k" := (Eff.bind m (fun x => k))
  (at level 10, x name, m at level 100, k at level 200).
Notation "'exec' m ; k" := (Eff.bind m (fun _ => k))
  (at level 10, m at level 100, k at level 200).

(** An object reference is truthy, [null] is falsy. *)
Definition truthyRef {A} (o : option A) : bool :=
  match o with
  | Some _ => true
  | None => false
  end.

Module ProjectSummary.

Record t : Type := {
  name : string;
  description : string;
  url : string;
  language : option string;
  lastPR : option PullRequest.t;
  myActivities : list Activity.t
}.

(** [description || 'No description available'] *)
Definition descriptionOrDefault (description : option string) : string :=
  match description with
  | Some d => if String.eqb d "" then "No description available"%string else d
  | None => "No description available"%string
  end.

(** [new ProjectSummary(name, description, url, language, lastPR = null)] *)
Definition new (name : string) (description : option string) (url : string)
    (language : option string) (lastPR : option PullRequest.t) : M t Ref :=
  Eff.alloc
    {| name := name; description := descriptionOrDefault description;
       url := url; language := language; lastPR := lastPR;
       myActivities := [] |}.

Definition push_myActivities (a : Activity.t) (p : t) : t :=
  {| name := name p; description := description p; url := url p;
     language := language p; lastPR := lastPR p;
     myActivities := myActivities p ++ [a] |}.

Definition assign_lastPR (pr : PullRequest.t) (p : t) : t :=
  {| name := name p; description := description p; url := url p;
     language := language p; lastPR := Some pr;
     myActivities := myActivities p |}.

Definition addActivity (this : Ref) (activity : Activity.t) : M t unit :=
  Eff.update this (push_myActivities activity).

(** [project.lastPR = lastPR] *)
Definition set_lastPR (this : Ref) (pr : PullRequest.t) : M t unit :=
  Eff.update this (assign_lastPR pr).

(** [this.myActivities.some(a => a.isFromYesterday()) ||
     (this.lastPR && this.lastPR.isFromYesterday())] *)
Definition hasYesterdayActivity (rt : Runtime) (this : Ref) : M t JS.value :=
  do p <- Eff.deref this ;
  if existsb (Activity.isFromYesterday rt) (myActivities p)
  then Eff.ret (JS.VBool true)
  else if truthyRef (lastPR p)
       then do pr <- Eff.member (JS.orNull (lastPR p)) "isFromYesterday" ;
            Eff.ret (JS.VBool (PullRequest.isFromYesterday rt pr))
       else Eff.ret JS.VNull.

Definition getYesterdayActivities (rt : Runtime) (this : Ref) : M t (list Activity.t) :=
  do p <- Eff.deref this ;
  Eff.ret (List.filter (Activity.isFromYesterday rt) (myActivities p)).

End ProjectSummary.

Module GitHubReport.

Record t : Type := {
  username : string;
  generatedAt : Z;
  projects : list Ref;
  totalReposAnalyzed : nat;
  errors : list ErrorEntry
}.

Definition new (rt : Runtime) (username : string) : t :=
  {| username := username; generatedAt := now rt; projects := [];
     totalReposAnalyzed := 0%nat; errors := [] |}.

Definition addProject (project : Ref) (this : t) : t :=
  {| username := username this; generatedAt := generatedAt this;
     projects := projects this ++ [project];
     totalReposAnalyzed := totalReposAnalyzed this; errors := errors this |}.

Definition setTotalRepos (count : nat) (this : t) : t :=
  {| username := username this; generatedAt := generatedAt this;
     projects := projects this;
     totalReposAnalyzed := count; errors := errors this |}.

Definition addError (error : ErrorEntry) (this : t) : t :=
  {| username := username this; generatedAt := generatedAt this;
     projects := projects this;
     totalReposAnalyzed := totalReposAnalyzed this;
     errors := errors this ++ [error] |}.

Definition getActiveProjects (rt : Runtime) (this : t) : M ProjectSummary.t (list Ref) :=
  Eff.filterM (ProjectSummary.hasYesterdayActivity rt) (projects this).

(** The comparator [(a, b) => b.date - a.date]. *)
Definition byDateDescending (a b : Activity.t) : option Z :=
  JSDate.sub (Activity.date b) (Activity.date a).

Definition getAllYesterdayActivities (rt : Runtime) (this : t)
    : M ProjectSummary.t (list Activity.t) :=
  do activities <-
    Eff.foldM
      (fun activities project =>
         do ys <- ProjectSummary.getYesterdayActivities rt project ;
         Eff.ret (activities ++ ys))
      [] (projects this) ;
  Eff.ret (JS.sort byDateDescending activities).

Record Summary : Type := {
  totalRepos : nat;
  activeRepos : nat;
  totalActivities : nat;
  createdPRs : nat;
  comments : nat;
  reviews : nat;
  hasErrors : bool;
  errorCount : nat
}.

Definition hasType (ty : string) (a : Activity.t) : bool :=
  String.eqb (Activity.type a) ty.

Definition getExecutiveSummary (rt : Runtime) (this : t) : M ProjectSummary.t Summary :=
  do activeProjects <- getActiveProjects rt this ;
  do yesterdayActivities <- getAllYesterdayActivities rt this ;
  Eff.ret
    {| totalRepos := totalReposAnalyzed this;
       activeRepos := length activeProjects;
       totalActivities := length yesterdayActivities;
       createdPRs := length (List.filter (hasType "pr_created") yesterdayActivities);
       comments := length (List.filter (hasType "pr_commented") yesterdayActivities);
       reviews := length (List.filter (hasType "pr_reviewed") yesterdayActivities);
       hasErrors := (0 <? length (errors this))%nat;
       errorCount := length (errors this) |}.

End GitHubReport.


Abbreviation Run := (M ProjectSummary.t).

Definition nl : string := String "010"%char EmptyString.

(** [`${v}`] for the values of [JS.value]; the text of a built-in function
    is the one V8 prints. *)
Definition ToString (v : JS.value) : string :=
  match v with
  | JS.VUndefined => "undefined"
  | JS.VNull => "null"
  | JS.VBool true => "true"
  | JS.VBool false => "false"
  | JS.VString s => s
  | JS.VObjectPrototypeMember name =>
      if String.eqb name "__proto__" then "[object Object]"
      else if String.eqb name "constructor"
           then "function Object() { [native code] }"
           else "function " +:+ name +:+ "() { [native code] }"
  end.

(** A string is truthy unless it is empty; [null] and [undefined] are
    falsy. *)
Definition truthyString (o : option string) : bool :=
  match o with
  | Some s => negb (String.eqb s "")
  | None => false
  end.

(** ** utils/logger.js

    The spinner draws on the terminal and holds no state that the rest of
    the program reads; it is left out. *)

Module Logger.

Definition info (rt : Runtime) (message : string) : Run unit :=
  Eff.consoleLog (chalk rt "blue" "ℹ" +:+ " " +:+ message).

Definition success (rt : Runtime) (message : string) : Run unit :=
  Eff.consoleLog (chalk rt "green" "✓" +:+ " " +:+ message).

Definition warning (rt : Runtime) (message : string) : Run unit :=
  Eff.consoleLog (chalk rt "yellow" "⚠" +:+ " " +:+ message).

Definition error (rt : Runtime) (message : string) (context : option string)
    : Run unit :=
  exec Eff.consoleLog (chalk rt "red" "✗" +:+ " " +:+ message) ;
  Eff.pushLoggerError
    {| entry_message := message; entry_context := context;
       entry_timestamp := toISOString rt (now rt) |}.

Definition getErrors : Run (list ErrorEntry) := Eff.getLoggerErrors.

Definition hasErrors : Run bool :=
  do errors <- Eff.getLoggerErrors ;
  Eff.ret (0 <? length errors)%nat.

Definition printSummary (rt : Runtime) : Run unit :=
  exec Eff.consoleLog (nl +:+ chalk rt "bold" (JS.repeat "=" 50)) ;
  exec Eff.consoleLog (chalk rt "bold" "PROCESSING SUMMARY") ;
  exec Eff.consoleLog (chalk rt "bold" (JS.repeat "=" 50)) ;
  do has <- hasErrors ;
  if has
  then
    do errors <- Eff.getLoggerErrors ;
    exec Eff.consoleLog
      (chalk rt "red" (nl +:+ pretty (length errors) +:+ " error(s) occurred:")) ;
    Eff.forEach
      (fun '(index, error) =>
         exec Eff.consoleLog
           (chalk rt "red"
              (pretty (index + 1)%nat +:+ ". " +:+ entry_message error)) ;
         if truthyString (entry_context error)
         then Eff.consoleLog
                (chalk rt "gray"
                   ("   Context: " +:+ default "" (entry_context error)))
         else Eff.ret tt)
      (imap pair errors)
  else
    Eff.consoleLog
      (chalk rt "green" (nl +:+ "✓ All operations completed successfully!")).

End Logger.

(** ** services/github.service.js *)

Module GitHubService.

Record User : Type := { login : string }.

Record Repo : Type := {
  repo_name : string;
  full_name : string;
  repo_description : option string;
  html_url : string;
  repo_language : option string;
  owner : JS.Maybe User
}.

(** A pull request as [pulls.list] returns it; [updated_at] is the time
    value that [new Date] gives the field. *)
Record PullRecord : Type := {
  pull_title : string;
  pull_html_url : string;
  pull_user : JS.Maybe User;
  updated_at : option Z;
  pull_state : option string
}.

Record PayloadPullRequest : Type := {
  payload_pr_title : string;
  payload_pr_html_url : string
}.

Record PayloadIssue : Type := {
  issue_title : string;
  issue_pull_request : bool
}.

Record Payload : Type := {
  action : option string;
  pull_request : JS.Maybe PayloadPullRequest;
  issue : JS.Maybe PayloadIssue;
  comment_html_url : JS.Maybe string;
  review_html_url : JS.Maybe string
}.

(** An event as [activity.listEventsForUser] returns it; [created_at] is
    the time value that [new Date] gives the field. *)
Record Event : Type := {
  event_type : string;
  created_at : option Z;
  event_repo_name : string;
  payload : Payload
}.

Record Rate : Type := { remaining : Z; reset : Z }.

(** The responses of the collaborators.  [repos_listForUser] stands for the
    pages that the loop of [getUserRepos] reads: their concatenation, or the
    rejection of the first page that fails. *)
Record Collaborators : Type := {
  users_getAuthenticated : JS.Response User;
  rateLimit_get : JS.Response Rate;
  repos_listForUser : string -> JS.Response (list Repo);
  pulls_list : string -> string -> JS.Response (list PullRecord);
  activity_listEventsForUser : string -> JS.Response (list Event);
  writeFile : string -> string -> JS.Response unit
}.

Definition validateConnection (rt : Runtime) (api : Collaborators) : Run User :=
  Eff.tryCatch
    (do user <- Eff.await (users_getAuthenticated api) ;
     exec Logger.success rt ("Connected to GitHub as: " +:+ login user) ;
     Eff.ret user)
    (fun error =>
       exec Logger.error rt "Failed to connect to GitHub" (Some (JS.message error)) ;
       Eff.throw {| JS.message := "GitHub authentication failed" |}).

Definition getUserRepos (rt : Runtime) (api : Collaborators) (username : string)
    : Run (list Repo) :=
  Eff.tryCatch
    (exec Logger.info rt ("Fetching repositories for user: " +:+ username) ;
     do repos <- Eff.await (repos_listForUser api username) ;
     exec Logger.success rt ("Found " +:+ pretty (length repos) +:+ " repositories") ;
     Eff.ret repos)
    (fun error =>
       exec Logger.error rt "Failed to fetch repositories" (Some (JS.message error)) ;
       Eff.throw error).

Definition getLastPRForRepo (api : Collaborators) (owner repo : string)
    : Run (option PullRequest.t) :=
  Eff.tryCatch
    (do prs <- Eff.await (pulls_list api owner repo) ;
     match prs with
     | pr :: _ =>
         do user <- Eff.member (pull_user pr) "login" ;
         Eff.ret (Some (PullRequest.new (pull_title pr) (pull_html_url pr)
                          (login user) (updated_at pr) (pull_state pr)))
     | [] => Eff.ret None
     end)
    (fun _ => Eff.ret None).

Definition getRepoDetails (rt : Runtime) (api : Collaborators) (repo : Repo)
    (currentIndex totalRepos : nat) : Run Ref :=
  let repoName := full_name repo in
  Eff.tryCatch
    (do project <-
       ProjectSummary.new (repo_name repo) (repo_description repo)
         (html_url repo) (repo_language repo) None ;
     do repoOwner <- Eff.member (owner repo) "login" ;
     do lastPR <- getLastPRForRepo api (login repoOwner) (repo_name repo) ;
     exec match lastPR with
          | Some pr => ProjectSummary.set_lastPR project pr
          | None => Eff.ret tt
          end ;
     Eff.ret project)
    (fun error =>
       exec Logger.error rt ("Failed to process repo: " +:+ repoName)
              (Some (JS.message error)) ;
       ProjectSummary.new (repo_name repo) (repo_description repo)
         (html_url repo) (repo_language repo) None).

(** The body of the [switch] of [getUserActivity]: the activity that an
    event becomes, if any. *)
Definition activityOfEvent (event : Event) : Run (option Activity.t) :=
  if String.eqb (event_type event) "PullRequestEvent" then
    if bool_decide (action (payload event) = Some "opened"%string) then
      do pr <- Eff.member (pull_request (payload event)) "title" ;
      Eff.ret (Some (Activity.new "pr_created" (payload_pr_title pr)
                       (payload_pr_html_url pr) (created_at event)
                       (event_repo_name event)))
    else Eff.ret None
  else if String.eqb (event_type event) "IssueCommentEvent" then
    do iss <- Eff.member (issue (payload event)) "pull_request" ;
    do commentUrl <- Eff.member (comment_html_url (payload event)) "html_url" ;
    Eff.ret (Some (Activity.new
                     (if issue_pull_request iss
                      then "pr_commented" else "issue_commented")
                     ("Comment on: " +:+ issue_title iss) commentUrl
                     (created_at event) (event_repo_name event)))
  else if String.eqb (event_type event) "PullRequestReviewEvent" then
    do pr <- Eff.member (pull_request (payload event)) "title" ;
    do reviewUrl <- Eff.member (review_html_url (payload event)) "html_url" ;
    Eff.ret (Some (Activity.new "pr_reviewed"
                     ("Review: " +:+ payload_pr_title pr) reviewUrl
                     (created_at event) (event_repo_name event)))
  else Eff.ret None.

Definition getUserActivity (rt : Runtime) (api : Collaborators) (username : string)
    : Run (list Activity.t) :=
  Eff.tryCatch
    (exec Logger.info rt "Fetching recent user activity..." ;
     do events <- Eff.await (activity_listEventsForUser api username) ;
     do activities <-
       Eff.foldM
         (fun activities event =>
            let eventDate := created_at event in
            let weekAgo :=
              JSDate.setDate (tz rt) (JSDate.getDate (tz rt) (now rt) - 7) (now rt) in
            if JSDate.lt eventDate (Some weekAgo) then Eff.ret activities
            else
              do activity <- activityOfEvent event ;
              Eff.ret (match activity with
                       | Some a => activities ++ [a]
                       | None => activities
                       end))
         [] events ;
     exec Logger.success rt
            ("Found " +:+ pretty (length activities) +:+ " recent activities") ;
     Eff.ret activities)
    (fun error =>
       exec Logger.error rt "Failed to fetch user activity" (Some (JS.message error)) ;
       Eff.ret []).

Definition checkRateLimit (rt : Runtime) (api : Collaborators) : Run (option Rate) :=
  Eff.tryCatch
    (do rate <- Eff.await (rateLimit_get api) ;
     exec Logger.info rt
            ("Rate limit: " +:+ pretty (remaining rate)
             +:+ " requests remaining (resets at "
             +:+ toLocaleTimeString rt (reset rate * 1000) +:+ ")") ;
     exec (if remaining rate <? 10
           then Logger.warning rt
                  "Low rate limit remaining - consider waiting before making more requests"
           else Eff.ret tt) ;
     Eff.ret (Some rate))
    (fun _ =>
       exec Logger.warning rt "Could not check rate limit" ;
       Eff.ret None).

End GitHubService.


(** ** index.js *)

Module Index.

Import GitHubService.

Record Options : Type := {
  token : string;
  opt_username : option string;
  output : string
}.

Definition displayConsoleReport (rt : Runtime) (report : GitHubReport.t) : Run unit :=
  do summary <- GitHubReport.getExecutiveSummary rt report ;
  do activeProjects <- GitHubReport.getActiveProjects rt report ;
  do yesterdayActivities <- GitHubReport.getAllYesterdayActivities rt report ;
  exec Eff.consoleLog (chalk rt "bold.underline" "EXECUTIVE SUMMARY") ;
  exec Eff.consoleLog ("User: " +:+ chalk rt "cyan" (GitHubReport.username report)) ;
  exec Eff.consoleLog
    ("Total Repositories: "
     +:+ chalk rt "yellow" (pretty (GitHubReport.totalRepos summary))) ;
  exec Eff.consoleLog
    ("Active Repositories (yesterday): "
     +:+ chalk rt "green" (pretty (GitHubReport.activeRepos summary))) ;
  exec Eff.consoleLog
    ("Total Activities: "
     +:+ chalk rt "blue" (pretty (GitHubReport.totalActivities summary))) ;
  exec (if (0 <? GitHubReport.totalActivities summary)%nat
        then
          exec Eff.consoleLog
            ("  • PRs Created: "
             +:+ chalk rt "green" (pretty (GitHubReport.createdPRs summary))) ;
          exec Eff.consoleLog
            ("  • Comments Made: "
             +:+ chalk rt "blue" (pretty (GitHubReport.comments summary))) ;
          Eff.consoleLog
            ("  • Reviews Given: "
             +:+ chalk rt "magenta" (pretty (GitHubReport.reviews summary)))
        else Eff.ret tt) ;
  exec (if GitHubReport.hasErrors summary
        then Eff.consoleLog
               ("Errors Encountered: "
                +:+ chalk rt "red" (pretty (GitHubReport.errorCount summary)))
        else Eff.ret tt) ;
  exec (if (0 <? length yesterdayActivities)%nat
        then
          exec Eff.consoleLog (nl +:+ chalk rt "bold.underline" "YESTERDAY'S ACTIVITIES") ;
          Eff.forEach
            (fun activity =>
               exec Eff.consoleLog
                 (chalk rt "cyan" "•" +:+ " "
                  +:+ ToString (Activity.getTypeDisplay activity) +:+ ": "
                  +:+ Activity.title activity) ;
               exec Eff.consoleLog
                 ("  " +:+ chalk rt "gray" "Repository:" +:+ " "
                  +:+ Activity.repoName activity) ;
               exec Eff.consoleLog
                 ("  " +:+ chalk rt "gray" "Time:" +:+ " "
                  +:+ Activity.getFormattedDate rt activity) ;
               Eff.consoleLog
                 ("  " +:+ chalk rt "gray" "URL:" +:+ " "
                  +:+ Activity.url activity +:+ nl))
            yesterdayActivities
        else Eff.ret tt) ;
  if (0 <? length activeProjects)%nat
  then
    exec Eff.consoleLog (chalk rt "bold.underline" "ACTIVE PROJECTS") ;
    Eff.forEach
      (fun project =>
         do p <- Eff.deref project ;
         exec Eff.consoleLog (chalk rt "cyan" "•" +:+ " " +:+ ProjectSummary.name p) ;
         exec Eff.consoleLog
           ("  " +:+ chalk rt "gray" "Description:" +:+ " "
            +:+ ProjectSummary.description p) ;
         exec (if truthyString (ProjectSummary.language p)
               then Eff.consoleLog
                      ("  " +:+ chalk rt "gray" "Language:" +:+ " "
                       +:+ default "" (ProjectSummary.language p))
               else Eff.ret tt) ;
         do activities <- ProjectSummary.getYesterdayActivities rt project ;
         exec Eff.consoleLog
           ("  " +:+ chalk rt "gray" "Activities:" +:+ " "
            +:+ pretty (length activities)) ;
         Eff.consoleLog
           ("  " +:+ chalk rt "gray" "URL:" +:+ " "
            +:+ ProjectSummary.url p +:+ nl))
      activeProjects
  else
    exec Eff.consoleLog (nl +:+ chalk rt "yellow" "No activity detected for yesterday.") ;
    exec Eff.consoleLog "This could mean:" ;
    exec Eff.consoleLog "• No GitHub activity occurred yesterday" ;
    exec Eff.consoleLog "• Activities occurred in private repositories not accessible" ;
    Eff.consoleLog "• Rate limiting prevented full data collection".

(** The pieces of the markdown document, in the order in which
    [generateMarkdownReport] appends them. *)

Definition markdownHeader (rt : Runtime) (report : GitHubReport.t)
    (summary : GitHubReport.Summary) : string :=
  let yesterday :=
    JSDate.setDate (tz rt) (JSDate.getDate (tz rt) (now rt) - 1) (now rt) in
  "# GitHub Activity Report" +:+ nl +:+ nl
  +:+ "**User:** " +:+ GitHubReport.username report +:+ "  " +:+ nl
  +:+ "**Generated:** " +:+ toLocaleString rt (GitHubReport.generatedAt report)
  +:+ "  " +:+ nl
  +:+ "**Report Date:** " +:+ toDateString rt yesterday +:+ nl +:+ nl
  +:+ "## Executive Summary" +:+ nl +:+ nl
  +:+ "- **Total Repositories Analyzed:** "
  +:+ pretty (GitHubReport.totalRepos summary) +:+ nl
  +:+ "- **Active Repositories:** "
  +:+ pretty (GitHubReport.activeRepos summary) +:+ nl
  +:+ "- **Total Activities:** "
  +:+ pretty (GitHubReport.totalActivities summary) +:+ nl
  +:+ "  - PRs Created: " +:+ pretty (GitHubReport.createdPRs summary) +:+ nl
  +:+ "  - Comments Made: " +:+ pretty (GitHubReport.comments summary) +:+ nl
  +:+ "  - Reviews Given: " +:+ pretty (GitHubReport.reviews summary) +:+ nl
  +:+ nl.

Definition markdownActivity (rt : Runtime) (activity : Activity.t) : string :=
  "### " +:+ ToString (Activity.getTypeDisplay activity) +:+ nl
  +:+ "**" +:+ Activity.title activity +:+ "**" +:+ nl
  +:+ "- Repository: " +:+ Activity.repoName activity +:+ nl
  +:+ "- Date: " +:+ Activity.getFormattedDate rt activity +:+ nl
  +:+ "- [View on GitHub](" +:+ Activity.url activity +:+ ")" +:+ nl
  +:+ nl.

Definition markdownActivities (rt : Runtime) (yesterdayActivities : list Activity.t)
    : string :=
  if (0 <? length yesterdayActivities)%nat
  then "## Yesterday's Activities" +:+ nl +:+ nl
       +:+ String.concat "" (map (markdownActivity rt) yesterdayActivities)
  else "".

Definition markdownActiveProject (rt : Runtime) (project : Ref) : Run string :=
  do p <- Eff.deref project ;
  do activities <- ProjectSummary.getYesterdayActivities rt project ;
  Eff.ret
    ("### [" +:+ ProjectSummary.name p +:+ "](" +:+ ProjectSummary.url p +:+ ")" +:+ nl
     +:+ ProjectSummary.description p +:+ nl +:+ nl
     +:+ (if truthyString (ProjectSummary.language p)
          then "**Language:** " +:+ default "" (ProjectSummary.language p)
               +:+ "  " +:+ nl
          else "")
     +:+ (if (0 <? length activities)%nat
          then "**Yesterday's Activities:**" +:+ nl
               +:+ String.concat ""
                     (map (fun activity =>
                             "- " +:+ ToString (Activity.getTypeDisplay activity)
                             +:+ ": [" +:+ Activity.title activity +:+ "]("
                             +:+ Activity.url activity +:+ ")" +:+ nl)
                          activities)
          else "")
     +:+ match ProjectSummary.lastPR p with
         | Some pr =>
             "**Latest PR:** [" +:+ PullRequest.title pr +:+ "]("
             +:+ PullRequest.url pr +:+ ") by " +:+ PullRequest.author pr
             +:+ " (" +:+ PullRequest.getFormattedDate rt pr +:+ ")" +:+ nl
         | None => ""
         end
     +:+ nl).

Definition markdownActiveProjects (rt : Runtime) (activeProjects : list Ref)
    : Run string :=
  if (0 <? length activeProjects)%nat
  then
    Eff.foldM
      (fun markdown project =>
         do piece <- markdownActiveProject rt project ;
         Eff.ret (markdown +:+ piece))
      ("## Active Projects" +:+ nl +:+ nl) activeProjects
  else Eff.ret "".

Definition markdownRepository (rt : Runtime) (project : Ref) : Run string :=
  do active <- ProjectSummary.hasYesterdayActivity rt project ;
  do p <- Eff.deref project ;
  let status := if JS.ToBoolean active then "🟢" else "⚪" in
  Eff.ret
    (status +:+ " [" +:+ ProjectSummary.name p +:+ "](" +:+ ProjectSummary.url p +:+ ")"
     +:+ (if truthyString (ProjectSummary.language p)
          then " (" +:+ default "" (ProjectSummary.language p) +:+ ")"
          else "")
     +:+ "  " +:+ nl +:+ ProjectSummary.description p +:+ nl +:+ nl).

Definition markdownAllRepositories (rt : Runtime) (report : GitHubReport.t)
    (activeProjects : list Ref) : Run string :=
  if (length activeProjects <? length (GitHubReport.projects report))%nat
  then
    do inactiveProjects <-
      Eff.filterM
        (fun p =>
           do active <- ProjectSummary.hasYesterdayActivity rt p ;
           Eff.ret (JS.VBool (negb (JS.ToBoolean active))))
        (GitHubReport.projects report) ;
    Eff.foldM
      (fun markdown project =>
         do piece <- markdownRepository rt project ;
         Eff.ret (markdown +:+ piece))
      ("## All Repositories ("
       +:+ pretty (length (GitHubReport.projects report)) +:+ " total)"
       +:+ nl +:+ nl)
      (GitHubReport.projects report)
  else Eff.ret "".

Definition markdownErrors (summary : GitHubReport.Summary) : string :=
  if GitHubReport.hasErrors summary
  then "## Errors Encountered" +:+ nl +:+ nl
       +:+ pretty (GitHubReport.errorCount summary)
       +:+ " error(s) occurred during report generation. Check the console output for details."
       +:+ nl +:+ nl
  else "".

Definition markdownFooter : string :=
  "---" +:+ nl +:+ "*Report generated by GitHub Activity Report Generator*" +:+ nl.

Definition generateMarkdownReport (rt : Runtime) (report : GitHubReport.t)
    : Run string :=
  do summary <- GitHubReport.getExecutiveSummary rt report ;
  do activeProjects <- GitHubReport.getActiveProjects rt report ;
  do yesterdayActivities <- GitHubReport.getAllYesterdayActivities rt report ;
  do activeSection <- markdownActiveProjects rt activeProjects ;
  do allSection <- markdownAllRepositories rt report activeProjects ;
  Eff.ret
    (markdownHeader rt report summary
     +:+ markdownActivities rt yesterdayActivities
     +:+ activeSection
     +:+ allSection
     +:+ markdownErrors summary
     +:+ markdownFooter).

(** [p.name === activity.repoName ||
     p.name === activity.repoName.split('/').pop()] *)
Definition nameMatches (name : string) (activity : Activity.t) : bool :=
  String.eqb name (Activity.repoName activity)
  || bool_decide (Some name = JS.pop (JS.split "/"%char (Activity.repoName activity))).

(** The callback of [userActivities.forEach]: map one activity to its
    project. *)
Definition mapActivity (projects : list Ref) (activity : Activity.t) : Run unit :=
  do project <-
    Eff.findM
      (fun p =>
         do obj <- Eff.deref p ;
         Eff.ret (nameMatches (ProjectSummary.name obj) activity))
      projects ;
  match project with
  | Some project => ProjectSummary.addActivity project activity
  | None => Eff.ret tt
  end.

(** The loop over the repositories: the local array [projects] and the
    report after it. *)
Definition processRepositories (rt : Runtime) (api : Collaborators)
    (repos : list Repo) (report : GitHubReport.t)
    : Run (list Ref * GitHubReport.t) :=
  Eff.foldM
    (fun '(projects, report) '(i, repo) =>
       do project <- getRepoDetails rt api repo i (length repos) ;
       Eff.ret (projects ++ [project], GitHubReport.addProject project report))
    ([], report) (imap pair repos).

Definition generateReport (rt : Runtime) (api : Collaborators) (options : Options)
    : Run GitHubReport.t :=
  exec Eff.consoleLog
    (chalk rt "bold.blue" (nl +:+ "🚀 GitHub Activity Report Generator" +:+ nl)) ;
  do authenticatedUser <- validateConnection rt api ;
  let username :=
    if truthyString (opt_username options)
    then default "" (opt_username options)
    else login authenticatedUser in
  do rate <- checkRateLimit rt api ;
  let report := GitHubReport.new rt username in
  do repos <- getUserRepos rt api username ;
  let report := GitHubReport.setTotalRepos (length repos) report in
  exec Eff.consoleLog
    (chalk rt "bold"
       (nl +:+ "Processing " +:+ pretty (length repos) +:+ " repositories..." +:+ nl)) ;
  do processed <- processRepositories rt api repos report ;
  let projects := fst processed in
  let report := snd processed in
  do userActivities <- getUserActivity rt api username ;
  exec Eff.forEach (mapActivity projects) userActivities ;
  exec Eff.consoleLog (nl +:+ chalk rt "bold.green" "📊 REPORT GENERATED" +:+ nl) ;
  exec displayConsoleReport rt report ;
  do markdownContent <- generateMarkdownReport rt report ;
  exec Eff.await (writeFile api (output options) markdownContent) ;
  exec Eff.recordFile (output options) markdownContent ;
  exec Logger.success rt ("Report saved to: " +:+ output options) ;
  exec Logger.printSummary rt ;
  Eff.ret report.

(** The handler given to [program.action]: the exit code of the process ([None] when
    the process ends on its own) follows from how [generateReport]
    completes. *)
Definition main (rt : Runtime) (api : Collaborators) (options : Options)
    : Run (option Z) :=
  Eff.tryCatch
    (do report <- generateReport rt api options ;
     Eff.ret None)
    (fun error =>
       exec Logger.error rt "Failed to generate report" (Some (JS.message error)) ;
       Eff.ret (Some 1)).

(** The world at the start of a run. *)
Definition initialWorld : World ProjectSummary.t :=
  {| heap := []; loggerErrors := []; console := []; files := [] |}.

End Index.


(** ** Definitions used to state the properties *)

(** The local time at which the local day [k] days after the day of [now]
    begins, and the instant of that midnight. *)
Definition localDayStart (rt : Runtime) (k : Z) : Z :=
  (JSDate.Day (JSDate.LocalTime (tz rt) (now rt)) + k) * JSDate.msPerDay.

Definition localMidnight (rt : Runtime) (k : Z) : Z :=
  JSDate.UTC (tz rt) (localDayStart rt k).

(** A host without styling whose date formats print the time value. *)
Definition plainRuntime (z : JSDate.TimeZone) (clock : Z) : Runtime :=
  {| tz := z; now := clock;
     chalk := fun _ s => s;
     toLocaleDateString := pretty;
     toLocaleString := pretty;
     toLocaleTimeString := pretty;
     toDateString := pretty;
     toISOString := pretty |}.

(** The morning of 2024-03-11 in US Eastern time, the day after the clocks
    went forward. *)
Definition dstRuntime : Runtime :=
  plainRuntime JSDate.usEastern2024 (JSDate.utc 2024 2 11 15 0).

(** The window as the specification words it: the 24 hours that start at
    [Y0]. *)
Definition in24hWindow (Y0 t : Z) : Prop := Y0 <= t < Y0 + JSDate.msPerDay.

(** The local time [x] is the local time of the instant that [UTC] gives
    it: no transition of the zone skips it. *)
Definition wallClockExists (z : JSDate.TimeZone) (x : Z) : Prop :=
  JSDate.LocalTime z (JSDate.UTC z x) = x.

(** A date lies in the window of yesterday. *)
Definition inYesterdayWindow (rt : Runtime) (d : option Z) : Prop :=
  exists t, d = Some t /\ yesterday rt <= t < tomorrow rt.

(** The references [refs] name the objects [objs] in the store. *)
Definition resolves {Obj} (w : World Obj) (refs : list Ref) (objs : list Obj) : Prop :=
  Forall2 (fun r o => heap w !! r = Some o) refs objs.

(** What [hasYesterdayActivity] and [getYesterdayActivities] compute from
    the fields of a project. *)
Definition hasYesterdayActivityOf (rt : Runtime) (p : ProjectSummary.t) : JS.value :=
  if existsb (Activity.isFromYesterday rt) (ProjectSummary.myActivities p)
  then JS.VBool true
  else match ProjectSummary.lastPR p with
       | Some pr => JS.VBool (PullRequest.isFromYesterday rt pr)
       | None => JS.VNull
       end.

Definition yesterdayActivitiesOf (rt : Runtime) (p : ProjectSummary.t)
    : list Activity.t :=
  List.filter (Activity.isFromYesterday rt) (ProjectSummary.myActivities p).

(** The first project, in the order of [projects], whose name matches the
    activity. *)
Definition firstMatch (w : World ProjectSummary.t) (projects : list Ref)
    (activity : Activity.t) : option Ref :=
  List.find
    (fun r =>
       match heap w !! r with
       | Some p => Index.nameMatches (ProjectSummary.name p) activity
       | None => false
       end)
    projects.

(** The project made from the listing metadata alone, and the logger entry
    of a repository whose details could not be read. *)
Definition minimalProject (repo : GitHubService.Repo) : ProjectSummary.t :=
  {| ProjectSummary.name := GitHubService.repo_name repo;
     ProjectSummary.description :=
       ProjectSummary.descriptionOrDefault (GitHubService.repo_description repo);
     ProjectSummary.url := GitHubService.html_url repo;
     ProjectSummary.language := GitHubService.repo_language repo;
     ProjectSummary.lastPR := None;
     ProjectSummary.myActivities := [] |}.

Definition detailsFail (repo : GitHubService.Repo) : bool :=
  negb (truthyRef (JS.toOption (GitHubService.owner repo))).

(** The message of the TypeError that [repo.owner.login] throws, if it
    throws. *)
Definition ownerError (repo : GitHubService.Repo) : option string :=
  match GitHubService.owner repo with
  | JS.Present _ => None
  | JS.Absent n => Some (JS.message (JS.cannotRead n "login"))
  end.

Definition repoErrorEntry (rt : Runtime) (repo : GitHubService.Repo) : ErrorEntry :=
  {| entry_message := "Failed to process repo: " +:+ GitHubService.full_name repo;
     entry_context := ownerError repo;
     entry_timestamp := toISOString rt (now rt) |}.

(** The lines of [printSummary] for the error at position [index]. *)
Definition errorLines (rt : Runtime) (index : nat) (error : ErrorEntry) : list string :=
  chalk rt "red" (pretty (index + 1)%nat +:+ ". " +:+ entry_message error)
  :: (if truthyString (entry_context error)
      then [chalk rt "gray" ("   Context: " +:+ default "" (entry_context error))]
      else []).

(** [a] may stand directly before [b] in a list sorted by date,
    descending. *)
Definition notOlder (a b : Activity.t) : Prop :=
  exists ta tb, Activity.date a = Some ta /\ Activity.date b = Some tb /\ ta >= tb.

(** An activity that none of the three counts of the summary counts. *)
Definition otherType (a : Activity.t) : bool :=
  negb (GitHubReport.hasType "pr_created" a
        || GitHubReport.hasType "pr_commented" a
        || GitHubReport.hasType "pr_reviewed" a).

(** Two calls of [getExecutiveSummary] in a row. *)
Definition getExecutiveSummaryTwice (rt : Runtime) (report : GitHubReport.t)
    : Run (GitHubReport.Summary * GitHubReport.Summary) :=
  do first <- GitHubReport.getExecutiveSummary rt report ;
  do second <- GitHubReport.getExecutiveSummary rt report ;
  Eff.ret (first, second).

(** The last pull request that [getLastPRForRepo] finds, and the project
    that [getRepoDetails] builds for a repository whose owner is known. *)
Definition lastPRFor (api : GitHubService.Collaborators) (owner repo : string)
    : option PullRequest.t :=
  match GitHubService.pulls_list api owner repo with
  | JS.Resolved (pr :: _) =>
      match GitHubService.pull_user pr with
      | JS.Present user =>
          Some (PullRequest.new (GitHubService.pull_title pr)
                  (GitHubService.pull_html_url pr) (GitHubService.login user)
                  (GitHubService.updated_at pr) (GitHubService.pull_state pr))
      | JS.Absent _ => None
      end
  | _ => None
  end.

Definition detailedProject (api : GitHubService.Collaborators)
    (repo : GitHubService.Repo) : ProjectSummary.t :=
  match GitHubService.owner repo with
  | JS.Present repoOwner =>
      {| ProjectSummary.name := GitHubService.repo_name repo;
         ProjectSummary.description :=
           ProjectSummary.descriptionOrDefault (GitHubService.repo_description repo);
         ProjectSummary.url := GitHubService.html_url repo;
         ProjectSummary.language := GitHubService.repo_language repo;
         ProjectSummary.lastPR :=
           lastPRFor api (GitHubService.login repoOwner) (GitHubService.repo_name repo);
         ProjectSummary.myActivities := [] |}
  | JS.Absent _ => minimalProject repo
  end.

(** The world after [getRepoDetails]: one new project when the details are
    read, and when they are not, the project that the [try] block left
    behind, the minimal project, an entry of the logger and its line on the
    console. *)
Definition worldAfterDetails (rt : Runtime) (api : GitHubService.Collaborators)
    (repo : GitHubService.Repo) (w : World ProjectSummary.t)
    : World ProjectSummary.t :=
  if detailsFail repo
  then {| heap := heap w ++ [minimalProject repo; minimalProject repo];
          loggerErrors := loggerErrors w ++ [repoErrorEntry rt repo];
          console := console w
                     ++ [chalk rt "red" "✗" +:+ " " +:+ "Failed to process repo: "
                         +:+ GitHubService.full_name repo];
          files := files w |}
  else {| heap := heap w ++ [detailedProject api repo];
          loggerErrors := loggerErrors w;
          console := console w;
          files := files w |}.

Definition refAfterDetails (repo : GitHubService.Repo) (w : World ProjectSummary.t)
    : Ref :=
  if detailsFail repo then S (length (heap w)) else length (heap w).

(** The references and the world after the loop over the repositories. *)
Fixpoint refsAfterRepos (rt : Runtime) (api : GitHubService.Collaborators)
    (repos : list GitHubService.Repo) (w : World ProjectSummary.t) : list Ref :=
  match repos with
  | [] => []
  | repo :: rest =>
      refAfterDetails repo w
      :: refsAfterRepos rt api rest (worldAfterDetails rt api repo w)
  end.

Fixpoint worldAfterRepos (rt : Runtime) (api : GitHubService.Collaborators)
    (repos : list GitHubService.Repo) (w : World ProjectSummary.t)
    : World ProjectSummary.t :=
  match repos with
  | [] => w
  | repo :: rest => worldAfterRepos rt api rest (worldAfterDetails rt api repo w)
  end.

Definition addProjects (refs : list Ref) (report : GitHubReport.t) : GitHubReport.t :=
  fold_left (fun report r => GitHubReport.addProject r report) refs report.

(** The project that the loop stores for a repository. *)
Definition projectOfRepo (api : GitHubService.Collaborators)
    (repo : GitHubService.Repo) : ProjectSummary.t :=
  if detailsFail repo then minimalProject repo else detailedProject api repo.

(** A project with more activities at the end of its list. *)
Definition withActivities (p : ProjectSummary.t) (activities : list Activity.t)
    : ProjectSummary.t :=
  {| ProjectSummary.name := ProjectSummary.name p;
     ProjectSummary.description := ProjectSummary.description p;
     ProjectSummary.url := ProjectSummary.url p;
     ProjectSummary.language := ProjectSummary.language p;
     ProjectSummary.lastPR := ProjectSummary.lastPR p;
     ProjectSummary.myActivities := ProjectSummary.myActivities p ++ activities |}.

(** The world after [mapActivity]: the activity is pushed to the project
    that [firstMatch] names, if there is one. *)
Definition worldAfterActivity (projects : list Ref) (activity : Activity.t)
    (w : World ProjectSummary.t) : World ProjectSummary.t :=
  match firstMatch w projects activity with
  | Some r =>
      match heap w !! r with
      | Some p =>
          {| heap := <[r := ProjectSummary.push_myActivities activity p]> (heap w);
             loggerErrors := loggerErrors w; console := console w;
             files := files w |}
      | None => w
      end
  | None => w
  end.

(** The activities that are mapped to the project behind [r]. *)
Definition mappedTo (w : World ProjectSummary.t) (projects : list Ref) (r : Ref)
    (activities : list Activity.t) : list Activity.t :=
  List.filter (fun a => bool_decide (firstMatch w projects a = Some r)) activities.

(** The activities that are mapped to some project. *)
Definition mapped (w : World ProjectSummary.t) (projects : list Ref)
    (activities : list Activity.t) : list Activity.t :=
  List.filter (fun a => bool_decide (is_Some (firstMatch w projects a))) activities.

(** The world after more lines on the console. *)
Definition logLines (lines : list string) (w : World ProjectSummary.t)
    : World ProjectSummary.t :=
  {| heap := heap w; loggerErrors := loggerErrors w;
     console := console w ++ lines; files := files w |}.

(** The lines of [printSummary] for a logger that holds [errors]. *)
Definition summaryLines (rt : Runtime) (errors : list ErrorEntry) : list string :=
  [ nl +:+ chalk rt "bold" (JS.repeat "=" 50);
    chalk rt "bold" "PROCESSING SUMMARY";
    chalk rt "bold" (JS.repeat "=" 50) ]
  ++ (if (0 <? length errors)%nat
      then chalk rt "red" (nl +:+ pretty (length errors) +:+ " error(s) occurred:")
           :: concat (imap (errorLines rt) errors)
      else [chalk rt "green" (nl +:+ "✓ All operations completed successfully!")]).

(** ** Examples *)

(** Three projects on 2024-03-11 (see [dstRuntime]): one with a pull
    request opened yesterday, one with a review and an issue comment of
    yesterday and an older review, and one without activities whose last
    pull request was updated yesterday. *)
Definition exampleAlpha : ProjectSummary.t :=
  {| ProjectSummary.name := "alpha"; ProjectSummary.description := "first";
     ProjectSummary.url := "https://example.org/alpha";
     ProjectSummary.language := Some "JavaScript"%string;
     ProjectSummary.lastPR := None;
     ProjectSummary.myActivities :=
       [Activity.new "pr_created" "Add parser" "https://example.org/alpha/pull/1"
          (Some (JSDate.utc 2024 2 10 12 0)) "me/alpha"] |}.

Definition exampleBeta : ProjectSummary.t :=
  {| ProjectSummary.name := "beta"; ProjectSummary.description := "second";
     ProjectSummary.url := "https://example.org/beta";
     ProjectSummary.language := None;
     ProjectSummary.lastPR := None;
     ProjectSummary.myActivities :=
       [Activity.new "pr_reviewed" "Review: old" "https://example.org/beta/pull/1"
          (Some (JSDate.utc 2024 2 8 9 0)) "me/beta";
        Activity.new "pr_reviewed" "Review: fix" "https://example.org/beta/pull/2"
          (Some (JSDate.utc 2024 2 10 13 0)) "me/beta";
        Activity.new "issue_commented" "Comment on: bug"
          "https://example.org/beta/issues/3"
          (Some (JSDate.utc 2024 2 10 20 0)) "me/beta"] |}.

Definition exampleGamma : ProjectSummary.t :=
  {| ProjectSummary.name := "gamma"; ProjectSummary.description := "third";
     ProjectSummary.url := "https://example.org/gamma";
     ProjectSummary.language := None;
     ProjectSummary.lastPR :=
       Some (PullRequest.new "Bump" "https://example.org/gamma/pull/9" "bot"
               (Some (JSDate.utc 2024 2 10 15 0)) (Some "open"%string));
     ProjectSummary.myActivities := [] |}.

Definition exampleProjects : list ProjectSummary.t :=
  [exampleAlpha; exampleBeta; exampleGamma].

Definition exampleWorld : World ProjectSummary.t :=
  {| heap := exampleProjects; loggerErrors := []; console := []; files := [] |}.

Definition exampleReport : GitHubReport.t :=
  {| GitHubReport.username := "me";
     GitHubReport.generatedAt := JSDate.utc 2024 2 11 15 0;
     GitHubReport.projects := [0; 1; 2]%nat;
     GitHubReport.totalReposAnalyzed := 3%nat;
     GitHubReport.errors := [] |}.

(** Activities as they are fetched: for [beta] by its full name, for
    [alpha] by its bare name, and one for a repository that is not listed. *)
Definition exampleActivities : list Activity.t :=
  [ Activity.new "pr_commented" "Comment on: fix" "https://example.org/c/1"
      (Some (JSDate.utc 2024 2 10 16 0)) "me/beta";
    Activity.new "pr_created" "Elsewhere" "https://example.org/c/2"
      (Some (JSDate.utc 2024 2 10 17 0)) "other/delta";
    Activity.new "pr_created" "More" "https://example.org/c/3"
      (Some (JSDate.utc 2024 2 10 18 0)) "alpha" ].

(** Collaborators that list two repositories, the second without an
    owner, so that reading its details fails. *)
Definition exampleRepoAlpha : GitHubService.Repo :=
  {| GitHubService.repo_name := "alpha"; GitHubService.full_name := "me/alpha";
     GitHubService.repo_description := Some "first"%string;
     GitHubService.html_url := "https://example.org/alpha";
     GitHubService.repo_language := Some "JavaScript"%string;
     GitHubService.owner := JS.Present {| GitHubService.login := "me" |} |}.

Definition exampleRepoBeta : GitHubService.Repo :=
  {| GitHubService.repo_name := "beta"; GitHubService.full_name := "me/beta";
     GitHubService.repo_description := None;
     GitHubService.html_url := "https://example.org/beta";
     GitHubService.repo_language := None;
     GitHubService.owner := JS.Absent JS.null |}.

Definition exampleRepos : list GitHubService.Repo :=
  [exampleRepoAlpha; exampleRepoBeta].

Definition exampleEvents : list GitHubService.Event :=
  [ {| GitHubService.event_type := "IssueCommentEvent";
       GitHubService.created_at := Some (JSDate.utc 2024 2 10 12 0);
       GitHubService.event_repo_name := "me/alpha";
       GitHubService.payload :=
         {| GitHubService.action := Some "created"%string;
            GitHubService.pull_request := JS.Absent JS.undefined;
            GitHubService.issue :=
              JS.Present {| GitHubService.issue_title := "bug";
                            GitHubService.issue_pull_request := false |};
            GitHubService.comment_html_url := JS.Present "https://example.org/c/4"%string;
            GitHubService.review_html_url := JS.Absent JS.undefined |} |} ].

Definition exampleApi : GitHubService.Collaborators :=
  {| GitHubService.users_getAuthenticated :=
       JS.Resolved {| GitHubService.login := "me" |};
     GitHubService.rateLimit_get :=
       JS.Resolved {| GitHubService.remaining := 4000; GitHubService.reset := 1710172800 |};
     GitHubService.repos_listForUser := fun _ => JS.Resolved exampleRepos;
     GitHubService.pulls_list := fun _ _ => JS.Resolved [];
     GitHubService.activity_listEventsForUser := fun _ => JS.Resolved exampleEvents;
     GitHubService.writeFile := fun _ _ => JS.Resolved tt |}.

Definition exampleOptions : Index.Options :=
  {| Index.token := "secret"; Index.opt_username := None;
     Index.output := "github-report.md" |}.

(** ** Further definitions: the loop of [getUserRepos], the week of
    [getUserActivity] *)

(** The [while] loop of [getUserRepos]: pages of 100 are requested from
    [page] on and pushed to [repos] until a page comes back that does not
    hold exactly 100 repositories; a rejected request ends the loop with
    that rejection.  [None] stands for a loop that is still running after
    [fuel] requests. *)
Fixpoint readRepoPages (fuel : nat)
    (listForUser : nat -> JS.Response (list GitHubService.Repo))
    (page : nat) (repos : list GitHubService.Repo)
    : option (JS.Response (list GitHubService.Repo)) :=
  match fuel with
  | O => None
  | S fuel' =>
      match listForUser page with
      | JS.Rejected e => Some (JS.Rejected e)
      | JS.Resolved data =>
          if (length data =? 100)%nat
          then readRepoPages fuel' listForUser (S page) (repos ++ data)
          else Some (JS.Resolved (repos ++ data))
      end
  end.

(** The date that [getUserActivity] calls [weekAgo]. *)
Abbreviation weekAgo rt :=
  (JSDate.setDate (tz rt) (JSDate.getDate (tz rt) (now rt) - 7) (now rt)).

(** The four types that [getUserActivity] gives to activities, and the four
    labels of [typeMap]. *)
Definition knownTypes : list string :=
  ["pr_created"; "pr_commented"; "pr_reviewed"; "issue_commented"]%string.

Definition knownLabels : list string :=
  ["Created PR"; "Commented on PR"; "Reviewed PR"; "Commented on Issue"]%string.

(** A world that differs from [w] on the console alone. *)
Definition onlyConsole (w w' : World ProjectSummary.t) : Prop :=
  heap w' = heap w /\ loggerErrors w' = loggerErrors w /\ files w' = files w
  /\ exists lines, console w' = console w ++ lines.

(** The time zone one hour east of UTC, all year. *)
Definition cetRuntime : Runtime :=
  plainRuntime (JSDate.fixedZone JSDate.msPerHour) (JSDate.utc 2024 5 15 9 30).

(** An event whose payload lacks a field that [getUserActivity] reads for
    it. *)
Definition payloadMissing (event : GitHubService.Event) : bool :=
  let p := GitHubService.payload event in
  if String.eqb (GitHubService.event_type event) "PullRequestEvent" then
    bool_decide (GitHubService.action p = Some "opened"%string)
    && negb (truthyRef (JS.toOption (GitHubService.pull_request p)))
  else if String.eqb (GitHubService.event_type event) "IssueCommentEvent" then
    negb (truthyRef (JS.toOption (GitHubService.issue p)))
    || negb (truthyRef (JS.toOption (GitHubService.comment_html_url p)))
  else if String.eqb (GitHubService.event_type event) "PullRequestReviewEvent" then
    negb (truthyRef (JS.toOption (GitHubService.pull_request p)))
    || negb (truthyRef (JS.toOption (GitHubService.review_html_url p)))
  else false.

(** The events that [getUserActivity] looks at: those not older than a
    week. *)
Definition recentEvent (rt : Runtime) (event : GitHubService.Event) : bool :=
  negb (JSDate.lt (GitHubService.created_at event) (Some (weekAgo rt))).

(** A listing that answers page 1 with 100 repositories and page 2 with
    two. *)
Definition examplePages (page : nat) : JS.Response (list GitHubService.Repo) :=
  match page with
  | 1%nat => JS.Resolved (replicate 100 exampleRepoAlpha)
  | 2%nat => JS.Resolved exampleRepos
  | _ => JS.Rejected {| JS.message := "Not Found" |}
  end.

(** The body of the loop of [getUserActivity] over the events. *)
Definition userActivityStep (rt : Runtime) (activities : list Activity.t)
    (event : GitHubService.Event) : Run (list Activity.t) :=
  let eventDate := GitHubService.created_at event in
  let weekAgo :=
    JSDate.setDate (tz rt) (JSDate.getDate (tz rt) (now rt) - 7) (now rt) in
  if JSDate.lt eventDate (Some weekAgo) then Eff.ret activities
  else
    do activity <- GitHubService.activityOfEvent event ;
    Eff.ret (match activity with
             | Some a => activities ++ [a]
             | None => activities
             end).

(** Two shapes of a computation on a store [h]: it completes normally and
    leaves the world as it is ([reads]), or it completes normally and only
    writes lines on the console ([logs]); [P] holds of the result. *)
Definition reads {A} (h : list ProjectSummary.t) (m : Run A) (P : A -> Prop) : Prop :=
  exists a, P a /\ forall w, heap w = h -> m w = (Normal a, w).

Definition logs {A} (h : list ProjectSummary.t) (m : Run A) (P : A -> Prop) : Prop :=
  exists a lines,
    P a /\ forall w, heap w = h -> m w = (Normal a, logLines lines w).

(** All the references of [refs] name objects of the store [h]. *)
Definition allocated (h : list ProjectSummary.t) (refs : list Ref) : Prop :=
  forall r, In r refs -> is_Some (h !! r).

(** The world after [writeFile] and the two closing messages of
    [generateReport]. *)
Definition worldAfterSaving (rt : Runtime) (path content : string)
    (w : World ProjectSummary.t) : World ProjectSummary.t :=
  {| heap := heap w; loggerErrors := loggerErrors w;
     console := console w
                ++ (chalk rt "green" "✓" +:+ " " +:+ "Report saved to: " +:+ path)
                   :: summaryLines rt (loggerErrors w);
     files := files w ++ [(path, content)] |}.

(** The world after a call of [logger.error]. *)
Definition worldAfterError (rt : Runtime) (message : string) (context : option string)
    (w : World ProjectSummary.t) : World ProjectSummary.t :=
  {| heap := heap w;
     loggerErrors := loggerErrors w
                     ++ [{| entry_message := message; entry_context := context;
                            entry_timestamp := toISOString rt (now rt) |}];
     console := console w ++ [chalk rt "red" "✗" +:+ " " +:+ message];
     files := files w |}.

(** The name under which [generateReport] looks the user up. *)
Definition reportUsername (options : Index.Options) (user : GitHubService.User)
    : string :=
  if truthyString (Index.opt_username options)
  then default "" (Index.opt_username options)
  else GitHubService.login user.

(** Collaborators that reject the authentication, and collaborators that
    reject the listing of the repositories. *)
Definition unauthorizedApi : GitHubService.Collaborators :=
  {| GitHubService.users_getAuthenticated :=
       JS.Rejected {| JS.message := "Bad credentials" |};
     GitHubService.rateLimit_get := GitHubService.rateLimit_get exampleApi;
     GitHubService.repos_listForUser := GitHubService.repos_listForUser exampleApi;
     GitHubService.pulls_list := GitHubService.pulls_list exampleApi;
     GitHubService.activity_listEventsForUser :=
       GitHubService.activity_listEventsForUser exampleApi;
     GitHubService.writeFile := GitHubService.writeFile exampleApi |}.

Definition unlistedApi : GitHubService.Collaborators :=
  {| GitHubService.users_getAuthenticated :=
       GitHubService.users_getAuthenticated exampleApi;
     GitHubService.rateLimit_get := GitHubService.rateLimit_get exampleApi;
     GitHubService.repos_listForUser :=
       fun _ => JS.Rejected {| JS.message := "Not Found" |};
     GitHubService.pulls_list := GitHubService.pulls_list exampleApi;
     GitHubService.activity_listEventsForUser :=
       GitHubService.activity_listEventsForUser exampleApi;
     GitHubService.writeFile := GitHubService.writeFile exampleApi |}.

(** Collaborators that cannot write the file. *)
Definition readOnlyApi : GitHubService.Collaborators :=
  {| GitHubService.users_getAuthenticated :=
       GitHubService.users_getAuthenticated exampleApi;
     GitHubService.rateLimit_get := GitHubService.rateLimit_get exampleApi;
     GitHubService.repos_listForUser := GitHubService.repos_listForUser exampleApi;
     GitHubService.pulls_list := GitHubService.pulls_list exampleApi;
     GitHubService.activity_listEventsForUser :=
       GitHubService.activity_listEventsForUser exampleApi;
     GitHubService.writeFile :=
       fun _ _ => JS.Rejected {| JS.message := "EACCES: permission denied" |} |}.

(** The summary of a report without projects. *)
Definition emptySummary (report : GitHubReport.t) : GitHubReport.Summary :=
  {| GitHubReport.totalRepos := GitHubReport.totalReposAnalyzed report;
     GitHubReport.activeRepos := 0; GitHubReport.totalActivities := 0;
     GitHubReport.createdPRs := 0; GitHubReport.comments := 0;
     GitHubReport.reviews := 0;
     GitHubReport.hasErrors := (0 <? length (GitHubReport.errors report))%nat;
     GitHubReport.errorCount := length (GitHubReport.errors report) |}.

(** The lines that [checkRateLimit] writes. *)
Definition rateLimitLines (rt : Runtime) (api : GitHubService.Collaborators)
    : list string :=
  match GitHubService.rateLimit_get api with
  | JS.Resolved rate =>
      (chalk rt "blue" "ℹ" +:+ " " +:+ "Rate limit: "
       +:+ pretty (GitHubService.remaining rate)
       +:+ " requests remaining (resets at "
       +:+ toLocaleTimeString rt (GitHubService.reset rate * 1000) +:+ ")")
      :: (if GitHubService.remaining rate <? 10
          then [chalk rt "yellow" "⚠" +:+ " "
                +:+ "Low rate limit remaining - consider waiting before making more requests"]
          else [])
  | JS.Rejected _ =>
      [chalk rt "yellow" "⚠" +:+ " " +:+ "Could not check rate limit"]
  end.

(** The line that [logger.error] writes for a repository whose details
    cannot be read. *)
Definition repoFailureLine (rt : Runtime) (repo : GitHubService.Repo) : string :=
  chalk rt "red" "✗" +:+ " " +:+ "Failed to process repo: "
  +:+ GitHubService.full_name repo.

(** The console of [generateReport] from its banner to the heading of the
    report, when [user] is authenticated and [repos] are listed for
    [username]; [activityLine] is the line that closes [getUserActivity]. *)
Definition linesBeforeReport (rt : Runtime) (api : GitHubService.Collaborators)
    (username : string) (user : GitHubService.User)
    (repos : list GitHubService.Repo) (activityLine : string) : list string :=
  [ chalk rt "bold.blue" (nl +:+ "🚀 GitHub Activity Report Generator" +:+ nl);
    chalk rt "green" "✓" +:+ " " +:+ "Connected to GitHub as: "
    +:+ GitHubService.login user ]
  ++ rateLimitLines rt api
  ++ [ chalk rt "blue" "ℹ" +:+ " " +:+ "Fetching repositories for user: " +:+ username;
       chalk rt "green" "✓" +:+ " " +:+ "Found " +:+ pretty (length repos)
       +:+ " repositories";
       chalk rt "bold" (nl +:+ "Processing " +:+ pretty (length repos)
                        +:+ " repositories..." +:+ nl) ]
  ++ map (repoFailureLine rt) (List.filter detailsFail repos)
  ++ [ chalk rt "blue" "ℹ" +:+ " " +:+ "Fetching recent user activity...";
       activityLine;
       nl +:+ chalk rt "bold.green" "📊 REPORT GENERATED" +:+ nl ].

(** The two lines that can close [getUserActivity]. *)
Definition closesUserActivity (rt : Runtime) (line : string) : Prop :=
  (exists n : nat,
     line = chalk rt "green" "✓" +:+ " " +:+ "Found " +:+ pretty n
            +:+ " recent activities")
  \/ line = chalk rt "red" "✗" +:+ " " +:+ "Failed to fetch user activity".

(** A listing that answers page 1 with 100 repositories and rejects the
    request for page 2. *)
Definition brokenPages (page : nat) : JS.Response (list GitHubService.Repo) :=
  match page with
  | 1%nat => JS.Resolved (replicate 100 exampleRepoAlpha)
  | _ => JS.Rejected {| JS.message := "Server Error" |}
  end.

(** The activities of yesterday that the projects [ps] hold, in the order
    of the projects. *)
Definition yesterdayActivitiesOfAll (rt : Runtime) (ps : list ProjectSummary.t)
    : list Activity.t :=
  concat (map (fun p => List.filter (Activity.isFromYesterday rt)
                          (ProjectSummary.myActivities p)) ps).

(** A comment on an issue of [alpha], made yesterday. *)
Definition exampleIssueComment : Activity.t :=
  Activity.new "issue_commented" "Comment on: crash"
    "https://example.org/alpha/issues/7"
    (Some (JSDate.utc 2024 2 10 21 0)) "me/alpha".

(** * Properties *)

(** ** The calendar *)

Section Calendar.
Import JSDate.

Lemma DayFromYear_bounds (y : Z) :
  1460970 * (y - 1970) - 6000 <= 4000 * DayFromYear y
  <= 1460970 * (y - 1970) + 6000.
Proof. unfold DayFromYear. Z.div_mod_to_equations. lia. Qed.

(** [YearFromTime t] is the year that contains [t]. *)
Lemma YearFromTime_spec (t : Z) :
  DayFromYear (YearFromTime t) <= Day t < DayFromYear (YearFromTime t + 1).
Proof.
  unfold YearFromTime.
  set (d := Day t). clearbody d.
  set (y := 1970 + 400 * d / 146097).
  assert (Hy : 146097 * (y - 1970) <= 400 * d < 146097 * (y - 1970) + 146097)
    by (unfold y; Z.div_mod_to_equations; lia).
  clearbody y.
  pose proof (DayFromYear_bounds (y - 1)).
  pose proof (DayFromYear_bounds y).
  pose proof (DayFromYear_bounds (y + 1)).
  pose proof (DayFromYear_bounds (y + 2)).
  destruct (Z.ltb_spec d (DayFromYear y)).
  - replace (y - 1 + 1) with y by lia. lia.
  - destruct (Z.leb_spec (DayFromYear (y + 1)) d).
    + replace (y + 1 + 1) with (y + 2) by lia. lia.
    + lia.
Qed.

Lemma MonthFromTime_range (t : Z) : 0 <= MonthFromTime t <= 11.
Proof.
  unfold MonthFromTime.
  repeat match goal with
         | |- context [if ?b then _ else _] => destruct b
         end; lia.
Qed.

(** Asking for day [date + k] of the month of [t] gives the day [k] days
    after the day of [t], also across the ends of months and years. *)
Lemma MakeDay_shift (t k : Z) :
  MakeDay (YearFromTime t) (MonthFromTime t) (DateFromTime t + k) = Day t + k.
Proof.
  pose proof (MonthFromTime_range t) as Hm.
  unfold MakeDay, DateFromTime, DayWithinYear, InLeapYear.
  rewrite (Z.div_small (MonthFromTime t) 12) by lia.
  rewrite (Z.mod_small (MonthFromTime t) 12) by lia.
  rewrite Z.add_0_r. lia.
Qed.

Lemma MakeDate_shift (t k : Z) :
  MakeDate (Day t + k) (TimeWithinDay t) = t + k * msPerDay.
Proof.
  unfold MakeDate, Day, TimeWithinDay.
  pose proof (Z.div_mod t msPerDay) as H.
  assert (msPerDay <> 0) by (unfold msPerDay; lia).
  specialize (H ltac:(assumption)). lia.
Qed.

(** [d.setDate(d.getDate() + k)] moves the local time of [d] by [k] days. *)
Lemma setDate_getDate (z : TimeZone) (k tv : Z) :
  setDate z (getDate z tv + k) tv = UTC z (LocalTime z tv + k * msPerDay).
Proof.
  unfold setDate, getDate.
  now rewrite MakeDay_shift, MakeDate_shift.
Qed.

Lemma setHours_midnight (z : TimeZone) (tv : Z) :
  setHours z 0 0 0 0 tv = UTC z (Day (LocalTime z tv) * msPerDay).
Proof.
  unfold setHours, MakeDate, MakeTime. f_equal. lia.
Qed.

Lemma Day_shift (t k : Z) : Day (t + k * msPerDay) = Day t + k.
Proof.
  unfold Day. apply Z.div_add. unfold msPerDay. lia.
Qed.

Lemma Day_midnight (d : Z) : Day (d * msPerDay) = d.
Proof.
  unfold Day. apply Z.div_mul. unfold msPerDay. lia.
Qed.

End Calendar.

(** ** The window of yesterday *)

Section Window.
Import JSDate.

Lemma yesterday_eq (rt : Runtime) :
  yesterday rt =
  UTC (tz rt)
    (Day (LocalTime (tz rt) (UTC (tz rt) (LocalTime (tz rt) (now rt) - msPerDay)))
     * msPerDay).
Proof.
  unfold yesterday.
  replace (getDate (tz rt) (now rt) - 1) with (getDate (tz rt) (now rt) + -1) by lia.
  rewrite setDate_getDate, setHours_midnight.
  replace (LocalTime (tz rt) (now rt) + -1 * msPerDay)
    with (LocalTime (tz rt) (now rt) - msPerDay) by lia.
  reflexivity.
Qed.

Lemma tomorrow_eq (rt : Runtime) :
  tomorrow rt = UTC (tz rt) (LocalTime (tz rt) (yesterday rt) + msPerDay).
Proof.
  unfold tomorrow. rewrite setDate_getDate. reflexivity.
Qed.

Lemma Activity_isFromYesterday_iff (rt : Runtime) (a : Activity.t) :
  Activity.isFromYesterday rt a = true <-> inYesterdayWindow rt (Activity.date a).
Proof.
  unfold Activity.isFromYesterday, inYesterdayWindow, ge, lt.
  destruct (Activity.date a) as [t|]; cbv beta iota.
  - rewrite andb_true_iff, Z.leb_le, Z.ltb_lt. split.
    + intros [? ?]. exists t. auto.
    + intros (t' & Ht & ? & ?). injection Ht as ->. auto.
  - split; [discriminate | intros (t' & Ht & _); discriminate].
Qed.

Lemma PullRequest_isFromYesterday_iff (rt : Runtime) (pr : PullRequest.t) :
  PullRequest.isFromYesterday rt pr = true <-> inYesterdayWindow rt (PullRequest.date pr).
Proof.
  unfold PullRequest.isFromYesterday, inYesterdayWindow, ge, lt.
  destruct (PullRequest.date pr) as [t|]; cbv beta iota.
  - rewrite andb_true_iff, Z.leb_le, Z.ltb_lt. split.
    + intros [? ?]. exists t. auto.
    + intros (t' & Ht & ? & ?). injection Ht as ->. auto.
  - split; [discriminate | intros (t' & Ht & _); discriminate].
Qed.

(** In a zone with one fixed offset the three local times of the window
    exist and the window is 24 hours long. *)
Lemma fixedZone_wallClockExists (offset x : Z) :
  wallClockExists (fixedZone offset) x.
Proof. unfold wallClockExists, LocalTime, UTC. simpl. lia. Qed.

(** C2 (as amended).  Provided that the local times involved exist in the
    host's zone, [isFromYesterday] is true exactly on the half-open interval
    from [Y0], the local midnight one calendar day before [now], to [Y1],
    the local midnight that begins the day of [now]: [Y0] is inside when the
    interval is not empty, [Y1] is outside, and [Y1 = Y0 + 24h] when the
    zone has the same offset at both midnights. *)
Theorem isFromYesterday_window (rt : Runtime)
    (Hback : Day (LocalTime (tz rt) (UTC (tz rt) (LocalTime (tz rt) (now rt) - msPerDay)))
             = Day (LocalTime (tz rt) (now rt)) - 1)
    (Hy0 : wallClockExists (tz rt) (localDayStart rt (-1)))
    (Hy1 : wallClockExists (tz rt) (localDayStart rt 0)) :
  yesterday rt = localMidnight rt (-1)
  /\ tomorrow rt = localMidnight rt 0
  /\ LocalTime (tz rt) (localMidnight rt (-1)) = localDayStart rt (-1)
  /\ LocalTime (tz rt) (localMidnight rt 0) = localDayStart rt 0
  /\ (forall a : Activity.t,
        Activity.isFromYesterday rt a = true <->
        exists t, Activity.date a = Some t
                  /\ localMidnight rt (-1) <= t < localMidnight rt 0)
  /\ (forall pr : PullRequest.t,
        PullRequest.isFromYesterday rt pr = true <->
        exists t, PullRequest.date pr = Some t
                  /\ localMidnight rt (-1) <= t < localMidnight rt 0)
  /\ (forall a : Activity.t,
        Activity.date a = Some (localMidnight rt (-1)) ->
        localMidnight rt (-1) < localMidnight rt 0 ->
        Activity.isFromYesterday rt a = true)
  /\ (forall a : Activity.t,
        Activity.date a = Some (localMidnight rt 0) ->
        Activity.isFromYesterday rt a = false)
  /\ (LocalTZA_local (tz rt) (localDayStart rt (-1))
      = LocalTZA_local (tz rt) (localDayStart rt 0) ->
      localMidnight rt 0 = localMidnight rt (-1) + msPerDay).
Proof.
  assert (Ey : yesterday rt = localMidnight rt (-1)).
  { rewrite yesterday_eq, Hback. reflexivity. }
  assert (Et : tomorrow rt = localMidnight rt 0).
  { rewrite tomorrow_eq, Ey. unfold localMidnight at 1.
    unfold wallClockExists in Hy0. rewrite Hy0.
    unfold localMidnight, localDayStart. f_equal. lia. }
  split; [exact Ey|]. split; [exact Et|].
  split; [exact Hy0|]. split; [exact Hy1|].
  split; [|split; [|split; [|split]]].
  - intros a. rewrite Activity_isFromYesterday_iff.
    unfold inYesterdayWindow. now rewrite Ey, Et.
  - intros pr. rewrite PullRequest_isFromYesterday_iff.
    unfold inYesterdayWindow. now rewrite Ey, Et.
  - intros a Ha Hlt. apply Activity_isFromYesterday_iff.
    exists (localMidnight rt (-1)). rewrite Ey, Et. split; [exact Ha | lia].
  - intros a Ha. apply not_true_is_false. intros Htrue.
    apply Activity_isFromYesterday_iff in Htrue as (t & Ht & _ & Hlt).
    rewrite Ha in Ht. injection Ht as <-. rewrite Et in Hlt. lia.
  - intros Hoff. unfold localMidnight, UTC. rewrite Hoff.
    unfold localDayStart. lia.
Qed.

(** The amended statement at the concrete host [dstRuntime]. *)
Lemma isFromYesterday_window_dst :
  yesterday dstRuntime = localMidnight dstRuntime (-1)
  /\ tomorrow dstRuntime = localMidnight dstRuntime 0
  /\ LocalTime (tz dstRuntime) (localMidnight dstRuntime (-1)) = localDayStart dstRuntime (-1)
  /\ LocalTime (tz dstRuntime) (localMidnight dstRuntime 0) = localDayStart dstRuntime 0
  /\ (forall a : Activity.t,
        Activity.isFromYesterday dstRuntime a = true <->
        exists t, Activity.date a = Some t
                  /\ localMidnight dstRuntime (-1) <= t < localMidnight dstRuntime 0)
  /\ (forall pr : PullRequest.t,
        PullRequest.isFromYesterday dstRuntime pr = true <->
        exists t, PullRequest.date pr = Some t
                  /\ localMidnight dstRuntime (-1) <= t < localMidnight dstRuntime 0)
  /\ (forall a : Activity.t,
        Activity.date a = Some (localMidnight dstRuntime (-1)) ->
        localMidnight dstRuntime (-1) < localMidnight dstRuntime 0 ->
        Activity.isFromYesterday dstRuntime a = true)
  /\ (forall a : Activity.t,
        Activity.date a = Some (localMidnight dstRuntime 0) ->
        Activity.isFromYesterday dstRuntime a = false)
  /\ (LocalTZA_local (tz dstRuntime) (localDayStart dstRuntime (-1))
      = LocalTZA_local (tz dstRuntime) (localDayStart dstRuntime 0) ->
      localMidnight dstRuntime 0 = localMidnight dstRuntime (-1) + msPerDay).
Proof.
  apply (isFromYesterday_window dstRuntime); vm_compute; reflexivity.
Defined.

(** C2 (as stated) fails where the clocks change.  In US Eastern time on
    2024-03-11, [Y0] is 2024-03-10 05:00 UTC, the local midnight one
    calendar day before [now]; 2024-03-11 04:30 UTC lies within the 24
    hours after [Y0], yet it is half an hour into the local day of [now]
    and [isFromYesterday] is false for it. *)
Lemma isFromYesterday_not_24h :
  ~ (forall (rt : Runtime) (a : Activity.t) (t Y0 : Z),
       Activity.date a = Some t ->
       LocalTime (tz rt) Y0 = localDayStart rt (-1) ->
       (Activity.isFromYesterday rt a = true <-> in24hWindow Y0 t)).
Proof.
  intros H.
  specialize (H dstRuntime
                (Activity.new "pr_created" "" "" (Some (utc 2024 2 11 4 30)) "")
                (utc 2024 2 11 4 30) (utc 2024 2 10 5 0)
                eq_refl eq_refl).
  destruct H as [_ H].
  assert (Hin : in24hWindow (utc 2024 2 10 5 0) (utc 2024 2 11 4 30))
    by (vm_compute; split; [discriminate | reflexivity]).
  apply H in Hin. vm_compute in Hin. discriminate.
Qed.

End Window.

(** ** Activity.getTypeDisplay *)

Lemma getTypeDisplay_labels (title url : string) (date : option Z) (repoName : string) :
  Activity.getTypeDisplay (Activity.new "pr_created" title url date repoName)
  = JS.VString "Created PR"
  /\ Activity.getTypeDisplay (Activity.new "pr_commented" title url date repoName)
     = JS.VString "Commented on PR"
  /\ Activity.getTypeDisplay (Activity.new "pr_reviewed" title url date repoName)
     = JS.VString "Reviewed PR"
  /\ Activity.getTypeDisplay (Activity.new "issue_commented" title url date repoName)
     = JS.VString "Commented on Issue".
Proof. repeat split. Qed.

Lemma assoc_None (own : list (string * string)) (key : string) :
  ~ In key (map fst own) -> JS.assoc own key = None.
Proof.
  induction own as [|[k v] own IH]; simpl; intros Hnot; [reflexivity|].
  destruct (String.eqb_spec k key) as [->|Hne].
  - exfalso. apply Hnot. now left.
  - apply IH. intros Hin. apply Hnot. now right.
Qed.

Lemma existsb_eqb_false (key : string) (keys : list string) :
  ~ In key keys -> existsb (String.eqb key) keys = false.
Proof.
  intros Hnot. apply not_true_is_false. intros Hex.
  apply existsb_exists in Hex as (k & Hin & Heq).
  apply String.eqb_eq in Heq. subst k. contradiction.
Qed.

(** A type that is neither a key of [typeMap] nor a property that object
    literals inherit passes through as the raw string. *)
Lemma getTypeDisplay_passthrough (a : Activity.t) :
  ~ In (Activity.type a) (map fst Activity.typeMap) ->
  ~ In (Activity.type a) JS.ObjectPrototype_keys ->
  Activity.getTypeDisplay a = JS.VString (Activity.type a).
Proof.
  intros Hown Hproto.
  unfold Activity.getTypeDisplay, JS.getProperty.
  rewrite (assoc_None _ _ Hown), (existsb_eqb_false _ _ Hproto).
  reflexivity.
Qed.

(** A type that names a property of [Object.prototype] does not pass
    through: the lookup finds the inherited member, which is truthy. *)
Lemma getTypeDisplay_inherited (a : Activity.t) :
  In (Activity.type a) JS.ObjectPrototype_keys ->
  Activity.getTypeDisplay a = JS.VObjectPrototypeMember (Activity.type a).
Proof.
  intros Hin.
  assert (Hex : existsb (String.eqb (Activity.type a)) JS.ObjectPrototype_keys = true).
  { apply existsb_exists. exists (Activity.type a). split; [exact Hin|].
    apply String.eqb_refl. }
  unfold Activity.getTypeDisplay, JS.getProperty.
  assert (Hown : JS.assoc Activity.typeMap (Activity.type a) = None).
  { apply assoc_None. simpl in *. intuition congruence. }
  rewrite Hown, Hex. reflexivity.
Qed.

(** C8 at the type ['constructor']: [getTypeDisplay] returns the function
    that [typeMap] inherits under that name, not the raw string, and the
    reports print the source text of that function. *)
Theorem getTypeDisplay_constructor :
  let a := Activity.new "constructor" "t" "u" None "r" in
  Activity.getTypeDisplay a = JS.VObjectPrototypeMember "constructor"
  /\ Activity.getTypeDisplay a <> JS.VString (Activity.type a)
  /\ ToString (Activity.getTypeDisplay a) = "function Object() { [native code] }"%string.
Proof.
  simpl. split; [reflexivity|]. split; [discriminate | reflexivity].
Qed.

(** ** ProjectSummary *)

Lemma hasYesterdayActivity_run (rt : Runtime) (w : World ProjectSummary.t)
    (this : Ref) (p : ProjectSummary.t) :
  heap w !! this = Some p ->
  ProjectSummary.hasYesterdayActivity rt this w
  = (Normal (hasYesterdayActivityOf rt p), w).
Proof.
  intros Hp.
  unfold ProjectSummary.hasYesterdayActivity, hasYesterdayActivityOf,
    Eff.bind, Eff.deref.
  rewrite Hp.
  destruct (existsb _ _); [reflexivity|].
  destruct (ProjectSummary.lastPR p); reflexivity.
Qed.

Lemma getYesterdayActivities_run (rt : Runtime) (w : World ProjectSummary.t)
    (this : Ref) (p : ProjectSummary.t) :
  heap w !! this = Some p ->
  ProjectSummary.getYesterdayActivities rt this w
  = (Normal (yesterdayActivitiesOf rt p), w).
Proof.
  intros Hp.
  unfold ProjectSummary.getYesterdayActivities, Eff.bind, Eff.deref.
  now rewrite Hp.
Qed.

(** Calling a method on [null] throws; the guard [this.lastPR && ...] is
    what keeps [hasYesterdayActivity] from doing so. *)
Lemma member_null_throws {A} (prop : string) (w : World ProjectSummary.t) :
  exists e, Eff.member (A := A) (JS.orNull None) prop w = (Throw e, w).
Proof. eexists. reflexivity. Qed.

Lemma hasYesterdayActivityOf_true (rt : Runtime) (p : ProjectSummary.t) :
  hasYesterdayActivityOf rt p = JS.VBool true <->
  (exists a, In a (ProjectSummary.myActivities p)
             /\ inYesterdayWindow rt (Activity.date a))
  \/ (exists pr, ProjectSummary.lastPR p = Some pr
                 /\ inYesterdayWindow rt (PullRequest.date pr)).
Proof.
  unfold hasYesterdayActivityOf.
  destruct (existsb _ _) eqn:Hex.
  - split; [intros _|reflexivity]. left.
    apply existsb_exists in Hex as (a & Hin & Ha).
    exists a. split; [exact Hin|]. now apply Activity_isFromYesterday_iff.
  - assert (Hno : ~ exists a, In a (ProjectSummary.myActivities p)
                              /\ inYesterdayWindow rt (Activity.date a)).
    { intros (a & Hin & Ha). apply Activity_isFromYesterday_iff in Ha.
      assert (existsb (Activity.isFromYesterday rt) (ProjectSummary.myActivities p) = true)
        by (apply existsb_exists; eauto).
      congruence. }
    destruct (ProjectSummary.lastPR p) as [pr|].
    + split.
      * intros Hv. right. exists pr. split; [reflexivity|].
        apply PullRequest_isFromYesterday_iff. congruence.
      * intros [Ha | (pr' & Hpr & Hw)]; [contradiction|].
        injection Hpr as <-. apply PullRequest_isFromYesterday_iff in Hw.
        now rewrite Hw.
    + split; [discriminate|].
      intros [Ha | (pr' & Hpr & _)]; [contradiction | discriminate].
Qed.

Lemma hasYesterdayActivityOf_truthy (rt : Runtime) (p : ProjectSummary.t) :
  JS.ToBoolean (hasYesterdayActivityOf rt p) = true <->
  hasYesterdayActivityOf rt p = JS.VBool true.
Proof.
  unfold hasYesterdayActivityOf.
  destruct (existsb _ _); [easy|].
  destruct (ProjectSummary.lastPR p) as [pr|]; simpl.
  - destruct (PullRequest.isFromYesterday rt pr); easy.
  - easy.
Qed.

(** C5.  [hasYesterdayActivity] completes with [true] exactly when an
    activity of the project has its date in the window of yesterday, or
    the project has a last pull request whose date is in that window; so it
    is [true] for a project without activities whose last pull request is
    dated yesterday. *)
Theorem hasYesterdayActivity_iff (rt : Runtime) (w : World ProjectSummary.t)
    (this : Ref) (p : ProjectSummary.t)
    (Hthis : heap w !! this = Some p) :
  exists v,
    ProjectSummary.hasYesterdayActivity rt this w = (Normal v, w)
    /\ (v = JS.VBool true <->
        (exists a, In a (ProjectSummary.myActivities p)
                   /\ inYesterdayWindow rt (Activity.date a))
        \/ (exists pr, ProjectSummary.lastPR p = Some pr
                       /\ inYesterdayWindow rt (PullRequest.date pr)))
    /\ (JS.ToBoolean v = true <-> v = JS.VBool true)
    /\ (ProjectSummary.myActivities p = [] ->
        forall pr, ProjectSummary.lastPR p = Some pr ->
                   inYesterdayWindow rt (PullRequest.date pr) ->
                   v = JS.VBool true).
Proof.
  exists (hasYesterdayActivityOf rt p).
  split; [now apply hasYesterdayActivity_run|].
  split; [apply hasYesterdayActivityOf_true|].
  split; [apply hasYesterdayActivityOf_truthy|].
  intros _ pr Hpr Hw. apply hasYesterdayActivityOf_true. right. eauto.
Qed.

(** C10.  With [lastPR] null, [hasYesterdayActivity] completes normally:
    with [true] when some activity of the project is from yesterday, and
    with the [null] that the guard yields otherwise. *)
Theorem hasYesterdayActivity_null_lastPR (rt : Runtime) (w : World ProjectSummary.t)
    (this : Ref) (p : ProjectSummary.t)
    (Hthis : heap w !! this = Some p)
    (Hnull : ProjectSummary.lastPR p = None) :
  exists v,
    ProjectSummary.hasYesterdayActivity rt this w = (Normal v, w)
    /\ (v = JS.VBool true <->
        exists a, In a (ProjectSummary.myActivities p)
                  /\ Activity.isFromYesterday rt a = true)
    /\ (v = JS.VBool true \/ v = JS.VNull)
    /\ (JS.ToBoolean v = true <-> v = JS.VBool true).
Proof.
  exists (hasYesterdayActivityOf rt p).
  split; [now apply hasYesterdayActivity_run|].
  unfold hasYesterdayActivityOf. rewrite Hnull.
  destruct (existsb _ _) eqn:Hex.
  - apply existsb_exists in Hex. repeat split; auto.
  - repeat split; try discriminate; auto.
    intros Hx. apply existsb_exists in Hx. congruence.
Qed.

(** ** Queries read the store and leave it as it is *)

Section Readers.
Context {A : Type}.

Lemma filterM_reads (f : A -> Run JS.value) (g : A -> JS.value)
    (l : list A) (w : World ProjectSummary.t) :
  (forall x, In x l -> f x w = (Normal (g x), w)) ->
  Eff.filterM f l w = (Normal (List.filter (fun x => JS.ToBoolean (g x)) l), w).
Proof.
  induction l as [|x l IH]; intros Hf; simpl; [reflexivity|].
  unfold Eff.bind. rewrite (Hf x) by now left.
  rewrite IH by (intros y Hy; apply Hf; now right).
  reflexivity.
Qed.

Lemma foldM_reads {B} (f : B -> A -> Run B) (g : B -> A -> B)
    (l : list A) (acc : B) (w : World ProjectSummary.t) :
  (forall b x, In x l -> f b x w = (Normal (g b x), w)) ->
  Eff.foldM f acc l w = (Normal (fold_left g l acc), w).
Proof.
  revert acc. induction l as [|x l IH]; intros acc Hf; simpl; [reflexivity|].
  unfold Eff.bind. rewrite (Hf acc x) by now left.
  apply IH. intros b y Hy. apply Hf. now right.
Qed.

End Readers.

(** The value of [hasYesterdayActivity] at a reference of the store. *)
Lemma resolves_lookup {Obj} (w : World Obj) (refs : list Ref) (objs : list Obj) (r : Ref) :
  resolves w refs objs -> In r refs -> exists o, heap w !! r = Some o /\ In o objs.
Proof.
  induction 1 as [|r' o refs objs Hr _ IH]; simpl; [contradiction|].
  intros [<- | Hin].
  - exists o. auto.
  - destruct (IH Hin) as (o' & ? & ?). exists o'. auto.
Qed.

Lemma getActiveProjects_run (rt : Runtime) (w : World ProjectSummary.t)
    (report : GitHubReport.t) (ps : list ProjectSummary.t) :
  resolves w (GitHubReport.projects report) ps ->
  exists active,
    GitHubReport.getActiveProjects rt report w = (Normal active, w)
    /\ length active
       = length (List.filter (fun p => JS.ToBoolean (hasYesterdayActivityOf rt p)) ps).
Proof.
  unfold GitHubReport.getActiveProjects.
  generalize (GitHubReport.projects report) as refs.
  intros refs Hres.
  exists (List.filter
            (fun r => JS.ToBoolean
                        (match heap w !! r with
                         | Some p => hasYesterdayActivityOf rt p
                         | None => JS.VNull
                         end)) refs).
  split.
  - apply filterM_reads. intros r Hr.
    destruct (resolves_lookup _ _ _ _ Hres Hr) as (p & Hp & _).
    rewrite Hp. now apply hasYesterdayActivity_run.
  - induction Hres as [|r p refs ps Hr _ IH]; simpl; [reflexivity|].
    rewrite Hr. destruct (JS.ToBoolean _); simpl; now rewrite IH.
Qed.

Lemma fold_left_app_concat {X Y} (h : X -> list Y) (l : list X) (acc : list Y) :
  fold_left (fun acc x => acc ++ h x) l acc = acc ++ concat (map h l).
Proof.
  revert acc. induction l as [|x l IH]; intros acc; simpl.
  - now rewrite app_nil_r.
  - rewrite IH. now rewrite <- app_assoc.
Qed.

Lemma getAllYesterdayActivities_run (rt : Runtime) (w : World ProjectSummary.t)
    (report : GitHubReport.t) (ps : list ProjectSummary.t) :
  resolves w (GitHubReport.projects report) ps ->
  GitHubReport.getAllYesterdayActivities rt report w
  = (Normal (JS.sort GitHubReport.byDateDescending
               (concat (map (yesterdayActivitiesOf rt) ps))), w).
Proof.
  unfold GitHubReport.getAllYesterdayActivities.
  generalize (GitHubReport.projects report) as refs.
  intros refs Hres. unfold Eff.bind at 1.
  rewrite (foldM_reads _
             (fun acc r => acc ++ match heap w !! r with
                                  | Some p => yesterdayActivitiesOf rt p
                                  | None => []
                                  end)).
  - unfold Eff.ret. do 3 f_equal.
    rewrite fold_left_app_concat. simpl. f_equal.
    induction Hres as [|r p refs ps Hr _ IH]; simpl; [reflexivity|].
    now rewrite Hr, IH.
  - intros acc r Hr.
    destruct (resolves_lookup _ _ _ _ Hres Hr) as (p & Hp & _).
    unfold Eff.bind. rewrite (getYesterdayActivities_run rt w r p Hp), Hp.
    reflexivity.
Qed.

(** ** Array.prototype.sort with the comparator of the report *)

Section SortFacts.
Context {A : Type} (compare : A -> A -> option Z).

Lemma insert_Permutation (x : A) (l : list A) :
  Permutation (JS.insert compare x l) (x :: l).
Proof.
  induction l as [|y l IH]; simpl; [reflexivity|].
  destruct (JS.before compare x y); [reflexivity|].
  rewrite IH. apply perm_swap.
Qed.

Lemma sort_Permutation (l : list A) : Permutation (JS.sort compare l) l.
Proof.
  induction l as [|x l IH]; simpl; [reflexivity|].
  rewrite insert_Permutation. now constructor.
Qed.

End SortFacts.

Lemma byDateDescending_before (a b : Activity.t) (ta tb : Z) :
  Activity.date a = Some ta -> Activity.date b = Some tb ->
  JS.before GitHubReport.byDateDescending a b = (tb <=? ta).
Proof.
  intros Ha Hb. unfold JS.before, GitHubReport.byDateDescending, JSDate.sub.
  rewrite Ha, Hb.
  destruct (Z.leb_spec (tb - ta) 0), (Z.leb_spec tb ta); lia || reflexivity.
Qed.

Lemma insert_HdRel (x y : Activity.t) (l : list Activity.t) :
  notOlder y x -> HdRel notOlder y l ->
  HdRel notOlder y (JS.insert GitHubReport.byDateDescending x l).
Proof.
  intros Hyx Hhd. destruct l as [|z l]; simpl.
  - now constructor.
  - destruct (JS.before _ x z); constructor; [exact Hyx|].
    now inversion Hhd.
Qed.

Lemma insert_Sorted (x : Activity.t) (l : list Activity.t) :
  is_Some (Activity.date x) ->
  Forall (fun a => is_Some (Activity.date a)) l ->
  Sorted notOlder l ->
  Sorted notOlder (JS.insert GitHubReport.byDateDescending x l).
Proof.
  intros [tx Hx] Hvalid Hsorted.
  induction Hsorted as [|y l Hs IH Hhd]; simpl.
  - repeat constructor.
  - inversion Hvalid as [|? ? [ty Hy] Hvalid']; subst.
    rewrite (byDateDescending_before x y tx ty Hx Hy).
    destruct (Z.leb_spec ty tx).
    + constructor; [now constructor|].
      constructor. exists tx, ty. repeat split; auto. lia.
    + constructor; [now apply IH|].
      apply insert_HdRel; [|exact Hhd].
      exists ty, tx. repeat split; auto. lia.
Qed.

Lemma sort_Sorted (l : list Activity.t) :
  Forall (fun a => is_Some (Activity.date a)) l ->
  Sorted notOlder (JS.sort GitHubReport.byDateDescending l).
Proof.
  induction 1 as [|x l Hx Hl IH]; simpl; [constructor|].
  apply insert_Sorted; [exact Hx | | exact IH].
  apply (Permutation_Forall (Permutation_sym (sort_Permutation _ l))).
  exact Hl.
Qed.

Lemma Sorted_adjacent {X} (R : X -> X -> Prop) (l : list X) (i : nat) (a b : X) :
  Sorted R l -> l !! i = Some a -> l !! S i = Some b -> R a b.
Proof.
  intros Hs. revert i. induction Hs as [|x l Hs IH Hhd]; intros i Ha Hb.
  - discriminate.
  - destruct i as [|i]; simpl in *.
    + injection Ha as ->. destruct l as [|y l]; [discriminate|].
      simpl in Hb. injection Hb as ->. now inversion Hhd.
    + eapply IH; eauto.
Qed.

Lemma yesterdayActivities_valid (rt : Runtime) (ps : list ProjectSummary.t) :
  Forall (fun a => is_Some (Activity.date a))
    (concat (map (yesterdayActivitiesOf rt) ps)).
Proof.
  apply List.Forall_forall. intros a Ha.
  apply in_concat in Ha as (l & Hl & Ha).
  apply in_map_iff in Hl as (p & <- & _).
  apply filter_In in Ha as [_ Ha].
  apply Activity_isFromYesterday_iff in Ha as (t & Ht & _).
  rewrite Ht. now exists t.
Qed.

(** C3.  [getAllYesterdayActivities] returns the activities of yesterday
    of all the projects of the report, rearranged so that no activity is
    directly followed by a more recent one. *)
Theorem getAllYesterdayActivities_sorted (rt : Runtime) (w : World ProjectSummary.t)
    (report : GitHubReport.t) (ps : list ProjectSummary.t)
    (Hstore : resolves w (GitHubReport.projects report) ps) :
  exists result,
    GitHubReport.getAllYesterdayActivities rt report w = (Normal result, w)
    /\ Permutation result
         (concat
            (map (fun p => List.filter (Activity.isFromYesterday rt)
                             (ProjectSummary.myActivities p)) ps))
    /\ (forall (i : nat) (a b : Activity.t),
          result !! i = Some a -> result !! S i = Some b ->
          exists ta tb, Activity.date a = Some ta /\ Activity.date b = Some tb
                        /\ ta >= tb).
Proof.
  eexists.
  split; [exact (getAllYesterdayActivities_run rt w report ps Hstore)|].
  split; [apply sort_Permutation|].
  intros i a b Ha Hb.
  exact (Sorted_adjacent notOlder _ i a b
           (sort_Sorted _ (yesterdayActivities_valid rt ps)) Ha Hb).
Qed.

(** ** The executive summary *)

Lemma getExecutiveSummary_run (rt : Runtime) (w : World ProjectSummary.t)
    (report : GitHubReport.t) (ps : list ProjectSummary.t) :
  resolves w (GitHubReport.projects report) ps ->
  exists s,
    GitHubReport.getExecutiveSummary rt report w = (Normal s, w)
    /\ GitHubReport.totalRepos s = GitHubReport.totalReposAnalyzed report
    /\ GitHubReport.activeRepos s
       = length (List.filter (fun p => JS.ToBoolean (hasYesterdayActivityOf rt p)) ps)
    /\ GitHubReport.totalActivities s
       = length (JS.sort GitHubReport.byDateDescending
                   (concat (map (yesterdayActivitiesOf rt) ps)))
    /\ GitHubReport.createdPRs s
       = length (List.filter (GitHubReport.hasType "pr_created")
                   (JS.sort GitHubReport.byDateDescending
                      (concat (map (yesterdayActivitiesOf rt) ps))))
    /\ GitHubReport.comments s
       = length (List.filter (GitHubReport.hasType "pr_commented")
                   (JS.sort GitHubReport.byDateDescending
                      (concat (map (yesterdayActivitiesOf rt) ps))))
    /\ GitHubReport.reviews s
       = length (List.filter (GitHubReport.hasType "pr_reviewed")
                   (JS.sort GitHubReport.byDateDescending
                      (concat (map (yesterdayActivitiesOf rt) ps))))
    /\ GitHubReport.hasErrors s = (0 <? length (GitHubReport.errors report))%nat
    /\ GitHubReport.errorCount s = length (GitHubReport.errors report).
Proof.
  intros Hres.
  destruct (getActiveProjects_run rt w report ps Hres) as (active & Hactive & Hlen).
  unfold GitHubReport.getExecutiveSummary, Eff.bind.
  rewrite Hactive, (getAllYesterdayActivities_run rt w report ps Hres).
  eexists. split; [reflexivity|]. simpl.
  repeat split; assumption.
Qed.

(** C6.  Two calls of [getExecutiveSummary] in a row, with nothing
    changing the report in between and the same clock, complete with the
    same record, and leave the store, the logger and the console as they
    found them. *)
Theorem getExecutiveSummary_idempotent (rt : Runtime) (w : World ProjectSummary.t)
    (report : GitHubReport.t) (ps : list ProjectSummary.t)
    (Hstore : resolves w (GitHubReport.projects report) ps) :
  exists first second,
    getExecutiveSummaryTwice rt report w = (Normal (first, second), w)
    /\ GitHubReport.getExecutiveSummary rt report w = (Normal first, w)
    /\ first = second
    /\ GitHubReport.totalRepos first = GitHubReport.totalRepos second
    /\ GitHubReport.activeRepos first = GitHubReport.activeRepos second
    /\ GitHubReport.totalActivities first = GitHubReport.totalActivities second
    /\ GitHubReport.createdPRs first = GitHubReport.createdPRs second
    /\ GitHubReport.comments first = GitHubReport.comments second
    /\ GitHubReport.reviews first = GitHubReport.reviews second
    /\ GitHubReport.hasErrors first = GitHubReport.hasErrors second
    /\ GitHubReport.errorCount first = GitHubReport.errorCount second.
Proof.
  destruct (getExecutiveSummary_run rt w report ps Hstore) as (s & Hrun & _).
  exists s, s.
  split.
  - unfold getExecutiveSummaryTwice, Eff.bind. now rewrite Hrun, Hrun.
  - repeat split; auto.
Qed.

Lemma filter_type_partition (l : list Activity.t) :
  (length l
   = length (List.filter (GitHubReport.hasType "pr_created") l)
     + length (List.filter (GitHubReport.hasType "pr_commented") l)
     + length (List.filter (GitHubReport.hasType "pr_reviewed") l)
     + length (List.filter otherType l))%nat.
Proof.
  induction l as [|a l IH]; simpl; [reflexivity|].
  replace (otherType a)
    with (negb (GitHubReport.hasType "pr_created" a
                || GitHubReport.hasType "pr_commented" a
                || GitHubReport.hasType "pr_reviewed" a)) by reflexivity.
  destruct (GitHubReport.hasType "pr_created" a) eqn:E1;
    destruct (GitHubReport.hasType "pr_commented" a) eqn:E2;
    destruct (GitHubReport.hasType "pr_reviewed" a) eqn:E3;
    unfold GitHubReport.hasType in E1, E2, E3;
    try apply String.eqb_eq in E1;
    try apply String.eqb_eq in E2;
    try apply String.eqb_eq in E3;
    try congruence; simpl; lia.
Qed.

Lemma length_filter_Permutation {X} (f : X -> bool) (l l' : list X) :
  Permutation l l' -> length (List.filter f l) = length (List.filter f l').
Proof.
  induction 1 as [|x l l' _ IH|x y l|l l' l'' _ IH1 _ IH2]; simpl.
  - reflexivity.
  - destruct (f x); simpl; now rewrite IH.
  - destruct (f x), (f y); reflexivity.
  - now rewrite IH1.
Qed.

Lemma NoDup_count_occ_one (refs : list Ref) (this : Ref) :
  NoDup refs -> In this refs -> count_occ Nat.eq_dec refs this = 1%nat.
Proof.
  induction 1 as [|r refs Hr _ IH]; intros Hin; [destruct Hin|].
  cbn [count_occ]. destruct (Nat.eq_dec r this) as [->|Hne].
  - f_equal. apply count_occ_not_In. intros Hin'. apply Hr.
    now apply list_elem_of_In.
  - apply IH. destruct Hin as [Heq|Hin]; [contradiction | exact Hin].
Qed.

(** The projects behind [refs] after [this.myActivities.push(a)]. *)
Lemma resolves_addActivity (w w' : World ProjectSummary.t) (this : Ref)
    (a : Activity.t) (refs : list Ref) (ps : list ProjectSummary.t) :
  (forall r p, heap w !! r = Some p ->
               heap w' !! r
               = Some (if decide (r = this)
                       then ProjectSummary.push_myActivities a p else p)) ->
  resolves w refs ps ->
  resolves w' refs
    (zip_with (fun r p => if decide (r = this)
                          then ProjectSummary.push_myActivities a p else p)
       refs ps).
Proof.
  intros Hlook. induction 1 as [|r p refs ps Hr _ IH]; simpl; constructor;
    [now apply Hlook | exact IH].
Qed.

Lemma yesterdayActivitiesOfAll_addActivity (rt : Runtime) (w : World ProjectSummary.t)
    (this : Ref) (a : Activity.t) (f : Activity.t -> bool)
    (refs : list Ref) (ps : list ProjectSummary.t) :
  resolves w refs ps ->
  (length
     (List.filter f
        (yesterdayActivitiesOfAll rt
           (zip_with (fun r p => if decide (r = this)
                                 then ProjectSummary.push_myActivities a p else p)
              refs ps)))
   = length (List.filter f (yesterdayActivitiesOfAll rt ps))
     + count_occ Nat.eq_dec refs this
       * (if Activity.isFromYesterday rt a && f a then 1 else 0))%nat.
Proof.
  unfold yesterdayActivitiesOfAll.
  induction 1 as [|r p refs ps _ _ IH]; [reflexivity|].
  cbn [zip_with map concat count_occ].
  rewrite !List.filter_app, !length_app, IH.
  destruct (Nat.eq_dec r this) as [->|Hne].
  - rewrite decide_True by reflexivity. cbn [ProjectSummary.push_myActivities
      ProjectSummary.myActivities].
    rewrite !List.filter_app, length_app. cbn [List.filter].
    destruct (Activity.isFromYesterday rt a); cbn [List.filter andb];
      [destruct (f a)|]; cbn [length]; lia.
  - rewrite decide_False by exact Hne. lia.
Qed.

(** C9.  The figures of the executive summary count the activities of
    yesterday that the projects of the report hold: the total is their
    number, each of the three counts is the number of those of its type, and
    so the total is the sum of the three counts and of the number of
    yesterday's activities of any other type.  ['issue_commented'] is such a
    type: adding a comment on an issue, made yesterday, to a project of the
    report raises the total by one and leaves the three counts as they
    were. *)
Theorem getExecutiveSummary_total (rt : Runtime) (w : World ProjectSummary.t)
    (report : GitHubReport.t) (ps : list ProjectSummary.t)
    (Hstore : resolves w (GitHubReport.projects report) ps) :
  exists s,
    GitHubReport.getExecutiveSummary rt report w = (Normal s, w)
    /\ GitHubReport.totalActivities s = length (yesterdayActivitiesOfAll rt ps)
    /\ GitHubReport.createdPRs s
       = length (List.filter (GitHubReport.hasType "pr_created")
                   (yesterdayActivitiesOfAll rt ps))
    /\ GitHubReport.comments s
       = length (List.filter (GitHubReport.hasType "pr_commented")
                   (yesterdayActivitiesOfAll rt ps))
    /\ GitHubReport.reviews s
       = length (List.filter (GitHubReport.hasType "pr_reviewed")
                   (yesterdayActivitiesOfAll rt ps))
    /\ (GitHubReport.totalActivities s
        = GitHubReport.createdPRs s + GitHubReport.comments s
          + GitHubReport.reviews s
          + length (List.filter otherType (yesterdayActivitiesOfAll rt ps)))%nat
    /\ (forall a, otherType a = true <->
                  Activity.type a <> "pr_created"%string
                  /\ Activity.type a <> "pr_commented"%string
                  /\ Activity.type a <> "pr_reviewed"%string)
    /\ (forall a, Activity.type a = "issue_commented"%string -> otherType a = true)
    /\ (forall (this : Ref) (p : ProjectSummary.t) (a : Activity.t),
          NoDup (GitHubReport.projects report) ->
          In this (GitHubReport.projects report) ->
          heap w !! this = Some p ->
          Activity.type a = "issue_commented"%string ->
          Activity.isFromYesterday rt a = true ->
          exists w1 s1,
            ProjectSummary.addActivity this a w = (Normal tt, w1)
            /\ GitHubReport.getExecutiveSummary rt report w1 = (Normal s1, w1)
            /\ GitHubReport.totalActivities s1 = S (GitHubReport.totalActivities s)
            /\ GitHubReport.createdPRs s1 = GitHubReport.createdPRs s
            /\ GitHubReport.comments s1 = GitHubReport.comments s
            /\ GitHubReport.reviews s1 = GitHubReport.reviews s
            /\ (GitHubReport.createdPRs s1 + GitHubReport.comments s1
                + GitHubReport.reviews s1 < GitHubReport.totalActivities s1)%nat).
Proof.
  assert (Hcount : forall w0 ps0,
            resolves w0 (GitHubReport.projects report) ps0 ->
            exists s0,
              GitHubReport.getExecutiveSummary rt report w0 = (Normal s0, w0)
              /\ GitHubReport.totalActivities s0
                 = length (yesterdayActivitiesOfAll rt ps0)
              /\ forall ty,
                   length (List.filter (GitHubReport.hasType ty)
                             (JS.sort GitHubReport.byDateDescending
                                (concat (map (yesterdayActivitiesOf rt) ps0))))
                   = length (List.filter (GitHubReport.hasType ty)
                               (yesterdayActivitiesOfAll rt ps0))).
  { intros w0 ps0 Hres.
    destruct (getExecutiveSummary_run rt w0 report ps0 Hres)
      as (s0 & Hrun & _ & _ & Htotal & _).
    exists s0. split; [exact Hrun|]. split.
    - rewrite Htotal. apply Permutation_length, sort_Permutation.
    - intros ty. apply length_filter_Permutation, sort_Permutation. }
  destruct (getExecutiveSummary_run rt w report ps Hstore)
    as (s & Hrun & _ & _ & Htotal & Hcreated & Hcomments & Hreviews & _).
  destruct (Hcount w ps Hstore) as (s' & Hrun' & Htotal' & Htypes).
  rewrite Hrun in Hrun'. injection Hrun' as <-.
  rewrite Htypes in Hcreated, Hcomments, Hreviews.
  assert (Hother : forall a, Activity.type a = "issue_commented"%string ->
                             otherType a = true).
  { intros a Ha. unfold otherType, GitHubReport.hasType. now rewrite Ha. }
  assert (Hsum : (GitHubReport.totalActivities s
                  = GitHubReport.createdPRs s + GitHubReport.comments s
                    + GitHubReport.reviews s
                    + length (List.filter otherType (yesterdayActivitiesOfAll rt ps)))%nat).
  { rewrite Htotal', Hcreated, Hcomments, Hreviews. apply filter_type_partition. }
  exists s.
  split; [exact Hrun|]. split; [exact Htotal'|]. split; [exact Hcreated|].
  split; [exact Hcomments|]. split; [exact Hreviews|]. split; [exact Hsum|].
  split.
  { intros a. unfold otherType, GitHubReport.hasType.
    destruct (String.eqb_spec (Activity.type a) "pr_created");
      destruct (String.eqb_spec (Activity.type a) "pr_commented");
      destruct (String.eqb_spec (Activity.type a) "pr_reviewed");
      simpl; intuition congruence. }
  split; [exact Hother|].
  intros this p a Hnodup Hin Hp Hty Hyesterday.
  set (w1 := {| heap := <[this := ProjectSummary.push_myActivities a p]> (heap w);
                loggerErrors := loggerErrors w; console := console w;
                files := files w |}).
  assert (Hadd : ProjectSummary.addActivity this a w = (Normal tt, w1)).
  { unfold ProjectSummary.addActivity, Eff.update. now rewrite Hp. }
  assert (Hres1 : resolves w1 (GitHubReport.projects report)
                    (zip_with (fun r q => if decide (r = this)
                                          then ProjectSummary.push_myActivities a q
                                          else q)
                       (GitHubReport.projects report) ps)).
  { apply (resolves_addActivity w). 2: exact Hstore.
    intros r q Hq. cbn [w1 heap].
    destruct (decide (r = this)) as [->|Hne].
    - rewrite list_lookup_insert_eq by (now apply lookup_lt_Some in Hp).
      congruence.
    - now rewrite list_lookup_insert_ne by congruence. }
  destruct (getExecutiveSummary_run rt w1 report _ Hres1)
    as (s1 & Hrun1 & _ & _ & _ & Hcreated1 & Hcomments1 & Hreviews1 & _).
  destruct (Hcount w1 _ Hres1) as (s1' & Hrun1' & Htotal1 & Htypes1).
  rewrite Hrun1 in Hrun1'. injection Hrun1' as <-.
  rewrite Htypes1 in Hcreated1, Hcomments1, Hreviews1.
  assert (Hone : count_occ Nat.eq_dec (GitHubReport.projects report) this = 1%nat).
  { now apply NoDup_count_occ_one. }
  assert (Hlen : forall f,
            length (List.filter f
                      (yesterdayActivitiesOfAll rt
                         (zip_with (fun r q => if decide (r = this)
                                               then ProjectSummary.push_myActivities a q
                                               else q)
                            (GitHubReport.projects report) ps)))
            = (length (List.filter f (yesterdayActivitiesOfAll rt ps))
               + (if f a then 1 else 0))%nat).
  { intros f.
    rewrite (yesterdayActivitiesOfAll_addActivity rt w this a f _ ps Hstore).
    rewrite Hone, Hyesterday. cbn [andb]. lia. }
  assert (Htype : forall ty, ty <> "issue_commented"%string ->
                             GitHubReport.hasType ty a = false).
  { intros ty Hne. unfold GitHubReport.hasType. rewrite Hty.
    apply String.eqb_neq. congruence. }
  assert (Htotal1' : GitHubReport.totalActivities s1
                     = S (GitHubReport.totalActivities s)).
  { rewrite Htotal1, Htotal'.
    pose proof (Hlen (fun _ => true)) as Hall.
    rewrite !forallb_filter_id in Hall by (apply forallb_forall; reflexivity).
    lia. }
  assert (H1 : GitHubReport.createdPRs s1 = GitHubReport.createdPRs s).
  { rewrite Hcreated1, Hcreated, Hlen, Htype by discriminate. lia. }
  assert (H2 : GitHubReport.comments s1 = GitHubReport.comments s).
  { rewrite Hcomments1, Hcomments, Hlen, Htype by discriminate. lia. }
  assert (H3 : GitHubReport.reviews s1 = GitHubReport.reviews s).
  { rewrite Hreviews1, Hreviews, Hlen, Htype by discriminate. lia. }
  exists w1, s1.
  split; [exact Hadd|]. split; [exact Hrun1|]. split; [exact Htotal1'|].
  split; [exact H1|]. split; [exact H2|]. split; [exact H3|].
  lia.
Qed.

(** ** Reading the details of the repositories *)

Lemma getLastPRForRepo_run (api : GitHubService.Collaborators) (owner repo : string)
    (w : World ProjectSummary.t) :
  GitHubService.getLastPRForRepo api owner repo w
  = (Normal (lastPRFor api owner repo), w).
Proof.
  unfold GitHubService.getLastPRForRepo, lastPRFor, Eff.tryCatch, Eff.bind, Eff.await.
  destruct (GitHubService.pulls_list api owner repo) as [[|pr prs]|e]; simpl;
    try reflexivity.
  destruct (GitHubService.pull_user pr); reflexivity.
Qed.

Lemma insert_last {X} (l : list X) (x y : X) :
  <[length l := y]> (l ++ [x]) = l ++ [y].
Proof.
  rewrite insert_app_r_alt by lia.
  now rewrite Nat.sub_diag.
Qed.

Lemma lookup_last {X} (l : list X) (x : X) : (l ++ [x]) !! length l = Some x.
Proof.
  rewrite lookup_app_r by lia. now rewrite Nat.sub_diag.
Qed.

(** [getRepoDetails] never throws: it completes with a reference to a new
    project, whatever the collaborators answer. *)
Lemma getRepoDetails_run (rt : Runtime) (api : GitHubService.Collaborators)
    (repo : GitHubService.Repo) (currentIndex totalRepos : nat)
    (w : World ProjectSummary.t) :
  GitHubService.getRepoDetails rt api repo currentIndex totalRepos w
  = (Normal (refAfterDetails repo w), worldAfterDetails rt api repo w).
Proof.
  unfold GitHubService.getRepoDetails, refAfterDetails, worldAfterDetails,
    detailsFail, detailedProject, Eff.tryCatch, Eff.bind, ProjectSummary.new,
    Eff.alloc.
  destruct (GitHubService.owner repo) as [repoOwner|n] eqn:Howner; simpl.
  - rewrite getLastPRForRepo_run.
    destruct (lastPRFor api _ _) as [pr|]; simpl; [|reflexivity].
    unfold ProjectSummary.set_lastPR, Eff.update. simpl.
    rewrite lookup_last, insert_last. reflexivity.
  - unfold Logger.error, Eff.bind, Eff.consoleLog, Eff.pushLoggerError.
    unfold repoErrorEntry, ownerError. rewrite Howner. simpl.
    rewrite length_app, <- app_assoc. simpl.
    replace (length (heap w) + 1)%nat with (S (length (heap w))) by lia.
    reflexivity.
Qed.

Lemma processLoop_run (rt : Runtime) (api : GitHubService.Collaborators)
    (total : nat) (l : list (nat * GitHubService.Repo))
    (projects : list Ref) (report : GitHubReport.t) (w : World ProjectSummary.t) :
  Eff.foldM
    (fun '(projects, report) '(i, repo) =>
       do project <- GitHubService.getRepoDetails rt api repo i total ;
       Eff.ret (projects ++ [project], GitHubReport.addProject project report))
    (projects, report) l w
  = (Normal (projects ++ refsAfterRepos rt api (map snd l) w,
             addProjects (refsAfterRepos rt api (map snd l) w) report),
     worldAfterRepos rt api (map snd l) w).
Proof.
  revert projects report w.
  induction l as [|[i repo] l IH]; intros projects report w; simpl.
  - now rewrite app_nil_r.
  - unfold Eff.bind at 1 2. rewrite getRepoDetails_run. simpl.
    rewrite IH. rewrite <- app_assoc. reflexivity.
Qed.

Lemma map_snd_imap_pair {X} (l : list X) : map snd (imap pair l) = l.
Proof.
  change (map snd (imap pair l)) with (snd <$> imap pair l).
  rewrite fmap_imap. unfold compose. simpl.
  induction l as [|x l IH] using rev_ind; [reflexivity|].
  rewrite imap_app. simpl. now rewrite IH.
Qed.

Lemma processRepositories_run (rt : Runtime) (api : GitHubService.Collaborators)
    (repos : list GitHubService.Repo) (report : GitHubReport.t)
    (w : World ProjectSummary.t) :
  Index.processRepositories rt api repos report w
  = (Normal (refsAfterRepos rt api repos w,
             addProjects (refsAfterRepos rt api repos w) report),
     worldAfterRepos rt api repos w).
Proof.
  unfold Index.processRepositories.
  rewrite processLoop_run, map_snd_imap_pair. reflexivity.
Qed.

Lemma addProjects_fields (refs : list Ref) (report : GitHubReport.t) :
  GitHubReport.projects (addProjects refs report)
  = GitHubReport.projects report ++ refs
  /\ GitHubReport.totalReposAnalyzed (addProjects refs report)
     = GitHubReport.totalReposAnalyzed report
  /\ GitHubReport.errors (addProjects refs report) = GitHubReport.errors report
  /\ GitHubReport.username (addProjects refs report) = GitHubReport.username report.
Proof.
  revert report. induction refs as [|r refs IH]; intros report; simpl.
  - now rewrite app_nil_r.
  - destruct (IH (GitHubReport.addProject r report)) as (Hp & Ht & He & Hu).
    unfold addProjects in *. simpl. rewrite Hp, Ht, He, Hu. simpl.
    now rewrite <- app_assoc.
Qed.

Lemma refsAfterRepos_length (rt : Runtime) (api : GitHubService.Collaborators)
    (repos : list GitHubService.Repo) (w : World ProjectSummary.t) :
  length (refsAfterRepos rt api repos w) = length repos.
Proof.
  revert w. induction repos as [|repo repos IH]; intros w; simpl; auto.
Qed.

Lemma worldAfterDetails_heap (rt : Runtime) (api : GitHubService.Collaborators)
    (repo : GitHubService.Repo) (w : World ProjectSummary.t) :
  (exists ext, heap (worldAfterDetails rt api repo w) = heap w ++ ext)
  /\ heap (worldAfterDetails rt api repo w) !! refAfterDetails repo w
     = Some (projectOfRepo api repo).
Proof.
  unfold worldAfterDetails, refAfterDetails, projectOfRepo.
  destruct (detailsFail repo); simpl.
  - split; [eauto|].
    change (heap w ++ [minimalProject repo; minimalProject repo])
      with (heap w ++ [minimalProject repo] ++ [minimalProject repo]).
    rewrite app_assoc.
    replace (S (length (heap w))) with (length (heap w ++ [minimalProject repo]))
      by (rewrite length_app; simpl; lia).
    apply lookup_last.
  - split; [eauto|]. apply lookup_last.
Qed.

Lemma worldAfterRepos_heap (rt : Runtime) (api : GitHubService.Collaborators)
    (repos : list GitHubService.Repo) (w : World ProjectSummary.t) :
  exists ext, heap (worldAfterRepos rt api repos w) = heap w ++ ext.
Proof.
  revert w. induction repos as [|repo repos IH]; intros w; simpl.
  - exists []. now rewrite app_nil_r.
  - destruct (IH (worldAfterDetails rt api repo w)) as (ext & ->).
    destruct (worldAfterDetails_heap rt api repo w) as ((ext' & ->) & _).
    exists (ext' ++ ext). now rewrite app_assoc.
Qed.

(** After the loop, the references of the loop name, in order, the
    projects of the repositories. *)
Lemma worldAfterRepos_resolves (rt : Runtime) (api : GitHubService.Collaborators)
    (repos : list GitHubService.Repo) (w : World ProjectSummary.t) :
  resolves (worldAfterRepos rt api repos w) (refsAfterRepos rt api repos w)
    (map (projectOfRepo api) repos).
Proof.
  revert w. induction repos as [|repo repos IH]; intros w; simpl.
  - constructor.
  - constructor; [|apply IH].
    destruct (worldAfterDetails_heap rt api repo w) as (_ & Hlook).
    destruct (worldAfterRepos_heap rt api repos (worldAfterDetails rt api repo w))
      as (ext & ->).
    rewrite lookup_app_l; [exact Hlook|].
    apply lookup_lt_Some in Hlook. exact Hlook.
Qed.

Lemma worldAfterRepos_loggerErrors (rt : Runtime) (api : GitHubService.Collaborators)
    (repos : list GitHubService.Repo) (w : World ProjectSummary.t) :
  loggerErrors (worldAfterRepos rt api repos w)
  = loggerErrors w ++ map (repoErrorEntry rt) (List.filter detailsFail repos).
Proof.
  revert w. induction repos as [|repo repos IH]; intros w; simpl.
  - now rewrite app_nil_r.
  - rewrite IH. unfold worldAfterDetails.
    destruct (detailsFail repo); simpl; [|reflexivity].
    now rewrite <- app_assoc.
Qed.

(** C7.  The loop over the repositories always completes, and after it
    the report that was given the number of repositories before the loop
    holds one project for each repository: [totalReposAnalyzed] equals the
    length of [projects]. *)
Theorem ingestion_totalRepos (rt : Runtime) (api : GitHubService.Collaborators)
    (repos : list GitHubService.Repo) (username : string)
    (w : World ProjectSummary.t) :
  exists projects report w',
    Index.processRepositories rt api repos
      (GitHubReport.setTotalRepos (length repos) (GitHubReport.new rt username)) w
    = (Normal (projects, report), w')
    /\ GitHubReport.totalReposAnalyzed report = length (GitHubReport.projects report)
    /\ GitHubReport.projects report = projects
    /\ length projects = length repos
    /\ resolves w' projects (map (projectOfRepo api) repos).
Proof.
  do 3 eexists. split; [apply processRepositories_run|].
  destruct (addProjects_fields (refsAfterRepos rt api repos w)
              (GitHubReport.setTotalRepos (length repos) (GitHubReport.new rt username)))
    as (Hp & Ht & _).
  rewrite Hp, Ht. simpl. rewrite refsAfterRepos_length.
  repeat split; auto using worldAfterRepos_resolves.
Qed.

(** ** Mapping the activities to the projects *)

Lemma split_length (sep : ascii) (a b : string) :
  (2 <= length (JS.split sep (a +:+ String sep b)))%nat.
Proof.
  induction a as [|c a IH]; simpl.
  - destruct (Ascii.eqb_spec sep sep); [|congruence].
    simpl. destruct b; simpl; [lia|].
    destruct (Ascii.eqb _ _); simpl; [lia|].
    destruct (JS.split sep b); simpl; lia.
  - destruct (Ascii.eqb c sep); simpl.
    + lia.
    + destruct (JS.split sep (a +:+ String sep b)) as [|seg segs]; simpl in *; lia.
Qed.

Lemma split_nonempty (sep : ascii) (s : string) : JS.split sep s <> [].
Proof.
  destruct s as [|c s]; simpl; [discriminate|].
  destruct (Ascii.eqb c sep); [discriminate|].
  destruct (JS.split sep s); discriminate.
Qed.

Lemma last_cons_nonempty {X} (x : X) (l : list X) : l <> [] -> last (x :: l) = last l.
Proof. destruct l; [congruence | reflexivity]. Qed.

(** The last segment of [a/b] is the last segment of [b]. *)
Lemma pop_split_app (sep : ascii) (a b : string) :
  JS.pop (JS.split sep (a +:+ String sep b)) = JS.pop (JS.split sep b).
Proof.
  unfold JS.pop. induction a as [|c a IH]; simpl.
  - destruct (Ascii.eqb_spec sep sep); [|congruence].
    apply last_cons_nonempty, split_nonempty.
  - destruct (Ascii.eqb c sep).
    + rewrite last_cons_nonempty by apply split_nonempty. exact IH.
    + pose proof (split_length sep a b) as Hlen.
      destruct (JS.split sep (a +:+ String sep b)) as [|seg [|seg' segs]];
        simpl in Hlen; try lia.
      rewrite <- IH. reflexivity.
Qed.

(** A string without the separator is its own and only segment. *)
Lemma split_no_sep (sep : ascii) (s : string) :
  (forall c, In c (String.list_ascii_of_string s) -> c <> sep) ->
  JS.split sep s = [s].
Proof.
  induction s as [|c s IH]; simpl; intros Hno; [reflexivity|].
  destruct (Ascii.eqb_spec c sep) as [->|_].
  - exfalso. apply (Hno sep); [now left | reflexivity].
  - rewrite IH; [reflexivity|]. intros c' Hc'. apply Hno. now right.
Qed.

(** The name of a project matches the activities of ["name"] and of
    ["owner/name"]. *)
Lemma nameMatches_owner_repo (owner name title url ty : string) (date : option Z) :
  (forall c, In c (String.list_ascii_of_string name) -> c <> "/"%char) ->
  Index.nameMatches name (Activity.new ty title url date name) = true
  /\ Index.nameMatches name
       (Activity.new ty title url date (owner +:+ String "/" name)) = true.
Proof.
  intros Hno. unfold Index.nameMatches. simpl. split.
  - now rewrite String.eqb_refl.
  - rewrite pop_split_app, (split_no_sep _ _ Hno). simpl.
    rewrite bool_decide_eq_true_2 by reflexivity. apply orb_true_r.
Qed.

Lemma nameMatches_iff (name : string) (a : Activity.t) :
  Index.nameMatches name a = true <->
  name = Activity.repoName a
  \/ JS.pop (JS.split "/" (Activity.repoName a)) = Some name.
Proof.
  unfold Index.nameMatches.
  rewrite orb_true_iff, String.eqb_eq, bool_decide_eq_true.
  intuition.
Qed.

Lemma findM_nameMatches (w : World ProjectSummary.t) (projects : list Ref)
    (ps : list ProjectSummary.t) (a : Activity.t) :
  resolves w projects ps ->
  Eff.findM
    (fun p => do obj <- Eff.deref p ;
              Eff.ret (Index.nameMatches (ProjectSummary.name obj) a))
    projects w
  = (Normal (firstMatch w projects a), w).
Proof.
  unfold firstMatch.
  induction 1 as [|r p projects ps Hr _ IH]; simpl; [reflexivity|].
  unfold Eff.bind at 1. unfold Eff.bind at 1. unfold Eff.deref at 1.
  rewrite Hr. simpl.
  destruct (Index.nameMatches (ProjectSummary.name p) a); [reflexivity | exact IH].
Qed.

Lemma firstMatch_resolves (w : World ProjectSummary.t) (projects : list Ref)
    (ps : list ProjectSummary.t) (a : Activity.t) (r : Ref) :
  resolves w projects ps -> firstMatch w projects a = Some r ->
  exists p, heap w !! r = Some p.
Proof.
  intros Hres Hfm. unfold firstMatch in Hfm.
  apply find_some in Hfm as [Hin _].
  destruct (resolves_lookup _ _ _ _ Hres Hin) as (p & Hp & _). eauto.
Qed.

Lemma mapActivity_run (w : World ProjectSummary.t) (projects : list Ref)
    (ps : list ProjectSummary.t) (a : Activity.t) :
  resolves w projects ps ->
  Index.mapActivity projects a w = (Normal tt, worldAfterActivity projects a w).
Proof.
  intros Hres. unfold Index.mapActivity, worldAfterActivity.
  unfold Eff.bind at 1.
  rewrite (findM_nameMatches w projects ps a Hres).
  destruct (firstMatch w projects a) as [r|] eqn:Hfm; [|reflexivity].
  destruct (firstMatch_resolves _ _ _ _ _ Hres Hfm) as (p & Hp).
  unfold ProjectSummary.addActivity, Eff.update. now rewrite Hp.
Qed.

Lemma withActivities_nil (p : ProjectSummary.t) : withActivities p [] = p.
Proof. destruct p. unfold withActivities. simpl. now rewrite app_nil_r. Qed.

Lemma withActivities_app (p : ProjectSummary.t) (l1 l2 : list Activity.t) :
  withActivities (withActivities p l1) l2 = withActivities p (l1 ++ l2).
Proof. unfold withActivities. simpl. now rewrite app_assoc. Qed.

Lemma worldAfterActivity_frame (projects : list Ref) (a : Activity.t)
    (w : World ProjectSummary.t) :
  loggerErrors (worldAfterActivity projects a w) = loggerErrors w
  /\ console (worldAfterActivity projects a w) = console w
  /\ files (worldAfterActivity projects a w) = files w
  /\ length (heap (worldAfterActivity projects a w)) = length (heap w).
Proof.
  unfold worldAfterActivity.
  destruct (firstMatch w projects a) as [r|]; auto.
  destruct (heap w !! r); simpl; auto.
  now rewrite length_insert.
Qed.

Lemma worldAfterActivity_lookup (projects : list Ref) (a : Activity.t)
    (w : World ProjectSummary.t) (r : Ref) (p : ProjectSummary.t) :
  heap w !! r = Some p ->
  heap (worldAfterActivity projects a w) !! r
  = Some (withActivities p (mappedTo w projects r [a])).
Proof.
  intros Hp. unfold worldAfterActivity, mappedTo. simpl.
  destruct (firstMatch w projects a) as [r'|] eqn:Hfm.
  - destruct (heap w !! r') as [p'|] eqn:Hp'; simpl.
    + destruct (decide (r' = r)) as [->|Hne].
      * rewrite bool_decide_eq_true_2 by reflexivity.
        rewrite list_lookup_insert_eq by (now apply lookup_lt_Some in Hp).
        rewrite Hp in Hp'. injection Hp' as <-. reflexivity.
      * rewrite bool_decide_eq_false_2 by congruence.
        rewrite list_lookup_insert_ne by exact Hne.
        now rewrite withActivities_nil.
    + destruct (decide (r' = r)) as [->|Hne]; [congruence|].
      rewrite bool_decide_eq_false_2 by congruence.
      now rewrite withActivities_nil.
  - rewrite bool_decide_eq_false_2 by congruence.
    now rewrite withActivities_nil.
Qed.

Lemma worldAfterActivity_names (projects : list Ref) (a : Activity.t)
    (w : World ProjectSummary.t) (r : Ref) :
  ProjectSummary.name <$> heap (worldAfterActivity projects a w) !! r
  = ProjectSummary.name <$> heap w !! r.
Proof.
  destruct (heap w !! r) as [p|] eqn:Hp.
  - now rewrite (worldAfterActivity_lookup projects a w r p Hp).
  - apply lookup_ge_None in Hp.
    destruct (worldAfterActivity_frame projects a w) as (_ & _ & _ & Hlen).
    rewrite (proj2 (lookup_ge_None _ r)) by lia. reflexivity.
Qed.

Lemma nameMatches_names (w w1 : World ProjectSummary.t) (r : Ref) (b : Activity.t) :
  ProjectSummary.name <$> heap w1 !! r = ProjectSummary.name <$> heap w !! r ->
  match heap w1 !! r with
  | Some p => Index.nameMatches (ProjectSummary.name p) b
  | None => false
  end
  = match heap w !! r with
    | Some p => Index.nameMatches (ProjectSummary.name p) b
    | None => false
    end.
Proof.
  destruct (heap w1 !! r) as [p1|], (heap w !! r) as [p|];
    cbv [fmap option_fmap option_map]; intros Hnames;
    try discriminate; try reflexivity.
  injection Hnames as ->. reflexivity.
Qed.

Lemma firstMatch_names (w w1 : World ProjectSummary.t) (projects : list Ref)
    (b : Activity.t) :
  (forall r, ProjectSummary.name <$> heap w1 !! r
             = ProjectSummary.name <$> heap w !! r) ->
  firstMatch w1 projects b = firstMatch w projects b.
Proof.
  intros Hnames. unfold firstMatch.
  induction projects as [|r projects IH]; simpl; [reflexivity|].
  rewrite (nameMatches_names w w1 r b (Hnames r)), IH. reflexivity.
Qed.

Lemma worldAfterActivity_resolves (projects refs : list Ref) (a : Activity.t)
    (w : World ProjectSummary.t) (ps : list ProjectSummary.t) :
  resolves w refs ps ->
  resolves (worldAfterActivity projects a w) refs
    (zip_with (fun r p => withActivities p (mappedTo w projects r [a])) refs ps).
Proof.
  induction 1 as [|r p refs ps Hr _ IH]; simpl; constructor; [|exact IH].
  now apply worldAfterActivity_lookup.
Qed.

(** The loop [userActivities.forEach(...)] as a whole. *)
Lemma forEach_mapActivity (projects : list Ref) (activities : list Activity.t) :
  forall (w : World ProjectSummary.t) (ps : list ProjectSummary.t),
    resolves w projects ps ->
    exists w',
      Eff.forEach (Index.mapActivity projects) activities w = (Normal tt, w')
      /\ loggerErrors w' = loggerErrors w
      /\ console w' = console w
      /\ files w' = files w
      /\ length (heap w') = length (heap w)
      /\ (forall r p, heap w !! r = Some p ->
                      heap w' !! r
                      = Some (withActivities p (mappedTo w projects r activities)))
      /\ Eff.forEach (Index.mapActivity projects) (mapped w projects activities) w
         = (Normal tt, w').
Proof.
  induction activities as [|a activities IH]; intros w ps Hres.
  - exists w. simpl. repeat split; auto.
    intros r p Hp. now rewrite withActivities_nil.
  - pose proof (worldAfterActivity_resolves projects projects a w ps Hres) as Hres1.
    destruct (IH _ _ Hres1) as (w' & Hrun & Hl & Hc & Hf & Hlen & Hlook & Hdrop).
    destruct (worldAfterActivity_frame projects a w) as (Hl1 & Hc1 & Hf1 & Hlen1).
    assert (Hfm : forall b, firstMatch (worldAfterActivity projects a w) projects b
                            = firstMatch w projects b).
    { intros b. apply firstMatch_names. apply worldAfterActivity_names. }
    assert (Hmapped : forall r l, mappedTo (worldAfterActivity projects a w) projects r l
                                  = mappedTo w projects r l).
    { intros r l. unfold mappedTo. apply filter_ext. intros b. now rewrite Hfm. }
    assert (Hmapped' : mapped (worldAfterActivity projects a w) projects activities
                       = mapped w projects activities).
    { unfold mapped. apply filter_ext. intros b. now rewrite Hfm. }
    exists w'. cbn [Eff.forEach]. unfold Eff.bind at 1.
    rewrite (mapActivity_run w projects ps a Hres).
    split; [exact Hrun|].
    split; [congruence|]. split; [congruence|]. split; [congruence|].
    split; [congruence|]. split.
    + intros r p Hp.
      rewrite (Hlook r _ (worldAfterActivity_lookup projects a w r p Hp)).
      rewrite withActivities_app, Hmapped.
      change (a :: activities) with ([a] ++ activities).
      unfold mappedTo. now rewrite List.filter_app.
    + unfold mapped. simpl. fold (mapped w projects activities).
      destruct (firstMatch w projects a) as [r|] eqn:Ha.
      * rewrite bool_decide_eq_true_2 by eauto.
        simpl. unfold Eff.bind at 1.
        rewrite (mapActivity_run w projects ps a Hres).
        now rewrite <- Hmapped'.
      * rewrite bool_decide_eq_false_2 by (intros [? ?]; discriminate).
        assert (Hw : worldAfterActivity projects a w = w)
          by (unfold worldAfterActivity; now rewrite Ha).
        rewrite Hw in Hdrop. exact Hdrop.
Qed.

(** [firstMatch] is the first project, in the order of the listing, whose
    name matches. *)
Lemma firstMatch_first (w : World ProjectSummary.t) (projects : list Ref)
    (ps : list ProjectSummary.t) (a : Activity.t) (r : Ref) :
  resolves w projects ps ->
  (firstMatch w projects a = Some r <->
   exists (i : nat) (p : ProjectSummary.t),
     projects !! i = Some r
     /\ heap w !! r = Some p
     /\ Index.nameMatches (ProjectSummary.name p) a = true
     /\ forall (j : nat) (r' : Ref) (p' : ProjectSummary.t),
          (j < i)%nat -> projects !! j = Some r' -> heap w !! r' = Some p' ->
          Index.nameMatches (ProjectSummary.name p') a = false).
Proof.
  unfold firstMatch.
  induction 1 as [|r0 p0 projects ps Hr0 Hres IH]; simpl.
  - split; [discriminate | intros (i & p & Hi & _); discriminate].
  - rewrite Hr0.
    destruct (Index.nameMatches (ProjectSummary.name p0) a) eqn:Hm.
    + split.
      * intros Heq. injection Heq as <-. exists 0%nat, p0.
        repeat split; auto. intros j r' p' Hj. lia.
      * intros (i & p & Hi & Hp & Hmatch & Hfirst).
        destruct i as [|i]; [simpl in Hi; congruence|].
        specialize (Hfirst 0%nat r0 p0 ltac:(lia) eq_refl Hr0). congruence.
    + rewrite IH. split.
      * intros (i & p & Hi & Hp & Hmatch & Hfirst).
        exists (S i), p. repeat split; auto.
        intros [|j] r' p' Hj Hr' Hp'; simpl in Hr'.
        -- injection Hr' as <-. congruence.
        -- apply (Hfirst j r' p'); auto. lia.
      * intros (i & p & Hi & Hp & Hmatch & Hfirst).
        destruct i as [|i]; simpl in Hi.
        -- injection Hi as <-. congruence.
        -- exists i, p. repeat split; auto.
           intros j r' p' Hj Hr' Hp'. apply (Hfirst (S j) r' p'); auto. lia.
Qed.

Lemma firstMatch_None (w : World ProjectSummary.t) (projects : list Ref)
    (ps : list ProjectSummary.t) (a : Activity.t) :
  resolves w projects ps ->
  (firstMatch w projects a = None <->
   forall p, In p ps -> Index.nameMatches (ProjectSummary.name p) a = false).
Proof.
  unfold firstMatch.
  induction 1 as [|r0 p0 projects ps Hr0 Hres IH]; simpl.
  - split; [contradiction | reflexivity].
  - rewrite Hr0.
    destruct (Index.nameMatches (ProjectSummary.name p0) a) eqn:Hm.
    + split; [discriminate|]. intros Hall.
      specialize (Hall p0 (or_introl eq_refl)). congruence.
    + rewrite IH. split.
      * intros Hall p [<- | Hin]; auto.
      * intros Hall p Hin. apply Hall. now right.
Qed.

(** C1.  The loop over the fetched activities completes and changes
    nothing but the activity lists of the projects: the project behind each
    reference gains, in the order in which they were fetched, the
    activities for which it is the first project of the listing whose name
    is the [repoName] or its last segment; an activity that no project
    matches leaves the world as it is, and the loop ends in the same world
    as the loop over the matched activities alone, so that no query on the
    report can tell that the activity was fetched. *)
Theorem activities_mapped_to_first_match (w : World ProjectSummary.t)
    (projects : list Ref) (ps : list ProjectSummary.t)
    (activities : list Activity.t)
    (Hstore : resolves w projects ps) :
  exists w',
    Eff.forEach (Index.mapActivity projects) activities w = (Normal tt, w')
    /\ loggerErrors w' = loggerErrors w
    /\ console w' = console w
    /\ files w' = files w
    /\ length (heap w') = length (heap w)
    /\ (forall (r : Ref) (p : ProjectSummary.t),
          heap w !! r = Some p ->
          heap w' !! r
          = Some (withActivities p
                    (List.filter
                       (fun a => bool_decide (firstMatch w projects a = Some r))
                       activities)))
    /\ (forall (a : Activity.t) (r : Ref),
          firstMatch w projects a = Some r <->
          exists (i : nat) (p : ProjectSummary.t),
            projects !! i = Some r
            /\ heap w !! r = Some p
            /\ (ProjectSummary.name p = Activity.repoName a
                \/ JS.pop (JS.split "/" (Activity.repoName a))
                   = Some (ProjectSummary.name p))
            /\ forall (j : nat) (r' : Ref) (p' : ProjectSummary.t),
                 (j < i)%nat -> projects !! j = Some r' -> heap w !! r' = Some p' ->
                 ~ (ProjectSummary.name p' = Activity.repoName a
                    \/ JS.pop (JS.split "/" (Activity.repoName a))
                       = Some (ProjectSummary.name p')))
    /\ (forall a : Activity.t,
          (forall p, In p ps ->
                     ~ (ProjectSummary.name p = Activity.repoName a
                        \/ JS.pop (JS.split "/" (Activity.repoName a))
                           = Some (ProjectSummary.name p))) ->
          Index.mapActivity projects a w = (Normal tt, w)
          /\ forall r, ~ In a (List.filter
                                 (fun a => bool_decide (firstMatch w projects a = Some r))
                                 activities))
    /\ Eff.forEach (Index.mapActivity projects)
         (List.filter (fun a => bool_decide (is_Some (firstMatch w projects a)))
            activities) w
       = (Normal tt, w').
Proof.
  destruct (forEach_mapActivity projects activities w ps Hstore)
    as (w' & Hrun & Hl & Hc & Hf & Hlen & Hlook & Hdrop).
  exists w'. repeat (split; [assumption|]).
  split; [|split; [|exact Hdrop]].
  - intros a r. rewrite (firstMatch_first w projects ps a r Hstore).
    split; intros (i & p & Hi & Hp & Hm & Hfirst); exists i, p;
      repeat split; auto.
    + now apply nameMatches_iff.
    + intros j r' p' Hj Hr' Hp' Hmatch.
      apply nameMatches_iff in Hmatch.
      rewrite (Hfirst j r' p' Hj Hr' Hp') in Hmatch. discriminate.
    + now apply nameMatches_iff.
    + intros j r' p' Hj Hr' Hp'. apply not_true_is_false. intros Hmatch.
      apply nameMatches_iff in Hmatch. exact (Hfirst j r' p' Hj Hr' Hp' Hmatch).
  - intros a Hnone.
    assert (Hfm : firstMatch w projects a = None).
    { apply (firstMatch_None w projects ps a Hstore). intros p Hin.
      apply not_true_is_false. intros Hmatch.
      apply nameMatches_iff in Hmatch. exact (Hnone p Hin Hmatch). }
    split.
    + rewrite (mapActivity_run w projects ps a Hstore).
      unfold worldAfterActivity. now rewrite Hfm.
    + intros r Hin. apply filter_In in Hin as [_ Hin].
      apply bool_decide_eq_true in Hin. congruence.
Qed.

(** ** The logger and the errors of a run *)

Lemma logLines_nil (w : World ProjectSummary.t) : logLines [] w = w.
Proof. destruct w. unfold logLines. simpl. now rewrite app_nil_r. Qed.

Lemma logLines_app (l1 l2 : list string) (w : World ProjectSummary.t) :
  logLines l2 (logLines l1 w) = logLines (l1 ++ l2) w.
Proof. unfold logLines. simpl. now rewrite app_assoc. Qed.

Lemma consoleLog_run (line : string) (w : World ProjectSummary.t) :
  Eff.consoleLog line w = (Normal tt, logLines [line] w).
Proof. reflexivity. Qed.

Lemma forEach_logLines {X} (f : X -> Run unit) (g : X -> list string) (l : list X) :
  (forall x w, f x w = (Normal tt, logLines (g x) w)) ->
  forall w, Eff.forEach f l w = (Normal tt, logLines (concat (map g l)) w).
Proof.
  intros Hf. induction l as [|x l IH]; intros w; simpl.
  - now rewrite logLines_nil.
  - unfold Eff.bind. rewrite Hf, IH, logLines_app. reflexivity.
Qed.

Lemma bind_consoleLog {B} (line : string) (k : unit -> Run B)
    (w : World ProjectSummary.t) :
  Eff.bind (Eff.consoleLog line) k w = k tt (logLines [line] w).
Proof. reflexivity. Qed.

Lemma bind_getLoggerErrors {B} (k : list ErrorEntry -> Run B)
    (w : World ProjectSummary.t) :
  Eff.bind Eff.getLoggerErrors k w = k (loggerErrors w) w.
Proof. reflexivity. Qed.

Lemma bind_hasErrors {B} (k : bool -> Run B) (w : World ProjectSummary.t) :
  Eff.bind Logger.hasErrors k w = k (0 <? length (loggerErrors w))%nat w.
Proof. reflexivity. Qed.

Lemma printSummary_run (rt : Runtime) (w : World ProjectSummary.t) :
  Logger.printSummary rt w
  = (Normal tt, logLines (summaryLines rt (loggerErrors w)) w).
Proof.
  unfold Logger.printSummary, summaryLines.
  rewrite !bind_consoleLog, bind_hasErrors, !logLines_app.
  change (loggerErrors (logLines _ w)) with (loggerErrors w).
  destruct (0 <? length (loggerErrors w))%nat.
  - rewrite bind_getLoggerErrors, bind_consoleLog, logLines_app.
    change (loggerErrors (logLines _ w)) with (loggerErrors w).
    rewrite (forEach_logLines _ (fun '(i, e) => errorLines rt i e)).
    + rewrite logLines_app. do 2 f_equal.
      rewrite <- !app_assoc. cbn [app]. do 5 f_equal.
      change (map (fun '(i, e) => errorLines rt i e) (imap pair (loggerErrors w)))
        with ((fun '(i, e) => errorLines rt i e) <$> imap pair (loggerErrors w)).
      rewrite fmap_imap. reflexivity.
    + intros [i e] w0. rewrite bind_consoleLog. unfold errorLines.
      destruct (truthyString (entry_context e)).
      * rewrite consoleLog_run, logLines_app. reflexivity.
      * reflexivity.
  - rewrite consoleLog_run, logLines_app. reflexivity.
Qed.

Lemma worldAfterRepos_minimal (rt : Runtime) (api : GitHubService.Collaborators)
    (repos : list GitHubService.Repo) (w : World ProjectSummary.t)
    (i : nat) (repo : GitHubService.Repo) :
  repos !! i = Some repo ->
  exists r,
    refsAfterRepos rt api repos w !! i = Some r
    /\ heap (worldAfterRepos rt api repos w) !! r = Some (projectOfRepo api repo).
Proof.
  intros Hi.
  pose proof (worldAfterRepos_resolves rt api repos w) as Hres.
  unfold resolves in Hres.
  assert (Hp : map (projectOfRepo api) repos !! i = Some (projectOfRepo api repo)).
  { change (map (projectOfRepo api) repos) with (projectOfRepo api <$> repos).
    rewrite list_lookup_fmap, Hi. reflexivity. }
  destruct (Forall2_lookup_r _ _ _ _ _ Hres Hp) as (r & Hr & Hheap).
  exists r. auto.
Qed.

(** ** The theorems at the example of three projects *)

Lemma exampleWorld_resolves :
  resolves exampleWorld (GitHubReport.projects exampleReport) exampleProjects.
Proof. repeat constructor. Defined.

Lemma hasYesterdayActivity_iff_example :
  heap exampleWorld !! 2%nat = Some exampleGamma
  /\ exists v,
       ProjectSummary.hasYesterdayActivity dstRuntime 2%nat exampleWorld
       = (Normal v, exampleWorld)
       /\ v = JS.VBool true.
Proof.
  split; [reflexivity|].
  destruct (hasYesterdayActivity_iff dstRuntime exampleWorld 2%nat exampleGamma eq_refl)
    as (v & Hrun & _ & _ & Honly).
  exists v. split; [exact Hrun|].
  apply (Honly eq_refl _ eq_refl).
  eexists. split; [reflexivity|].
  vm_compute. split; [discriminate | reflexivity].
Defined.

Lemma hasYesterdayActivity_null_lastPR_example :
  heap exampleWorld !! 0%nat = Some exampleAlpha
  /\ ProjectSummary.lastPR exampleAlpha = None
  /\ exists v,
       ProjectSummary.hasYesterdayActivity dstRuntime 0%nat exampleWorld
       = (Normal v, exampleWorld)
       /\ (v = JS.VBool true \/ v = JS.VNull).
Proof.
  split; [reflexivity|]. split; [reflexivity|].
  destruct (hasYesterdayActivity_null_lastPR dstRuntime exampleWorld 0%nat
              exampleAlpha eq_refl eq_refl)
    as (v & Hrun & _ & Hcases & _).
  exists v. split; [exact Hrun | exact Hcases].
Defined.

Lemma getAllYesterdayActivities_sorted_example :
  resolves exampleWorld (GitHubReport.projects exampleReport) exampleProjects
  /\ exists result,
       GitHubReport.getAllYesterdayActivities dstRuntime exampleReport exampleWorld
       = (Normal result, exampleWorld)
       /\ forall (i : nat) (a b : Activity.t),
            result !! i = Some a -> result !! S i = Some b ->
            exists ta tb, Activity.date a = Some ta /\ Activity.date b = Some tb
                          /\ ta >= tb.
Proof.
  split; [exact exampleWorld_resolves|].
  destruct (getAllYesterdayActivities_sorted dstRuntime exampleWorld exampleReport
              exampleProjects exampleWorld_resolves)
    as (result & Hrun & _ & Hadjacent).
  exists result. split; [exact Hrun | exact Hadjacent].
Defined.

Lemma getExecutiveSummary_idempotent_example :
  resolves exampleWorld (GitHubReport.projects exampleReport) exampleProjects
  /\ exists first second,
       getExecutiveSummaryTwice dstRuntime exampleReport exampleWorld
       = (Normal (first, second), exampleWorld)
       /\ first = second.
Proof.
  split; [exact exampleWorld_resolves|].
  destruct (getExecutiveSummary_idempotent dstRuntime exampleWorld exampleReport
              exampleProjects exampleWorld_resolves)
    as (first & second & Hrun & _ & Heq & _).
  exists first, second. split; [exact Hrun | exact Heq].
Defined.

Lemma getExecutiveSummary_total_example :
  resolves exampleWorld (GitHubReport.projects exampleReport) exampleProjects
  /\ exists s w1 s1,
       GitHubReport.getExecutiveSummary dstRuntime exampleReport exampleWorld
       = (Normal s, exampleWorld)
       /\ (GitHubReport.totalActivities s
           = GitHubReport.createdPRs s + GitHubReport.comments s
             + GitHubReport.reviews s + 1)%nat
       /\ ProjectSummary.addActivity 0%nat exampleIssueComment exampleWorld
          = (Normal tt, w1)
       /\ GitHubReport.getExecutiveSummary dstRuntime exampleReport w1
          = (Normal s1, w1)
       /\ GitHubReport.totalActivities s1 = S (GitHubReport.totalActivities s)
       /\ GitHubReport.createdPRs s1 = GitHubReport.createdPRs s
       /\ GitHubReport.comments s1 = GitHubReport.comments s
       /\ GitHubReport.reviews s1 = GitHubReport.reviews s.
Proof.
  split; [exact exampleWorld_resolves|].
  destruct (getExecutiveSummary_total dstRuntime exampleWorld exampleReport
              exampleProjects exampleWorld_resolves)
    as (s & Hrun & _ & _ & _ & _ & Hsum & _ & _ & Hadd).
  destruct (Hadd 0%nat exampleAlpha exampleIssueComment)
    as (w1 & s1 & Hw1 & Hrun1 & Htotal1 & Hcreated1 & Hcomments1 & Hreviews1 & _).
  - apply (bool_decide_unpack (NoDup [0; 1; 2]%nat)). vm_compute. exact I.
  - simpl; auto.
  - reflexivity.
  - reflexivity.
  - vm_compute; reflexivity.
  - exists s, w1, s1. split; [exact Hrun|]. split; [exact Hsum|].
    split; [exact Hw1|]. split; [exact Hrun1|]. split; [exact Htotal1|].
    split; [exact Hcreated1|]. split; [exact Hcomments1 | exact Hreviews1].
Defined.

Lemma activities_mapped_to_first_match_example :
  resolves exampleWorld [0; 1; 2]%nat exampleProjects
  /\ exists w',
       Eff.forEach (Index.mapActivity [0; 1; 2]%nat) exampleActivities exampleWorld
       = (Normal tt, w')
       /\ console w' = console exampleWorld
       /\ Eff.forEach (Index.mapActivity [0; 1; 2]%nat)
            (List.filter
               (fun a => bool_decide
                           (is_Some (firstMatch exampleWorld [0; 1; 2]%nat a)))
               exampleActivities)
            exampleWorld
          = (Normal tt, w').
Proof.
  split; [exact exampleWorld_resolves|].
  destruct (activities_mapped_to_first_match exampleWorld [0; 1; 2]%nat
              exampleProjects exampleActivities exampleWorld_resolves)
    as (w' & Hrun & _ & Hconsole & _ & _ & _ & _ & _ & Hdrop).
  exists w'. split; [exact Hrun|]. split; [exact Hconsole | exact Hdrop].
Defined.

(** The summary of the three projects: the older review of [beta] is not
    counted, its issue comment is counted in the total alone, and [gamma]
    is active on the strength of its last pull request. *)
Lemma getExecutiveSummary_example :
  GitHubReport.getExecutiveSummary dstRuntime exampleReport exampleWorld
  = (Normal {| GitHubReport.totalRepos := 3; GitHubReport.activeRepos := 3;
               GitHubReport.totalActivities := 3; GitHubReport.createdPRs := 1;
               GitHubReport.comments := 0; GitHubReport.reviews := 1;
               GitHubReport.hasErrors := false; GitHubReport.errorCount := 0 |},
     exampleWorld).
Proof. vm_compute. reflexivity. Qed.

(** * Further properties of the code *)

(** ** The window in a zone without transitions *)

(** Where the offset of local time never changes, the window of
    [isFromYesterday] is the 24 hours that start at the local midnight one
    calendar day before [now]. *)
Theorem isFromYesterday_fixedZone (rt : Runtime) (offset : Z)
    (Hzone : tz rt = JSDate.fixedZone offset) :
  yesterday rt
  = (JSDate.Day (now rt + offset) - 1) * JSDate.msPerDay - offset
  /\ tomorrow rt = yesterday rt + JSDate.msPerDay
  /\ (forall a : Activity.t,
        Activity.isFromYesterday rt a = true <->
        exists t, Activity.date a = Some t
                  /\ yesterday rt <= t < yesterday rt + JSDate.msPerDay)
  /\ (forall pr : PullRequest.t,
        PullRequest.isFromYesterday rt pr = true <->
        exists t, PullRequest.date pr = Some t
                  /\ yesterday rt <= t < yesterday rt + JSDate.msPerDay).
Proof.
  assert (Ey : yesterday rt
               = (JSDate.Day (now rt + offset) - 1) * JSDate.msPerDay - offset).
  { rewrite yesterday_eq, Hzone. unfold JSDate.UTC, JSDate.LocalTime. simpl.
    replace (now rt + offset - JSDate.msPerDay - offset + offset)
      with (now rt + offset + -1 * JSDate.msPerDay) by lia.
    rewrite Day_shift. lia. }
  assert (Et : tomorrow rt = yesterday rt + JSDate.msPerDay).
  { rewrite tomorrow_eq, Hzone. unfold JSDate.UTC, JSDate.LocalTime. simpl. lia. }
  split; [exact Ey|]. split; [exact Et|]. split.
  - intros a. rewrite Activity_isFromYesterday_iff.
    unfold inYesterdayWindow. now rewrite Et.
  - intros pr. rewrite PullRequest_isFromYesterday_iff.
    unfold inYesterdayWindow. now rewrite Et.
Qed.

Lemma isFromYesterday_fixedZone_cet :
  tz cetRuntime = JSDate.fixedZone JSDate.msPerHour
  /\ yesterday cetRuntime = JSDate.utc 2024 5 13 23 0
  /\ tomorrow cetRuntime = JSDate.utc 2024 5 14 23 0.
Proof.
  split; [reflexivity|].
  destruct (isFromYesterday_fixedZone cetRuntime JSDate.msPerHour eq_refl)
    as (Hy & Ht & _).
  split.
  - rewrite Hy. reflexivity.
  - rewrite Ht, Hy. reflexivity.
Defined.

(** ** ProjectSummary: construction and [addActivity] *)

(** A new project never has an empty description: a missing or empty one
    is replaced by the placeholder, any other is kept.  The object gets a
    fresh reference, starts without activities, and the objects that were
    there before stay as they are. *)
Theorem ProjectSummary_new_fresh (name : string) (description : option string)
    (url : string) (language : option string) (lastPR : option PullRequest.t)
    (w : World ProjectSummary.t) :
  exists (p : ProjectSummary.t) (w' : World ProjectSummary.t),
    ProjectSummary.new name description url language lastPR w
    = (Normal (length (heap w)), w')
    /\ heap w' = heap w ++ [p]
    /\ heap w !! length (heap w) = None
    /\ heap w' !! length (heap w) = Some p
    /\ (forall r o, heap w !! r = Some o -> heap w' !! r = Some o)
    /\ loggerErrors w' = loggerErrors w /\ console w' = console w
    /\ files w' = files w
    /\ ProjectSummary.name p = name
    /\ ProjectSummary.myActivities p = []
    /\ ProjectSummary.lastPR p = lastPR
    /\ ProjectSummary.description p <> ""%string
    /\ (forall d, description = Some d -> d <> ""%string ->
                  ProjectSummary.description p = d)
    /\ (description = None \/ description = Some ""%string ->
        ProjectSummary.description p = "No description available"%string).
Proof.
  eexists. eexists. split; [reflexivity|]. simpl.
  split; [reflexivity|].
  split; [apply lookup_ge_None; lia|].
  split; [apply lookup_last|].
  split; [intros r o Hr; rewrite lookup_app_l;
          [exact Hr | now apply lookup_lt_Some in Hr]|].
  repeat (split; [reflexivity|]).
  unfold ProjectSummary.descriptionOrDefault.
  split; [|split].
  - destruct description as [d|]; [|discriminate].
    destruct (String.eqb_spec d ""); [discriminate | assumption].
  - intros d -> Hd. destruct (String.eqb_spec d ""); [contradiction | reflexivity].
  - intros [-> | ->]; reflexivity.
Qed.

(** [addActivity] puts the activity at the end of the list of its project
    and touches nothing else; adding the same activity again stores it
    twice.  The activities of yesterday of the project afterwards are the
    earlier ones, followed by the new activity if it is from yesterday. *)
Theorem addActivity_appends (rt : Runtime) (w : World ProjectSummary.t)
    (this : Ref) (p : ProjectSummary.t) (a : Activity.t)
    (Hthis : heap w !! this = Some p) :
  exists w',
    ProjectSummary.addActivity this a w = (Normal tt, w')
    /\ heap w' !! this
       = Some (withActivities p [a])
    /\ (forall r, r <> this -> heap w' !! r = heap w !! r)
    /\ loggerErrors w' = loggerErrors w /\ console w' = console w
    /\ files w' = files w
    /\ ProjectSummary.getYesterdayActivities rt this w'
       = (Normal
            (List.filter (Activity.isFromYesterday rt) (ProjectSummary.myActivities p)
             ++ (if Activity.isFromYesterday rt a then [a] else [])),
          w')
    /\ exists w'',
         ProjectSummary.addActivity this a w' = (Normal tt, w'')
         /\ heap w'' !! this = Some (withActivities p [a; a]).
Proof.
  assert (Hlt : (this < length (heap w))%nat) by (now apply lookup_lt_Some in Hthis).
  unfold ProjectSummary.addActivity, Eff.update. rewrite Hthis.
  eexists. split; [reflexivity|]. cbn [heap loggerErrors console files].
  assert (Hnew : <[this := ProjectSummary.push_myActivities a p]> (heap w) !! this
                 = Some (withActivities p [a])).
  { now rewrite list_lookup_insert_eq. }
  split; [exact Hnew|].
  split; [intros r Hr; now rewrite list_lookup_insert_ne|].
  repeat (split; [reflexivity|]).
  split.
  - unfold ProjectSummary.getYesterdayActivities, Eff.bind, Eff.deref.
    cbn [heap]. rewrite Hnew. unfold Eff.ret. do 2 f_equal.
    cbn [withActivities ProjectSummary.myActivities].
    rewrite List.filter_app. reflexivity.
  - cbn [heap]. rewrite Hnew. eexists. split; [reflexivity|].
    cbn [heap]. rewrite list_lookup_insert_eq by (rewrite length_insert; exact Hlt).
    unfold withActivities, ProjectSummary.push_myActivities. simpl.
    now rewrite <- app_assoc.
Qed.

Lemma addActivity_appends_example :
  heap exampleWorld !! 2%nat = Some exampleGamma
  /\ exists w',
       ProjectSummary.addActivity 2%nat
         (Activity.new "pr_created" "More" "u" (Some (JSDate.utc 2024 2 10 18 0)) "gamma")
         exampleWorld
       = (Normal tt, w')
       /\ console w' = console exampleWorld.
Proof.
  split; [reflexivity|].
  destruct (addActivity_appends dstRuntime exampleWorld 2%nat exampleGamma
              (Activity.new "pr_created" "More" "u"
                 (Some (JSDate.utc 2024 2 10 18 0)) "gamma") eq_refl)
    as (w' & Hrun & _ & _ & _ & Hconsole & _).
  exists w'. split; [exact Hrun | exact Hconsole].
Defined.

(** ** The queries of the report *)

Lemma filter_sublist {X} (f : X -> bool) (l : list X) : sublist (List.filter f l) l.
Proof.
  induction l as [|x l IH]; simpl; [constructor|].
  destruct (f x); now constructor.
Qed.

Lemma filter_length_le {X} (f : X -> bool) (l : list X) :
  (length (List.filter f l) <= length l)%nat.
Proof.
  induction l as [|x l IH]; simpl; [lia|].
  destruct (f x); simpl; lia.
Qed.

(** [getActiveProjects] keeps the order of the listing and returns exactly
    the projects that have an activity or a last pull request in the window
    of yesterday. *)
Theorem getActiveProjects_sublist (rt : Runtime) (w : World ProjectSummary.t)
    (report : GitHubReport.t) (ps : list ProjectSummary.t)
    (Hstore : resolves w (GitHubReport.projects report) ps) :
  exists active,
    GitHubReport.getActiveProjects rt report w = (Normal active, w)
    /\ sublist active (GitHubReport.projects report)
    /\ (length active <= length (GitHubReport.projects report))%nat
    /\ forall (r : Ref) (p : ProjectSummary.t),
         In r (GitHubReport.projects report) -> heap w !! r = Some p ->
         (In r active <->
          (exists a, In a (ProjectSummary.myActivities p)
                     /\ inYesterdayWindow rt (Activity.date a))
          \/ (exists pr, ProjectSummary.lastPR p = Some pr
                         /\ inYesterdayWindow rt (PullRequest.date pr))).
Proof.
  unfold GitHubReport.getActiveProjects.
  exists (List.filter
            (fun r => JS.ToBoolean
                        (match heap w !! r with
                         | Some p => hasYesterdayActivityOf rt p
                         | None => JS.VNull
                         end)) (GitHubReport.projects report)).
  split.
  - apply filterM_reads. intros r Hr.
    destruct (resolves_lookup _ _ _ _ Hstore Hr) as (p & Hp & _).
    rewrite Hp. now apply hasYesterdayActivity_run.
  - split; [apply filter_sublist|]. split; [apply filter_length_le|].
    intros r p Hin Hp.
    rewrite filter_In, Hp, hasYesterdayActivityOf_truthy, hasYesterdayActivityOf_true.
    tauto.
Qed.

Lemma getActiveProjects_sublist_example :
  resolves exampleWorld (GitHubReport.projects exampleReport) exampleProjects
  /\ exists active,
       GitHubReport.getActiveProjects dstRuntime exampleReport exampleWorld
       = (Normal active, exampleWorld)
       /\ sublist active (GitHubReport.projects exampleReport).
Proof.
  split; [exact exampleWorld_resolves|].
  destruct (getActiveProjects_sublist dstRuntime exampleWorld exampleReport
              exampleProjects exampleWorld_resolves)
    as (active & Hrun & Hsub & _).
  exists active. split; [exact Hrun | exact Hsub].
Defined.

(** The figures of the executive summary are bounded by what they count:
    no more active repositories than projects, no more typed activities
    than activities; the total is the number of yesterday's activities of
    all projects, and [hasErrors] says that the error list of the report is
    not empty. *)
Theorem getExecutiveSummary_bounds (rt : Runtime) (w : World ProjectSummary.t)
    (report : GitHubReport.t) (ps : list ProjectSummary.t)
    (Hstore : resolves w (GitHubReport.projects report) ps) :
  exists s,
    GitHubReport.getExecutiveSummary rt report w = (Normal s, w)
    /\ GitHubReport.totalRepos s = GitHubReport.totalReposAnalyzed report
    /\ (GitHubReport.activeRepos s <= length (GitHubReport.projects report))%nat
    /\ GitHubReport.totalActivities s
       = length (concat
                   (map (fun p => List.filter (Activity.isFromYesterday rt)
                                    (ProjectSummary.myActivities p)) ps))
    /\ (GitHubReport.createdPRs s + GitHubReport.comments s
        + GitHubReport.reviews s <= GitHubReport.totalActivities s)%nat
    /\ (GitHubReport.hasErrors s = true <-> GitHubReport.errors report <> [])
    /\ GitHubReport.errorCount s = length (GitHubReport.errors report).
Proof.
  destruct (getExecutiveSummary_run rt w report ps Hstore)
    as (s & Hrun & Hrepos & Hactive & Htotal & Hcreated & Hcomments & Hreviews
        & Herr & Hcount).
  exists s. split; [exact Hrun|]. split; [exact Hrepos|].
  split.
  { rewrite Hactive. etransitivity; [apply filter_length_le|].
    unfold resolves in Hstore. apply Forall2_length in Hstore. lia. }
  split.
  { rewrite Htotal. apply Permutation_length, sort_Permutation. }
  split.
  { rewrite Htotal, Hcreated, Hcomments, Hreviews.
    pose proof (filter_type_partition
                  (JS.sort GitHubReport.byDateDescending
                     (concat (map (yesterdayActivitiesOf rt) ps)))) as Hpart.
    lia. }
  split; [|exact Hcount].
  rewrite Herr. destruct (GitHubReport.errors report); simpl; split;
    congruence || discriminate || reflexivity.
Qed.

Lemma getExecutiveSummary_bounds_example :
  resolves exampleWorld (GitHubReport.projects exampleReport) exampleProjects
  /\ exists s,
       GitHubReport.getExecutiveSummary dstRuntime exampleReport exampleWorld
       = (Normal s, exampleWorld)
       /\ (GitHubReport.activeRepos s
           <= length (GitHubReport.projects exampleReport))%nat.
Proof.
  split; [exact exampleWorld_resolves|].
  destruct (getExecutiveSummary_bounds dstRuntime exampleWorld exampleReport
              exampleProjects exampleWorld_resolves)
    as (s & Hrun & _ & Hactive & _).
  exists s. split; [exact Hrun | exact Hactive].
Defined.

(** ** The order of activities with the same date *)

Lemma insert_filter_date (t : Z) (x : Activity.t) (l : list Activity.t) :
  is_Some (Activity.date x) ->
  Forall (fun a => is_Some (Activity.date a)) l ->
  List.filter (fun a => bool_decide (Activity.date a = Some t))
    (JS.insert GitHubReport.byDateDescending x l)
  = List.filter (fun a => bool_decide (Activity.date a = Some t)) (x :: l).
Proof.
  intros [tx Hx] Hvalid.
  induction Hvalid as [|y l [ty Hy] _ IH]; [reflexivity|].
  cbn [JS.insert].
  rewrite (byDateDescending_before x y tx ty Hx Hy).
  destruct (Z.leb_spec ty tx) as [Hle|Hlt]; [reflexivity|].
  cbn [List.filter]. rewrite IH. cbn [List.filter].
  destruct (bool_decide_reflect (Activity.date y = Some t)) as [Ey|_];
    destruct (bool_decide_reflect (Activity.date x = Some t)) as [Ex|_];
    try reflexivity.
  rewrite Hy in Ey. rewrite Hx in Ex. injection Ey as ->. injection Ex as ->. lia.
Qed.

Lemma sort_filter_date (t : Z) (l : list Activity.t) :
  Forall (fun a => is_Some (Activity.date a)) l ->
  List.filter (fun a => bool_decide (Activity.date a = Some t))
    (JS.sort GitHubReport.byDateDescending l)
  = List.filter (fun a => bool_decide (Activity.date a = Some t)) l.
Proof.
  induction 1 as [|x l Hx Hl IH]; [reflexivity|].
  cbn [JS.sort]. rewrite insert_filter_date.
  - cbn [List.filter]. now rewrite IH.
  - exact Hx.
  - apply (Permutation_Forall (Permutation_sym (sort_Permutation _ l))). exact Hl.
Qed.

(** The sort of [getAllYesterdayActivities] is stable: activities with the
    same date come out in the order of the projects and, within a project,
    in the order in which they were added. *)
Theorem getAllYesterdayActivities_stable (rt : Runtime) (w : World ProjectSummary.t)
    (report : GitHubReport.t) (ps : list ProjectSummary.t)
    (Hstore : resolves w (GitHubReport.projects report) ps) :
  exists result,
    GitHubReport.getAllYesterdayActivities rt report w = (Normal result, w)
    /\ forall t : Z,
         List.filter (fun a => bool_decide (Activity.date a = Some t)) result
         = List.filter (fun a => bool_decide (Activity.date a = Some t))
             (concat
                (map (fun p => List.filter (Activity.isFromYesterday rt)
                                 (ProjectSummary.myActivities p)) ps)).
Proof.
  eexists.
  split; [exact (getAllYesterdayActivities_run rt w report ps Hstore)|].
  intros t. apply sort_filter_date, yesterdayActivities_valid.
Qed.

Lemma getAllYesterdayActivities_stable_example :
  resolves exampleWorld (GitHubReport.projects exampleReport) exampleProjects
  /\ exists result,
       GitHubReport.getAllYesterdayActivities dstRuntime exampleReport exampleWorld
       = (Normal result, exampleWorld)
       /\ List.filter
            (fun a => bool_decide (Activity.date a = Some (JSDate.utc 2024 2 10 13 0)))
            result
          = [Activity.new "pr_reviewed" "Review: fix" "https://example.org/beta/pull/2"
               (Some (JSDate.utc 2024 2 10 13 0)) "me/beta"].
Proof.
  split; [exact exampleWorld_resolves|].
  destruct (getAllYesterdayActivities_stable dstRuntime exampleWorld exampleReport
              exampleProjects exampleWorld_resolves)
    as (result & Hrun & Hstable).
  exists result. split; [exact Hrun|].
  rewrite Hstable. vm_compute. reflexivity.
Defined.

(** ** Matching by the last segment *)

Lemma nameMatches_owner_repo_example :
  (forall c, In c (String.list_ascii_of_string "octo-repo") -> c <> "/"%char)
  /\ Index.nameMatches "octo-repo"
       (Activity.new "pr_created" "t" "u" None "octo-org/octo-repo") = true.
Proof.
  assert (Hno : forall c, In c (String.list_ascii_of_string "octo-repo")
                          -> c <> "/"%char).
  { simpl. intros c Hc. intuition (subst; discriminate). }
  split; [exact Hno|].
  exact (proj2 (nameMatches_owner_repo "octo-org" "octo-repo" "t" "u" "pr_created"
                  None Hno)).
Defined.

Lemma append_longer (s t : string) (c : ascii) : s +:+ String c t <> s.
Proof.
  induction s as [|a s IH]; simpl; [discriminate|].
  intros H. injection H as H. exact (IH H).
Qed.

(** A repository name is matched verbatim before anything else, also when
    it contains a slash; the segments before the last one never match on
    their own. *)
Theorem nameMatches_segments (owner name ty title url : string) (date : option Z) :
  (forall c, In c (String.list_ascii_of_string name) -> c <> "/"%char) ->
  owner <> name ->
  Index.nameMatches (owner +:+ String "/" name)
    (Activity.new ty title url date (owner +:+ String "/" name)) = true
  /\ Index.nameMatches owner
       (Activity.new ty title url date (owner +:+ String "/" name)) = false.
Proof.
  intros Hno Hne. pose proof (append_longer owner name "/") as Hne'.
  unfold Index.nameMatches. simpl. split.
  - now rewrite String.eqb_refl.
  - rewrite pop_split_app, (split_no_sep _ _ Hno).
    change (JS.pop [name]) with (Some name).
    rewrite bool_decide_eq_false_2 by congruence.
    destruct (String.eqb_spec owner (owner +:+ String "/" name)); [congruence|].
    reflexivity.
Qed.

Lemma nameMatches_segments_example :
  Index.nameMatches "octo-org"
    (Activity.new "pr_created" "t" "u" None "octo-org/octo-repo") = false.
Proof.
  refine (proj2 (nameMatches_segments "octo-org" "octo-repo" "pr_created" "t" "u"
                   None _ _)).
  - simpl. intros c Hc. intuition (subst; discriminate).
  - discriminate.
Defined.

(** ** The loop of [getUserRepos] *)

Lemma readRepoPages_full (fuel : nat)
    (listForUser : nat -> JS.Response (list GitHubService.Repo))
    (page : nat) (repos data : list GitHubService.Repo) :
  listForUser page = JS.Resolved data -> length data = 100%nat ->
  readRepoPages (S fuel) listForUser page repos
  = readRepoPages fuel listForUser (S page) (repos ++ data).
Proof. intros Hpage Hlen. simpl. now rewrite Hpage, Hlen. Qed.

(** The loop ends at the first page that does not hold exactly 100
    repositories and returns the repositories of all the pages read, in
    order; it needs one request for each of these pages. *)
Theorem readRepoPages_short_page
    (listForUser : nat -> JS.Response (list GitHubService.Repo))
    (pages : list (list GitHubService.Repo)) (lastPage : list GitHubService.Repo)
    (extra : nat) :
  forall (page : nat) (repos : list GitHubService.Repo),
    (forall i data, pages !! i = Some data ->
                    listForUser (page + i)%nat = JS.Resolved data
                    /\ length data = 100%nat) ->
    listForUser (page + length pages)%nat = JS.Resolved lastPage ->
    length lastPage <> 100%nat ->
    readRepoPages (S (length pages + extra)) listForUser page repos
    = Some (JS.Resolved (repos ++ concat pages ++ lastPage))
    /\ readRepoPages (length pages) listForUser page repos = None.
Proof.
  induction pages as [|data pages IH]; intros page repos Hfull Hlast Hshort.
  - simpl in *. rewrite Nat.add_0_r in Hlast. rewrite Hlast.
    apply Nat.eqb_neq in Hshort. rewrite Hshort. auto.
  - destruct (Hfull 0%nat data eq_refl) as [Hpage Hlen].
    rewrite Nat.add_0_r in Hpage.
    cbn [length Nat.add concat].
    rewrite !(readRepoPages_full _ listForUser page repos data Hpage Hlen).
    destruct (IH (S page) (repos ++ data)) as [Hsome Hnone].
    + intros i d Hi. replace (S page + i)%nat with (page + S i)%nat by lia.
      apply Hfull. exact Hi.
    + replace (S page + length pages)%nat with (page + length (data :: pages))%nat
        by (simpl; lia).
      exact Hlast.
    + exact Hshort.
    + split; [|exact Hnone].
      rewrite Hsome. now rewrite <- !app_assoc.
Qed.

Lemma readRepoPages_short_page_example :
  readRepoPages 5 examplePages 1 []
  = Some (JS.Resolved (concat [replicate 100 exampleRepoAlpha] ++ exampleRepos)).
Proof.
  refine (proj1 (readRepoPages_short_page examplePages
                   [replicate 100 exampleRepoAlpha] exampleRepos 3
                   1%nat [] _ _ _)).
  - intros [|[|i]] data Hi; simpl in Hi; try discriminate.
    injection Hi as <-. split; reflexivity.
  - reflexivity.
  - discriminate.
Defined.

(** A rejected request ends the loop with the rejection: the repositories
    of the pages read before it are not returned. *)
Theorem readRepoPages_rejected
    (listForUser : nat -> JS.Response (list GitHubService.Repo))
    (pages : list (list GitHubService.Repo)) (e : JS.Error) (extra : nat) :
  forall (page : nat) (repos : list GitHubService.Repo),
    (forall i data, pages !! i = Some data ->
                    listForUser (page + i)%nat = JS.Resolved data
                    /\ length data = 100%nat) ->
    listForUser (page + length pages)%nat = JS.Rejected e ->
    readRepoPages (S (length pages + extra)) listForUser page repos
    = Some (JS.Rejected e).
Proof.
  induction pages as [|data pages IH]; intros page repos Hfull Hlast.
  - simpl in *. rewrite Nat.add_0_r in Hlast. now rewrite Hlast.
  - destruct (Hfull 0%nat data eq_refl) as [Hpage Hlen].
    rewrite Nat.add_0_r in Hpage.
    cbn [length Nat.add].
    rewrite (readRepoPages_full _ listForUser page repos data Hpage Hlen).
    apply IH.
    + intros i d Hi. replace (S page + i)%nat with (page + S i)%nat by lia.
      apply Hfull. exact Hi.
    + replace (S page + length pages)%nat with (page + length (data :: pages))%nat
        by (simpl; lia).
      exact Hlast.
Qed.

Lemma readRepoPages_rejected_example :
  brokenPages 1 = JS.Resolved (replicate 100 exampleRepoAlpha)
  /\ brokenPages 2 = JS.Rejected {| JS.message := "Server Error" |}
  /\ readRepoPages 3 brokenPages 1 []
     = Some (JS.Rejected {| JS.message := "Server Error" |}).
Proof.
  split; [reflexivity|]. split; [reflexivity|].
  refine (readRepoPages_rejected brokenPages [replicate 100 exampleRepoAlpha]
            {| JS.message := "Server Error" |} 1 1%nat [] _ _).
  - intros [|i] data Hi; simpl in Hi; try discriminate.
    injection Hi as <-. split; reflexivity.
  - reflexivity.
Defined.

(** The loop has no bound of its own: against a listing that answers
    every page with exactly 100 repositories it never ends. *)
Theorem readRepoPages_no_end
    (listForUser : nat -> JS.Response (list GitHubService.Repo)) :
  (forall page, exists data, listForUser page = JS.Resolved data
                             /\ length data = 100%nat) ->
  forall (fuel page : nat) (repos : list GitHubService.Repo),
    readRepoPages fuel listForUser page repos = None.
Proof.
  intros Hfull. induction fuel as [|fuel IH]; intros page repos; [reflexivity|].
  destruct (Hfull page) as (data & Hpage & Hlen).
  rewrite (readRepoPages_full _ listForUser page repos data Hpage Hlen).
  apply IH.
Qed.

Lemma readRepoPages_no_end_example :
  readRepoPages 1000 (fun _ => JS.Resolved (replicate 100 exampleRepoAlpha)) 1 [] = None.
Proof.
  refine (readRepoPages_no_end _ _ 1000%nat 1%nat []).
  intros page. eexists. split; reflexivity.
Defined.

(** ** [getLastPRForRepo] and [getRepoDetails] *)

(** [getLastPRForRepo] never throws and never logs: a rejected request, an
    empty list and a pull request without a user all give [null], and
    otherwise the first pull request of the answer is returned, with the
    state ['unknown'] when the answer has none. *)
Theorem getLastPRForRepo_silent (api : GitHubService.Collaborators)
    (owner repo : string) (w : World ProjectSummary.t) :
  exists result,
    GitHubService.getLastPRForRepo api owner repo w = (Normal result, w)
    /\ (forall e, GitHubService.pulls_list api owner repo = JS.Rejected e ->
                  result = None)
    /\ (GitHubService.pulls_list api owner repo = JS.Resolved [] -> result = None)
    /\ (forall pr prs n,
          GitHubService.pulls_list api owner repo = JS.Resolved (pr :: prs) ->
          GitHubService.pull_user pr = JS.Absent n -> result = None)
    /\ (forall pr prs user,
          GitHubService.pulls_list api owner repo = JS.Resolved (pr :: prs) ->
          GitHubService.pull_user pr = JS.Present user ->
          exists p,
            result = Some p
            /\ PullRequest.title p = GitHubService.pull_title pr
            /\ PullRequest.url p = GitHubService.pull_html_url pr
            /\ PullRequest.author p = GitHubService.login user
            /\ PullRequest.date p = GitHubService.updated_at pr
            /\ PullRequest.state p
               = default "unknown"%string (GitHubService.pull_state pr)).
Proof.
  exists (lastPRFor api owner repo).
  split; [apply getLastPRForRepo_run|].
  unfold lastPRFor.
  split; [intros e ->; reflexivity|].
  split; [intros ->; reflexivity|].
  split.
  - intros pr prs n -> ->. reflexivity.
  - intros pr prs user -> ->. eexists. repeat split.
Qed.

Lemma worldAfterDetails_ref (rt : Runtime) (api : GitHubService.Collaborators)
    (repo : GitHubService.Repo) (w : World ProjectSummary.t) :
  (length (heap w) <= refAfterDetails repo w)%nat
  /\ (refAfterDetails repo w < length (heap (worldAfterDetails rt api repo w)))%nat
  /\ files (worldAfterDetails rt api repo w) = files w.
Proof.
  unfold refAfterDetails, worldAfterDetails.
  destruct (detailsFail repo); simpl; rewrite length_app; simpl; repeat split; lia.
Qed.

Lemma refsAfterRepos_fresh (rt : Runtime) (api : GitHubService.Collaborators)
    (repos : list GitHubService.Repo) :
  forall w : World ProjectSummary.t,
    Forall (fun r => (length (heap w) <= r)%nat) (refsAfterRepos rt api repos w)
    /\ NoDup (refsAfterRepos rt api repos w)
    /\ files (worldAfterRepos rt api repos w) = files w.
Proof.
  induction repos as [|repo repos IH]; intros w; simpl.
  - repeat split; constructor.
  - destruct (worldAfterDetails_ref rt api repo w) as (Hge & Hlt & Hfiles).
    destruct (IH (worldAfterDetails rt api repo w)) as (Hall & Hnodup & Hfiles').
    split; [|split].
    + constructor; [exact Hge|].
      eapply Forall_impl; [exact Hall|]. intros r Hr. simpl in Hr. lia.
    + constructor; [|exact Hnodup].
      intros Hin. rewrite Forall_forall in Hall.
      specialize (Hall _ Hin). simpl in Hall. lia.
    + congruence.
Qed.

(** The projects that the loop over the repositories makes are new and
    pairwise distinct objects, one for each repository and named after it,
    without activities; the objects that existed before, the files and the
    error list of the report are left alone. *)
Theorem processRepositories_fresh (rt : Runtime) (api : GitHubService.Collaborators)
    (repos : list GitHubService.Repo) (report : GitHubReport.t)
    (w : World ProjectSummary.t) :
  exists projects report' w',
    Index.processRepositories rt api repos report w = (Normal (projects, report'), w')
    /\ NoDup projects
    /\ Forall (fun r => heap w !! r = None) projects
    /\ (forall r o, heap w !! r = Some o -> heap w' !! r = Some o)
    /\ (forall (i : nat) (repo : GitHubService.Repo),
          repos !! i = Some repo ->
          exists r p,
            projects !! i = Some r /\ heap w' !! r = Some p
            /\ ProjectSummary.name p = GitHubService.repo_name repo
            /\ ProjectSummary.url p = GitHubService.html_url repo
            /\ ProjectSummary.language p = GitHubService.repo_language repo
            /\ ProjectSummary.description p <> ""%string
            /\ ProjectSummary.myActivities p = [])
    /\ files w' = files w
    /\ GitHubReport.errors report' = GitHubReport.errors report
    /\ GitHubReport.totalReposAnalyzed report' = GitHubReport.totalReposAnalyzed report.
Proof.
  exists (refsAfterRepos rt api repos w),
         (addProjects (refsAfterRepos rt api repos w) report),
         (worldAfterRepos rt api repos w).
  destruct (refsAfterRepos_fresh rt api repos w) as (Hall & Hnodup & Hfiles).
  split; [apply processRepositories_run|].
  split; [exact Hnodup|].
  split.
  { eapply Forall_impl; [exact Hall|]. intros r Hr. simpl in Hr.
    now apply lookup_ge_None. }
  split.
  { intros r o Hr.
    destruct (worldAfterRepos_heap rt api repos w) as (ext & ->).
    rewrite lookup_app_l; [exact Hr | now apply lookup_lt_Some in Hr]. }
  split.
  { intros i repo Hi.
    destruct (worldAfterRepos_minimal rt api repos w i repo Hi) as (r & Hr & Hheap).
    exists r, (projectOfRepo api repo).
    split; [exact Hr|]. split; [exact Hheap|].
    unfold projectOfRepo, detailedProject, minimalProject.
    destruct (detailsFail repo), (GitHubService.owner repo); simpl;
      repeat split;
      unfold ProjectSummary.descriptionOrDefault;
      destruct (GitHubService.repo_description repo) as [d|]; try discriminate;
      destruct (String.eqb_spec d ""); (discriminate || assumption). }
  split; [exact Hfiles|].
  destruct (addProjects_fields (refsAfterRepos rt api repos w) report)
    as (_ & Htotal & Herrors & _).
  split; [exact Herrors | exact Htotal].
Qed.

(** ** [getUserActivity] *)

Lemma activityOfEvent_cases (event : GitHubService.Event) (w : World ProjectSummary.t) :
  (payloadMissing event = true
   /\ exists e, GitHubService.activityOfEvent event w = (Throw e, w))
  \/ (payloadMissing event = false
      /\ exists r,
           GitHubService.activityOfEvent event w = (Normal r, w)
           /\ forall a, r = Some a ->
                        In (Activity.type a) knownTypes
                        /\ Activity.repoName a = GitHubService.event_repo_name event
                        /\ Activity.date a = GitHubService.created_at event).
Proof.
  unfold GitHubService.activityOfEvent, payloadMissing.
  destruct (String.eqb (GitHubService.event_type event) "PullRequestEvent").
  { destruct (bool_decide (GitHubService.action (GitHubService.payload event)
                           = Some "opened"%string)).
    - destruct (GitHubService.pull_request (GitHubService.payload event)) as [pr|];
        simpl.
      + right. split; [reflexivity|]. eexists. split; [reflexivity|].
        intros a Ha. injection Ha as <-. simpl. auto.
      + left. split; [reflexivity|]. eexists. reflexivity.
    - right. split; [reflexivity|]. eexists. split; [reflexivity|]. discriminate. }
  destruct (String.eqb (GitHubService.event_type event) "IssueCommentEvent").
  { destruct (GitHubService.issue (GitHubService.payload event)) as [iss|]; simpl.
    - destruct (GitHubService.comment_html_url (GitHubService.payload event))
        as [commentUrl|]; simpl.
      + right. split; [reflexivity|]. eexists. split; [reflexivity|].
        intros a Ha. injection Ha as <-. simpl.
        destruct (GitHubService.issue_pull_request iss); auto 6.
      + left. split; [reflexivity|]. eexists. reflexivity.
    - left. split; [reflexivity|]. eexists. reflexivity. }
  destruct (String.eqb (GitHubService.event_type event) "PullRequestReviewEvent").
  { destruct (GitHubService.pull_request (GitHubService.payload event)) as [pr|];
      simpl.
    - destruct (GitHubService.review_html_url (GitHubService.payload event))
        as [reviewUrl|]; simpl.
      + right. split; [reflexivity|]. eexists. split; [reflexivity|].
        intros a Ha. injection Ha as <-. simpl. auto 6.
      + left. split; [reflexivity|]. eexists. reflexivity.
    - left. split; [reflexivity|]. eexists. reflexivity. }
  right. split; [reflexivity|]. eexists. split; [reflexivity|]. discriminate.
Qed.

Lemma userActivityStep_run (rt : Runtime) (acc : list Activity.t)
    (event : GitHubService.Event) (w : World ProjectSummary.t) :
  (recentEvent rt event && payloadMissing event = true
   /\ exists err, userActivityStep rt acc event w = (Throw err, w))
  \/ (recentEvent rt event && payloadMissing event = false
      /\ exists new,
           userActivityStep rt acc event w = (Normal (acc ++ new), w)
           /\ (length new <= 1)%nat
           /\ Forall (fun a =>
                        In (Activity.type a) knownTypes
                        /\ JSDate.lt (Activity.date a) (Some (weekAgo rt)) = false
                        /\ Activity.repoName a = GitHubService.event_repo_name event
                        /\ Activity.date a = GitHubService.created_at event)
                new).
Proof.
  unfold userActivityStep, recentEvent. cbv zeta.
  destruct (JSDate.lt (GitHubService.created_at event)
              (Some (JSDate.setDate (tz rt) (JSDate.getDate (tz rt) (now rt) - 7)
                       (now rt)))) eqn:Hold;
    cbn [negb andb].
  - right. split; [reflexivity|]. exists []. rewrite app_nil_r.
    repeat split; auto.
  - unfold Eff.bind.
    destruct (activityOfEvent_cases event w)
      as [(Hmiss & e & Hthrow) | (Hmiss & r & Hnormal & Hr)]; rewrite Hmiss.
    + left. split; [reflexivity|]. exists e. now rewrite Hthrow.
    + right. split; [reflexivity|]. rewrite Hnormal.
      destruct r as [a|].
      * exists [a]. split; [reflexivity|]. split; [simpl; lia|].
        constructor; [|constructor].
        destruct (Hr a eq_refl) as (Hty & Hrepo & Hdate).
        rewrite Hdate. auto.
      * exists []. rewrite app_nil_r. repeat split; auto.
Qed.

Lemma userActivityLoop (rt : Runtime) (events : list GitHubService.Event) :
  forall (acc : list Activity.t) (w : World ProjectSummary.t),
    (existsb (fun e => recentEvent rt e && payloadMissing e) events = true /\
     exists err, Eff.foldM (userActivityStep rt) acc events w = (Throw err, w))
    \/ (existsb (fun e => recentEvent rt e && payloadMissing e) events = false /\
        exists new,
          Eff.foldM (userActivityStep rt) acc events w = (Normal (acc ++ new), w)
          /\ (length new <= length events)%nat
          /\ Forall (fun a =>
                       In (Activity.type a) knownTypes
                       /\ JSDate.lt (Activity.date a) (Some (weekAgo rt)) = false
                       /\ exists e, In e events
                                    /\ Activity.repoName a
                                       = GitHubService.event_repo_name e
                                    /\ Activity.date a = GitHubService.created_at e)
               new).
Proof.
  induction events as [|event events IH]; intros acc w.
  - right. split; [reflexivity|]. exists []. simpl. rewrite app_nil_r.
    repeat split; auto.
  - cbn [Eff.foldM existsb]. unfold Eff.bind.
    destruct (userActivityStep_run rt acc event w)
      as [(Hbad & err & Hstep) | (Hok & new1 & Hstep & Hlen1 & Hall1)];
      rewrite Hstep, ?Hbad, ?Hok; cbn [orb].
    + left. split; [reflexivity|]. exists err. reflexivity.
    + destruct (IH (acc ++ new1) w)
        as [(Hbad & err & Hrun) | (Hok' & new & Hrun & Hlen & Hall)].
      * left. split; [exact Hbad|]. exists err. exact Hrun.
      * right. split; [exact Hok'|]. exists (new1 ++ new).
        rewrite Hrun, <- app_assoc. split; [reflexivity|].
        split; [rewrite length_app; simpl; lia|].
        apply Forall_app. split.
        -- eapply Forall_impl; [exact Hall1|].
           intros a (Hty & Hweek & Hrepo & Hdate).
           repeat split; auto. exists event. split; [now left | auto].
        -- eapply Forall_impl; [exact Hall|].
           intros a (Hty & Hweek & e & He & Hrepo & Hdate).
           repeat split; auto. exists e. split; [now right | auto].
Qed.

Lemma getUserActivity_unfold (rt : Runtime) (api : GitHubService.Collaborators)
    (username : string) :
  GitHubService.getUserActivity rt api username
  = Eff.tryCatch
      (exec Logger.info rt "Fetching recent user activity..." ;
       do events <- Eff.await (GitHubService.activity_listEventsForUser api username) ;
       do activities <- Eff.foldM (userActivityStep rt) [] events ;
       exec Logger.success rt
              ("Found " +:+ pretty (length activities) +:+ " recent activities") ;
       Eff.ret activities)
      (fun error =>
         exec Logger.error rt "Failed to fetch user activity" (Some (JS.message error)) ;
         Eff.ret []).
Proof. reflexivity. Qed.

Lemma getUserActivity_run (rt : Runtime) (api : GitHubService.Collaborators)
    (username : string) (w : World ProjectSummary.t) :
  exists (activities : list Activity.t) (w' : World ProjectSummary.t),
    GitHubService.getUserActivity rt api username w = (Normal activities, w')
    /\ heap w' = heap w /\ files w' = files w
    /\ ((exists events,
           GitHubService.activity_listEventsForUser api username = JS.Resolved events
           /\ existsb (fun e => recentEvent rt e && payloadMissing e) events = false
           /\ (length activities <= length events)%nat
           /\ Forall (fun a =>
                        In (Activity.type a) knownTypes
                        /\ JSDate.lt (Activity.date a) (Some (weekAgo rt)) = false
                        /\ exists e, In e events
                                     /\ Activity.repoName a
                                        = GitHubService.event_repo_name e
                                     /\ Activity.date a = GitHubService.created_at e)
                activities
           /\ loggerErrors w' = loggerErrors w
           /\ console w'
              = console w
                ++ [chalk rt "blue" "ℹ" +:+ " " +:+ "Fetching recent user activity...";
                    chalk rt "green" "✓" +:+ " " +:+ "Found "
                    +:+ pretty (length activities) +:+ " recent activities"])
        \/ (activities = []
            /\ (exists e,
                  GitHubService.activity_listEventsForUser api username = JS.Rejected e
                  \/ exists events,
                       GitHubService.activity_listEventsForUser api username
                       = JS.Resolved events
                       /\ existsb (fun e => recentEvent rt e && payloadMissing e) events
                          = true)
            /\ exists context,
                 loggerErrors w'
                 = loggerErrors w
                   ++ [{| entry_message := "Failed to fetch user activity";
                          entry_context := Some context;
                          entry_timestamp := toISOString rt (now rt) |}]
                 /\ (forall e,
                       GitHubService.activity_listEventsForUser api username
                       = JS.Rejected e -> context = JS.message e)
                 /\ console w'
                    = console w
                      ++ [chalk rt "blue" "ℹ" +:+ " "
                          +:+ "Fetching recent user activity...";
                          chalk rt "red" "✗" +:+ " "
                          +:+ "Failed to fetch user activity"])).
Proof.
  rewrite getUserActivity_unfold. unfold Eff.tryCatch.
  unfold Logger.info. rewrite bind_consoleLog.
  unfold Eff.bind at 1.
  destruct (GitHubService.activity_listEventsForUser api username) as [events|e] eqn:Hev.
  - cbn [Eff.await]. unfold Eff.ret at 1. unfold Eff.bind at 1.
    destruct (userActivityLoop rt events [] (logLines
                [chalk rt "blue" "ℹ" +:+ " " +:+ "Fetching recent user activity..."] w))
      as [(Hbad & err & Hrun) | (Hok & new & Hrun & Hlen & Hall)]; rewrite Hrun.
    + eexists. eexists. split; [reflexivity|].
      split; [reflexivity|]. split; [reflexivity|].
      right. split; [reflexivity|].
      split; [exists err; right; exists events; auto|].
      exists (JS.message err). cbn [loggerErrors console logLines].
      split; [reflexivity|]. split; [discriminate|].
      now rewrite <- app_assoc.
    + cbn [app]. unfold Logger.success. rewrite bind_consoleLog.
      eexists. eexists. split; [reflexivity|].
      split; [reflexivity|]. split; [reflexivity|].
      left. exists events. cbn [loggerErrors console logLines].
      repeat split; auto. now rewrite <- app_assoc.
  - cbn [Eff.await]. unfold Eff.throw at 1.
    eexists. eexists. split; [reflexivity|].
    split; [reflexivity|]. split; [reflexivity|].
    right. split; [reflexivity|].
    split; [exists e; left; reflexivity|].
    exists (JS.message e). cbn [loggerErrors console logLines].
    split; [reflexivity|]. split; [intros e' He'; congruence|].
    now rewrite <- app_assoc.
Qed.

Lemma getTypeDisplay_known (a : Activity.t) :
  In (Activity.type a) knownTypes ->
  exists label, Activity.getTypeDisplay a = JS.VString label /\ In label knownLabels.
Proof.
  unfold Activity.getTypeDisplay. simpl.
  intros [H | [H | [H | [H | []]]]]; rewrite <- H; simpl; eauto 10.
Qed.

(** [getUserActivity] never throws and leaves the store and the files
    alone.  Every activity it returns comes from one of the events of the
    answer (its repository name and date are that event's), is not older
    than a week, and has one of the four types of [typeMap], so that
    [getTypeDisplay] gives it one of the four fixed labels. *)
Theorem getUserActivity_activities (rt : Runtime) (api : GitHubService.Collaborators)
    (username : string) (w : World ProjectSummary.t) :
  exists (activities : list Activity.t) (w' : World ProjectSummary.t),
    GitHubService.getUserActivity rt api username w = (Normal activities, w')
    /\ heap w' = heap w /\ files w' = files w
    /\ Forall (fun a =>
                 In (Activity.type a)
                   ["pr_created"; "pr_commented"; "pr_reviewed"; "issue_commented"]%string
                 /\ (exists label,
                       Activity.getTypeDisplay a = JS.VString label
                       /\ In label ["Created PR"; "Commented on PR"; "Reviewed PR";
                                    "Commented on Issue"]%string)
                 /\ JSDate.lt (Activity.date a)
                      (Some (JSDate.setDate (tz rt)
                               (JSDate.getDate (tz rt) (now rt) - 7) (now rt)))
                    = false)
         activities
    /\ forall events,
         GitHubService.activity_listEventsForUser api username = JS.Resolved events ->
         (length activities <= length events)%nat
         /\ Forall (fun a =>
                      exists e, In e events
                                /\ Activity.repoName a = GitHubService.event_repo_name e
                                /\ Activity.date a = GitHubService.created_at e)
              activities.
Proof.
  destruct (getUserActivity_run rt api username w)
    as (activities & w' & Hrun & Hheap & Hfiles & Hcases).
  exists activities, w'. split; [exact Hrun|].
  split; [exact Hheap|]. split; [exact Hfiles|].
  destruct Hcases as [(events & Hev & _ & Hlen & Hall & _) | (-> & _)].
  - split.
    + eapply Forall_impl; [exact Hall|].
      intros a (Hty & Hweek & _). split; [exact Hty|].
      split; [now apply getTypeDisplay_known | exact Hweek].
    + intros events' Hev'. rewrite Hev in Hev'. injection Hev' as <-.
      split; [exact Hlen|].
      eapply Forall_impl; [exact Hall|]. intros a (_ & _ & He). exact He.
  - split; [constructor|]. intros events _. split; [simpl; lia | constructor].
Qed.

(** When the request for the events is rejected, or an event of the last
    week lacks a field of its payload that is read, [getUserActivity]
    returns no activity at all, also none of those of the events before the
    failing one, and the logger gains the one error ['Failed to fetch user
    activity']; otherwise the logger gains no error. *)
Theorem getUserActivity_failure (rt : Runtime) (api : GitHubService.Collaborators)
    (username : string) (w : World ProjectSummary.t) :
  exists (activities : list Activity.t) (w' : World ProjectSummary.t),
    GitHubService.getUserActivity rt api username w = (Normal activities, w')
    /\ (forall e,
          GitHubService.activity_listEventsForUser api username = JS.Rejected e ->
          activities = []
          /\ loggerErrors w'
             = loggerErrors w
               ++ [{| entry_message := "Failed to fetch user activity";
                      entry_context := Some (JS.message e);
                      entry_timestamp := toISOString rt (now rt) |}])
    /\ (forall events,
          GitHubService.activity_listEventsForUser api username = JS.Resolved events ->
          existsb (fun e => recentEvent rt e && payloadMissing e) events = true ->
          activities = []
          /\ exists context,
               loggerErrors w'
               = loggerErrors w
                 ++ [{| entry_message := "Failed to fetch user activity";
                        entry_context := Some context;
                        entry_timestamp := toISOString rt (now rt) |}])
    /\ (forall events,
          GitHubService.activity_listEventsForUser api username = JS.Resolved events ->
          existsb (fun e => recentEvent rt e && payloadMissing e) events = false ->
          loggerErrors w' = loggerErrors w).
Proof.
  destruct (getUserActivity_run rt api username w)
    as (activities & w' & Hrun & _ & _ & Hcases).
  exists activities, w'. split; [exact Hrun|].
  destruct Hcases
    as [(events & Hev & Hok & _ & _ & Hlog & _)
       | (-> & (e0 & Hfail) & context & Hlog & Hctx & _)].
  - split; [intros e He; congruence|].
    split; [intros events' Hev' Hbad; congruence|].
    intros events' Hev' _. exact Hlog.
  - split.
    + intros e He. split; [reflexivity|]. now rewrite <- (Hctx e He).
    + split.
      * intros events Hev Hbad. split; [reflexivity|]. exists context. exact Hlog.
      * intros events Hev Hok.
        destruct Hfail as [Hrej | (events' & Hev' & Hbad)]; congruence.
Qed.

(** The cases of a missing field, spelt out: an opened pull request
    without [pull_request], a comment without [issue] or [comment], a review
    without [pull_request] or [review]. *)
Lemma payloadMissing_iff (event : GitHubService.Event) :
  payloadMissing event = true <->
  (GitHubService.event_type event = "PullRequestEvent"%string
   /\ GitHubService.action (GitHubService.payload event) = Some "opened"%string
   /\ JS.toOption (GitHubService.pull_request (GitHubService.payload event)) = None)
  \/ (GitHubService.event_type event = "IssueCommentEvent"%string
      /\ (JS.toOption (GitHubService.issue (GitHubService.payload event)) = None
          \/ JS.toOption (GitHubService.comment_html_url (GitHubService.payload event)) = None))
  \/ (GitHubService.event_type event = "PullRequestReviewEvent"%string
      /\ (JS.toOption (GitHubService.pull_request (GitHubService.payload event)) = None
          \/ JS.toOption (GitHubService.review_html_url (GitHubService.payload event)) = None)).
Proof.
  unfold payloadMissing.
  destruct (String.eqb_spec (GitHubService.event_type event) "PullRequestEvent")
    as [E1|N1].
  { rewrite E1, andb_true_iff, bool_decide_eq_true.
    destruct (GitHubService.pull_request (GitHubService.payload event)); simpl;
      intuition (discriminate || congruence). }
  destruct (String.eqb_spec (GitHubService.event_type event) "IssueCommentEvent")
    as [E2|N2].
  { rewrite E2, orb_true_iff.
    destruct (GitHubService.issue (GitHubService.payload event)),
      (GitHubService.comment_html_url (GitHubService.payload event)); simpl;
      intuition (discriminate || congruence). }
  destruct (String.eqb_spec (GitHubService.event_type event) "PullRequestReviewEvent")
    as [E3|N3].
  { rewrite E3, orb_true_iff.
    destruct (GitHubService.pull_request (GitHubService.payload event)),
      (GitHubService.review_html_url (GitHubService.payload event)); simpl;
      intuition (discriminate || congruence). }
  intuition (discriminate || congruence).
Qed.

(** ** Computations that only read, computations that only log *)

Section Shapes.
Context (h : list ProjectSummary.t).

Lemma reads_ret {A} (a : A) (P : A -> Prop) : P a -> reads h (Eff.ret a) P.
Proof. intros HP. exists a. auto. Qed.

Lemma reads_bind {A B} (m : Run A) (k : A -> Run B) (P : A -> Prop) (Q : B -> Prop) :
  reads h m P -> (forall a, P a -> reads h (k a) Q) -> reads h (Eff.bind m k) Q.
Proof.
  intros (a & Ha & Hrun) Hk. destruct (Hk a Ha) as (b & Hb & Hrun').
  exists b. split; [exact Hb|]. intros w Hw.
  unfold Eff.bind. rewrite (Hrun w Hw). now apply Hrun'.
Qed.

Lemma reads_weaken {A} (m : Run A) (P Q : A -> Prop) :
  reads h m P -> (forall a, P a -> Q a) -> reads h m Q.
Proof. intros (a & Ha & Hrun) HPQ. exists a. auto. Qed.

Lemma reads_deref (r : Ref) (p : ProjectSummary.t) :
  h !! r = Some p -> reads h (Eff.deref r) (eq p).
Proof.
  intros Hr. exists p. split; [reflexivity|]. intros w Hw.
  unfold Eff.deref. now rewrite Hw, Hr.
Qed.

Lemma reads_filterM {A} (f : A -> Run JS.value) (l : list A) :
  (forall x, In x l -> reads h (f x) (fun _ => True)) ->
  reads h (Eff.filterM f l) (fun kept => forall x, In x kept -> In x l).
Proof.
  induction l as [|x l IH]; intros Hf; simpl.
  - apply reads_ret. auto.
  - eapply reads_bind; [apply Hf; now left|]. intros v _.
    eapply reads_bind; [apply IH; intros y Hy; apply Hf; now right|].
    intros kept Hkept. apply reads_ret.
    destruct (JS.ToBoolean v); simpl; intros y; intuition.
Qed.

Lemma reads_foldM {A B} (f : B -> A -> Run B) (l : list A) (b : B) :
  (forall b x, In x l -> reads h (f b x) (fun _ => True)) ->
  reads h (Eff.foldM f b l) (fun _ => True).
Proof.
  revert b. induction l as [|x l IH]; intros b Hf; simpl.
  - now apply reads_ret.
  - eapply reads_bind; [apply Hf; now left|]. intros b' _.
    apply IH. intros b0 y Hy. apply Hf. now right.
Qed.

Lemma logs_of_reads {A} (m : Run A) (P : A -> Prop) : reads h m P -> logs h m P.
Proof.
  intros (a & Ha & Hrun).
  exists a, []. split; [exact Ha|]. intros w Hw. rewrite logLines_nil. auto.
Qed.

Lemma logs_ret {A} (a : A) (P : A -> Prop) : P a -> logs h (Eff.ret a) P.
Proof. intros HP. now apply logs_of_reads, reads_ret. Qed.

Lemma logs_bind {A B} (m : Run A) (k : A -> Run B) (P : A -> Prop) (Q : B -> Prop) :
  logs h m P -> (forall a, P a -> logs h (k a) Q) -> logs h (Eff.bind m k) Q.
Proof.
  intros (a & l1 & Ha & Hrun) Hk.
  destruct (Hk a Ha) as (b & l2 & Hb & Hrun').
  exists b, (l1 ++ l2). split; [exact Hb|]. intros w Hw.
  unfold Eff.bind. rewrite (Hrun w Hw), (Hrun' (logLines l1 w) Hw), logLines_app.
  reflexivity.
Qed.

Lemma logs_consoleLog (line : string) : logs h (Eff.consoleLog line) (fun _ => True).
Proof. exists tt, [line]. auto. Qed.

Lemma logs_weaken {A} (m : Run A) (P Q : A -> Prop) :
  logs h m P -> (forall a, P a -> Q a) -> logs h m Q.
Proof.
  intros (a & lines & Ha & Hrun) HPQ.
  exists a, lines. auto.
Qed.

Lemma logs_exec {A B} (m : Run A) (k : Run B) (Q : B -> Prop) :
  logs h m (fun _ => True) -> logs h k Q -> logs h (Eff.bind m (fun _ => k)) Q.
Proof. intros Hm Hk. eapply logs_bind; [exact Hm|]. intros _ _. exact Hk. Qed.

Lemma logs_forEach {A} (f : A -> Run unit) (l : list A) :
  (forall x, In x l -> logs h (f x) (fun _ => True)) ->
  logs h (Eff.forEach f l) (fun _ => True).
Proof.
  induction l as [|x l IH]; intros Hf; simpl.
  - now apply logs_ret.
  - apply logs_exec; [apply Hf; now left|].
    apply IH. intros y Hy. apply Hf. now right.
Qed.

Lemma logs_if {A} (b : bool) (m1 m2 : Run A) (P : A -> Prop) :
  logs h m1 P -> logs h m2 P -> logs h (if b then m1 else m2) P.
Proof. destruct b; auto. Qed.

Lemma reads_if {A} (b : bool) (m1 m2 : Run A) (P : A -> Prop) :
  reads h m1 P -> reads h m2 P -> reads h (if b then m1 else m2) P.
Proof. destruct b; auto. Qed.

End Shapes.

Lemma allocated_resolves (w : World ProjectSummary.t) (refs : list Ref) :
  allocated (heap w) refs -> exists ps, resolves w refs ps.
Proof.
  induction refs as [|r refs IH]; intros Halloc.
  - exists []. constructor.
  - destruct (Halloc r (or_introl eq_refl)) as (p & Hp).
    destruct IH as (ps & Hps); [intros r' Hr'; apply Halloc; now right|].
    exists (p :: ps). now constructor.
Qed.

Lemma resolves_allocated (w : World ProjectSummary.t) (refs : list Ref)
    (ps : list ProjectSummary.t) :
  resolves w refs ps -> allocated (heap w) refs.
Proof.
  intros Hres r Hr. destruct (resolves_lookup _ _ _ _ Hres Hr) as (p & Hp & _). eauto.
Qed.

Lemma reads_hasYesterdayActivity (h : list ProjectSummary.t) (rt : Runtime) (r : Ref) :
  is_Some (h !! r) ->
  reads h (ProjectSummary.hasYesterdayActivity rt r) (fun _ => True).
Proof.
  intros (p & Hp). exists (hasYesterdayActivityOf rt p). split; [exact I|].
  intros w Hw. apply (hasYesterdayActivity_run rt w r p). rewrite Hw. exact Hp.
Qed.

Lemma reads_getYesterdayActivities (h : list ProjectSummary.t) (rt : Runtime) (r : Ref) :
  is_Some (h !! r) ->
  reads h (ProjectSummary.getYesterdayActivities rt r) (fun _ => True).
Proof.
  intros (p & Hp). exists (yesterdayActivitiesOf rt p). split; [exact I|].
  intros w Hw. apply (getYesterdayActivities_run rt w r p). rewrite Hw. exact Hp.
Qed.

Lemma reads_getActiveProjects (h : list ProjectSummary.t) (rt : Runtime)
    (report : GitHubReport.t) :
  allocated h (GitHubReport.projects report) ->
  reads h (GitHubReport.getActiveProjects rt report)
    (fun active => allocated h active).
Proof.
  intros Halloc. unfold GitHubReport.getActiveProjects.
  eapply reads_weaken.
  - apply reads_filterM. intros r Hr. apply reads_hasYesterdayActivity. now apply Halloc.
  - intros active Hsub r Hr. apply Halloc, Hsub, Hr.
Qed.

Lemma reads_getAllYesterdayActivities (h : list ProjectSummary.t) (rt : Runtime)
    (report : GitHubReport.t) :
  allocated h (GitHubReport.projects report) ->
  reads h (GitHubReport.getAllYesterdayActivities rt report) (fun _ => True).
Proof.
  intros Halloc. unfold GitHubReport.getAllYesterdayActivities.
  apply (reads_bind h _ _ (fun _ => True)).
  - apply reads_foldM. intros acc r Hr.
    eapply reads_bind; [apply reads_getYesterdayActivities, Halloc, Hr|].
    intros ys _. apply reads_ret. exact I.
  - intros activities _. apply reads_ret. exact I.
Qed.

Lemma reads_getExecutiveSummary (h : list ProjectSummary.t) (rt : Runtime)
    (report : GitHubReport.t) :
  allocated h (GitHubReport.projects report) ->
  reads h (GitHubReport.getExecutiveSummary rt report)
    (fun s => GitHubReport.hasErrors s = (0 <? length (GitHubReport.errors report))%nat
              /\ GitHubReport.errorCount s = length (GitHubReport.errors report)
              /\ GitHubReport.totalRepos s = GitHubReport.totalReposAnalyzed report).
Proof.
  intros Halloc. unfold GitHubReport.getExecutiveSummary.
  eapply reads_bind; [apply reads_getActiveProjects, Halloc|]. intros active _.
  eapply reads_bind; [apply reads_getAllYesterdayActivities, Halloc|].
  intros activities _. apply reads_ret. auto.
Qed.

(** ** The two renderers *)

Ltac logs_lines :=
  repeat first
    [ apply logs_consoleLog
    | apply logs_exec; [apply logs_consoleLog|]
    | apply logs_ret; exact I ].

Lemma logs_displayConsoleReport (h : list ProjectSummary.t) (rt : Runtime)
    (report : GitHubReport.t) :
  allocated h (GitHubReport.projects report) ->
  logs h (Index.displayConsoleReport rt report) (fun _ => True).
Proof.
  intros Halloc. unfold Index.displayConsoleReport.
  eapply logs_bind; [apply logs_of_reads, reads_getExecutiveSummary, Halloc|].
  intros summary _.
  eapply logs_bind; [apply logs_of_reads, reads_getActiveProjects, Halloc|].
  intros activeProjects Hactive.
  eapply logs_bind; [apply logs_of_reads, reads_getAllYesterdayActivities, Halloc|].
  intros yesterdayActivities _.
  do 5 (apply logs_exec; [apply logs_consoleLog|]).
  apply logs_exec; [apply logs_if; logs_lines|].
  apply logs_exec; [apply logs_if; logs_lines|].
  apply logs_exec.
  { apply logs_if; [|logs_lines].
    apply logs_exec; [apply logs_consoleLog|].
    apply logs_forEach. intros activity _. logs_lines. }
  apply logs_if; [|logs_lines].
  apply logs_exec; [apply logs_consoleLog|].
  apply logs_forEach. intros project Hproject.
  destruct (Hactive project Hproject) as (p & Hp).
  eapply logs_bind; [apply logs_of_reads, (reads_deref h project p Hp)|].
  intros p' _.
  do 2 (apply logs_exec; [apply logs_consoleLog|]).
  apply logs_exec; [apply logs_if; logs_lines|].
  eapply logs_bind;
    [apply logs_of_reads, reads_getYesterdayActivities; eauto|].
  intros activities _. logs_lines.
Qed.

Lemma reads_markdownActiveProjects (h : list ProjectSummary.t) (rt : Runtime)
    (activeProjects : list Ref) :
  allocated h activeProjects ->
  reads h (Index.markdownActiveProjects rt activeProjects) (fun _ => True).
Proof.
  intros Halloc. unfold Index.markdownActiveProjects.
  apply reads_if; [|apply reads_ret; exact I].
  apply reads_foldM. intros markdown project Hproject.
  destruct (Halloc project Hproject) as (p & Hp).
  apply (reads_bind h _ _ (fun _ => True));
    [|intros piece _; apply reads_ret; exact I].
  unfold Index.markdownActiveProject.
  eapply reads_bind; [apply (reads_deref h project p Hp)|]. intros p' _.
  eapply reads_bind; [apply reads_getYesterdayActivities; eauto|].
  intros activities _. apply reads_ret; exact I.
Qed.

Lemma reads_markdownAllRepositories (h : list ProjectSummary.t) (rt : Runtime)
    (report : GitHubReport.t) (activeProjects : list Ref) :
  allocated h (GitHubReport.projects report) ->
  reads h (Index.markdownAllRepositories rt report activeProjects) (fun _ => True).
Proof.
  intros Halloc. unfold Index.markdownAllRepositories.
  apply reads_if; [|apply reads_ret; exact I].
  eapply reads_bind.
  { apply reads_filterM. intros r Hr.
    eapply reads_bind; [apply reads_hasYesterdayActivity, Halloc, Hr|].
    intros v _. apply reads_ret; exact I. }
  intros inactive _.
  apply reads_foldM. intros markdown project Hproject.
  destruct (Halloc project Hproject) as (p & Hp).
  apply (reads_bind h _ _ (fun _ => True));
    [|intros piece _; apply reads_ret; exact I].
  unfold Index.markdownRepository.
  eapply reads_bind; [apply reads_hasYesterdayActivity; eauto|]. intros v _.
  eapply reads_bind; [apply (reads_deref h project p Hp)|]. intros p' _.
  apply reads_ret; exact I.
Qed.

Lemma reads_generateMarkdownReport (h : list ProjectSummary.t) (rt : Runtime)
    (report : GitHubReport.t) :
  allocated h (GitHubReport.projects report) ->
  reads h (Index.generateMarkdownReport rt report)
    (fun markdown =>
       exists summary activities activeSection allSection,
         (forall w, heap w = h ->
                    GitHubReport.getExecutiveSummary rt report w = (Normal summary, w))
         /\ markdown
            = Index.markdownHeader rt report summary
              +:+ Index.markdownActivities rt activities
              +:+ activeSection +:+ allSection
              +:+ Index.markdownErrors summary +:+ Index.markdownFooter).
Proof.
  intros Halloc.
  destruct (reads_getExecutiveSummary h rt report Halloc) as (summary & _ & Hs).
  destruct (reads_getActiveProjects h rt report Halloc) as (active & Hactive & Ha).
  destruct (reads_getAllYesterdayActivities h rt report Halloc) as (ys & _ & Hy).
  destruct (reads_markdownActiveProjects h rt active Hactive) as (s1 & _ & H1).
  destruct (reads_markdownAllRepositories h rt report active Halloc) as (s2 & _ & H2).
  eexists. split.
  - exists summary, ys, s1, s2. split; [exact Hs | reflexivity].
  - intros w Hw. unfold Index.generateMarkdownReport, Eff.bind.
    now rewrite (Hs w Hw), (Ha w Hw), (Hy w Hw), (H1 w Hw), (H2 w Hw).
Qed.

(** ** A run of [generateReport] *)

Lemma bind_normal {A B} (m : Run A) (k : A -> Run B) (w w' : World ProjectSummary.t)
    (a : A) :
  m w = (Normal a, w') -> Eff.bind m k w = k a w'.
Proof. intros H. unfold Eff.bind. now rewrite H. Qed.

Lemma bind_throw {A B} (m : Run A) (k : A -> Run B) (w w' : World ProjectSummary.t)
    (e : JS.Error) :
  m w = (Throw e, w') -> Eff.bind m k w = (Throw e, w').
Proof. intros H. unfold Eff.bind. now rewrite H. Qed.

Lemma error_run (rt : Runtime) (message : string) (context : option string)
    (w : World ProjectSummary.t) :
  Logger.error rt message context w = (Normal tt, worldAfterError rt message context w).
Proof. reflexivity. Qed.

Lemma validateConnection_resolved (rt : Runtime) (api : GitHubService.Collaborators)
    (user : GitHubService.User) (w : World ProjectSummary.t) :
  GitHubService.users_getAuthenticated api = JS.Resolved user ->
  GitHubService.validateConnection rt api w
  = (Normal user,
     logLines [chalk rt "green" "✓" +:+ " " +:+ "Connected to GitHub as: "
               +:+ GitHubService.login user] w).
Proof.
  intros H. unfold GitHubService.validateConnection, Eff.tryCatch, Eff.bind.
  now rewrite H.
Qed.

Lemma validateConnection_rejected (rt : Runtime) (api : GitHubService.Collaborators)
    (e : JS.Error) (w : World ProjectSummary.t) :
  GitHubService.users_getAuthenticated api = JS.Rejected e ->
  GitHubService.validateConnection rt api w
  = (Throw {| JS.message := "GitHub authentication failed" |},
     worldAfterError rt "Failed to connect to GitHub" (Some (JS.message e)) w).
Proof.
  intros H. unfold GitHubService.validateConnection, Eff.tryCatch, Eff.bind.
  now rewrite H.
Qed.

Lemma checkRateLimit_run (rt : Runtime) (api : GitHubService.Collaborators)
    (w : World ProjectSummary.t) :
  exists result lines,
    GitHubService.checkRateLimit rt api w = (Normal result, logLines lines w)
    /\ (forall rate, GitHubService.rateLimit_get api = JS.Resolved rate ->
                     result = Some rate
                     /\ (length lines = 2%nat <-> GitHubService.remaining rate < 10)
                     /\ (length lines = 1%nat <-> 10 <= GitHubService.remaining rate))
    /\ (forall e, GitHubService.rateLimit_get api = JS.Rejected e ->
                  result = None
                  /\ lines = [chalk rt "yellow" "⚠" +:+ " "
                              +:+ "Could not check rate limit"]).
Proof.
  unfold GitHubService.checkRateLimit, Eff.tryCatch.
  destruct (GitHubService.rateLimit_get api) as [rate|e].
  - cbn [Eff.await]. unfold Eff.bind at 1. unfold Eff.ret at 1.
    unfold Logger.info. rewrite bind_consoleLog.
    destruct (Z.ltb_spec (GitHubService.remaining rate) 10) as [Hlow|Hok].
    + unfold Logger.warning. rewrite bind_consoleLog, logLines_app.
      eexists. eexists. split; [reflexivity|].
      split; [|discriminate].
      intros rate' Hrate. injection Hrate as <-.
      split; [reflexivity|]. simpl. split; split; intros; lia || reflexivity.
    + unfold Eff.bind, Eff.ret.
      eexists. eexists. split; [reflexivity|].
      split; [|discriminate].
      intros rate' Hrate. injection Hrate as <-.
      split; [reflexivity|]. simpl. split; split; intros; lia || reflexivity.
  - cbn [Eff.await]. unfold Eff.bind at 1. unfold Eff.throw at 1.
    unfold Logger.warning. rewrite bind_consoleLog.
    eexists. eexists. split; [reflexivity|].
    split; [discriminate|]. intros e' _. auto.
Qed.

Lemma getUserRepos_resolved (rt : Runtime) (api : GitHubService.Collaborators)
    (username : string) (repos : list GitHubService.Repo) (w : World ProjectSummary.t) :
  GitHubService.repos_listForUser api username = JS.Resolved repos ->
  GitHubService.getUserRepos rt api username w
  = (Normal repos,
     logLines [chalk rt "blue" "ℹ" +:+ " " +:+ "Fetching repositories for user: "
               +:+ username;
               chalk rt "green" "✓" +:+ " " +:+ "Found " +:+ pretty (length repos)
               +:+ " repositories"] w).
Proof.
  intros H. unfold GitHubService.getUserRepos, Eff.tryCatch.
  unfold Logger.info. rewrite bind_consoleLog.
  unfold Eff.bind at 1. rewrite H. cbn [Eff.await]. unfold Eff.ret at 1.
  unfold Logger.success. rewrite bind_consoleLog, logLines_app. reflexivity.
Qed.

Lemma getUserRepos_rejected (rt : Runtime) (api : GitHubService.Collaborators)
    (username : string) (e : JS.Error) (w : World ProjectSummary.t) :
  GitHubService.repos_listForUser api username = JS.Rejected e ->
  GitHubService.getUserRepos rt api username w
  = (Throw e,
     worldAfterError rt "Failed to fetch repositories" (Some (JS.message e))
       (logLines [chalk rt "blue" "ℹ" +:+ " " +:+ "Fetching repositories for user: "
                  +:+ username] w)).
Proof.
  intros H. unfold GitHubService.getUserRepos, Eff.tryCatch.
  unfold Logger.info. rewrite bind_consoleLog.
  unfold Eff.bind at 1. rewrite H. reflexivity.
Qed.

Lemma worldAfterRepos_console (rt : Runtime) (api : GitHubService.Collaborators)
    (repos : list GitHubService.Repo) (w : World ProjectSummary.t) :
  exists lines, console (worldAfterRepos rt api repos w) = console w ++ lines.
Proof.
  revert w. induction repos as [|repo repos IH]; intros w; simpl.
  - exists []. now rewrite app_nil_r.
  - destruct (IH (worldAfterDetails rt api repo w)) as (lines & ->).
    unfold worldAfterDetails. destruct (detailsFail repo); simpl.
    + eexists. now rewrite <- app_assoc.
    + eauto.
Qed.

Lemma worldAfterRepos_lines (rt : Runtime) (api : GitHubService.Collaborators)
    (repos : list GitHubService.Repo) (w : World ProjectSummary.t) :
  console (worldAfterRepos rt api repos w)
  = console w ++ map (repoFailureLine rt) (List.filter detailsFail repos).
Proof.
  revert w. induction repos as [|repo repos IH]; intros w; simpl.
  - now rewrite app_nil_r.
  - rewrite IH. unfold worldAfterDetails.
    destruct (detailsFail repo); simpl; [|reflexivity].
    now rewrite <- app_assoc.
Qed.

Lemma checkRateLimit_lines (rt : Runtime) (api : GitHubService.Collaborators)
    (w : World ProjectSummary.t) :
  exists result,
    GitHubService.checkRateLimit rt api w
    = (Normal result, logLines (rateLimitLines rt api) w).
Proof.
  unfold GitHubService.checkRateLimit, rateLimitLines, Eff.tryCatch.
  destruct (GitHubService.rateLimit_get api) as [rate|e].
  - cbn [Eff.await]. unfold Eff.bind at 1. unfold Eff.ret at 1.
    unfold Logger.info. rewrite bind_consoleLog.
    destruct (GitHubService.remaining rate <? 10).
    + unfold Logger.warning. rewrite bind_consoleLog, logLines_app.
      eexists. reflexivity.
    + unfold Eff.bind, Eff.ret. eexists. reflexivity.
  - cbn [Eff.await]. unfold Eff.bind at 1. unfold Eff.throw at 1.
    unfold Logger.warning. rewrite bind_consoleLog.
    eexists. reflexivity.
Qed.

Lemma resolves_heap {Obj} (w w' : World Obj) (refs : list Ref) (objs : list Obj) :
  heap w' = heap w -> resolves w refs objs -> resolves w' refs objs.
Proof. unfold resolves. intros ->. auto. Qed.

(** What [generateReport] does once the user and the repositories are
    known: everything up to the writing of the file completes. *)
Lemma generateReport_through (rt : Runtime) (api : GitHubService.Collaborators)
    (options : Index.Options) (w : World ProjectSummary.t)
    (user : GitHubService.User) (repos : list GitHubService.Repo) :
  GitHubService.users_getAuthenticated api = JS.Resolved user ->
  GitHubService.repos_listForUser api (reportUsername options user) = JS.Resolved repos ->
  exists (report : GitHubReport.t) (w' : World ProjectSummary.t) (markdown : string),
    Index.generateReport rt api options w
    = match GitHubService.writeFile api (Index.output options) markdown with
      | JS.Resolved _ =>
          (Normal report, worldAfterSaving rt (Index.output options) markdown w')
      | JS.Rejected e => (Throw e, w')
      end
    /\ GitHubReport.username report = reportUsername options user
    /\ GitHubReport.totalReposAnalyzed report = length repos
    /\ length (GitHubReport.projects report) = length repos
    /\ GitHubReport.errors report = []
    /\ files w' = files w
    /\ allocated (heap w') (GitHubReport.projects report)
    /\ (exists more,
          loggerErrors w'
          = loggerErrors w
            ++ map (repoErrorEntry rt) (List.filter detailsFail repos) ++ more
          /\ (length more <= 1)%nat)
    /\ (exists lines, console w' = console w ++ lines)
    /\ (forall w'', heap w'' = heap w' ->
                    Index.generateMarkdownReport rt report w'' = (Normal markdown, w''))
    /\ (forall (i : nat) (repo : GitHubService.Repo),
          repos !! i = Some repo ->
          exists r p,
            GitHubReport.projects report !! i = Some r /\ heap w' !! r = Some p
            /\ ProjectSummary.name p = GitHubService.repo_name repo)
    /\ (forall (i : nat) (repo : GitHubService.Repo),
          repos !! i = Some repo ->
          exists r activities,
            GitHubReport.projects report !! i = Some r
            /\ heap w' !! r
               = Some (withActivities (projectOfRepo api repo) activities))
    /\ exists activityLine displayLines,
         console w'
         = console w
           ++ linesBeforeReport rt api (reportUsername options user) user repos
                activityLine
           ++ displayLines
         /\ closesUserActivity rt activityLine
         /\ (forall w'', heap w'' = heap w' ->
                         Index.displayConsoleReport rt report w''
                         = (Normal tt, logLines displayLines w''))
         /\ exists summary activities activeSection allSection,
              (forall w'', heap w'' = heap w' ->
                           GitHubReport.getExecutiveSummary rt report w''
                           = (Normal summary, w''))
              /\ markdown
                 = Index.markdownHeader rt report summary
                   +:+ Index.markdownActivities rt activities
                   +:+ activeSection +:+ allSection
                   +:+ Index.markdownErrors summary +:+ Index.markdownFooter.
Proof.
  intros Hauth Hrepos.
  set (w0 := logLines
               [chalk rt "bold.blue"
                  (nl +:+ "🚀 GitHub Activity Report Generator" +:+ nl)] w).
  pose proof (validateConnection_resolved rt api user w0 Hauth) as H1.
  set (w1 := logLines _ w0) in H1.
  destruct (checkRateLimit_lines rt api w1) as (rate & H2).
  set (w2 := logLines (rateLimitLines rt api) w1) in H2.
  pose proof (getUserRepos_resolved rt api (reportUsername options user) repos w2 Hrepos)
    as H3.
  set (w3 := logLines _ w2) in H3.
  set (w3' := logLines
                [chalk rt "bold"
                   (nl +:+ "Processing " +:+ pretty (length repos)
                    +:+ " repositories..." +:+ nl)] w3).
  set (report0 := GitHubReport.setTotalRepos (length repos)
                    (GitHubReport.new rt (reportUsername options user))).
  pose proof (processRepositories_run rt api repos report0 w3') as H4.
  set (refs := refsAfterRepos rt api repos w3') in *.
  set (w4 := worldAfterRepos rt api repos w3') in *.
  set (report := addProjects refs report0) in *.
  destruct (addProjects_fields refs report0) as (Hprojects & Htotal & Herrors & Huser).
  fold report in Hprojects, Htotal, Herrors, Huser.
  destruct (getUserActivity_run rt api (reportUsername options user) w4)
    as (activities & w5 & H5 & Hheap5 & Hfiles5 & Hcases5).
  assert (Hres5 : resolves w5 refs (map (projectOfRepo api) repos)).
  { apply (resolves_heap w4); [exact Hheap5|]. apply worldAfterRepos_resolves. }
  destruct (forEach_mapActivity refs activities w5 _ Hres5)
    as (w6 & H6 & Hl6 & Hc6 & Hf6 & _ & Hlook6 & _).
  assert (Halloc6 : allocated (heap w6) refs).
  { intros r Hr. destruct (resolves_lookup _ _ _ _ Hres5 Hr) as (p & Hp & _).
    rewrite (Hlook6 r p Hp). eauto. }
  set (w6' := logLines [nl +:+ chalk rt "bold.green" "📊 REPORT GENERATED" +:+ nl] w6).
  assert (Halloc : allocated (heap w6) (GitHubReport.projects report)).
  { rewrite Hprojects. exact Halloc6. }
  destruct (logs_displayConsoleReport (heap w6) rt report Halloc)
    as (u & lines7 & _ & Hdisplay).
  pose proof (Hdisplay w6' eq_refl) as H7.
  set (w7 := logLines lines7 w6') in H7.
  destruct (reads_generateMarkdownReport (heap w6) rt report Halloc)
    as (markdown & Hshape & H8).
  exists report, w7, markdown.
  split.
  { unfold Index.generateReport.
    rewrite bind_consoleLog. fold w0.
    rewrite (bind_normal _ _ _ _ _ H1). cbv beta zeta.
    rewrite (bind_normal _ _ _ _ _ H2).
    change (if truthyString (Index.opt_username options)
            then default ""%string (Index.opt_username options)
            else GitHubService.login user)
      with (reportUsername options user).
    rewrite (bind_normal _ _ _ _ _ H3).
    rewrite bind_consoleLog. fold w3'. fold report0.
    rewrite (bind_normal _ _ _ _ _ H4). cbn [fst snd].
    rewrite (bind_normal _ _ _ _ _ H5).
    rewrite (bind_normal _ _ _ _ _ H6).
    rewrite bind_consoleLog. fold w6'.
    rewrite (bind_normal _ _ _ _ _ H7).
    rewrite (bind_normal _ _ _ _ _ (H8 w7 eq_refl)).
    unfold Eff.bind at 1.
    destruct (GitHubService.writeFile api (Index.output options) markdown) as [[]|e];
      [|reflexivity].
    cbn [Eff.await]. unfold Eff.ret at 1.
    unfold Eff.bind at 1. unfold Eff.recordFile at 1.
    unfold Logger.success. rewrite bind_consoleLog.
    rewrite (bind_normal _ _ _ _ _ (printSummary_run rt _)).
    unfold Eff.ret, worldAfterSaving, logLines. cbn [heap loggerErrors console files].
    now rewrite <- !app_assoc. }
  split; [exact Huser|].
  split; [exact Htotal|].
  split; [rewrite Hprojects; apply refsAfterRepos_length|].
  split; [exact Herrors|].
  split.
  { unfold w7, w6'. cbn [logLines files]. rewrite Hf6, Hfiles5. unfold w4.
    destruct (refsAfterRepos_fresh rt api repos w3') as (_ & _ & Hf4).
    rewrite Hf4. reflexivity. }
  split; [exact Halloc|].
  split.
  { unfold w7, w6'. cbn [logLines loggerErrors]. rewrite Hl6.
    pose proof (worldAfterRepos_loggerErrors rt api repos w3') as Hl4. fold w4 in Hl4.
    change (loggerErrors w3') with (loggerErrors w) in Hl4.
    destruct Hcases5 as [(events & _ & _ & _ & _ & Hl5 & _)
                        | (_ & _ & context & Hl5 & _)].
    - exists []. rewrite Hl5, Hl4, app_nil_r. auto.
    - eexists. rewrite Hl5, Hl4, <- app_assoc. split; [reflexivity | simpl; lia]. }
  split.
  { unfold w7, w6'. cbn [logLines console]. rewrite Hc6.
    destruct (worldAfterRepos_console rt api repos w3') as (lines4 & Hc4). fold w4 in Hc4.
    assert (Hc5 : exists lines5, console w5 = console w4 ++ lines5).
    { destruct Hcases5 as [(events & _ & _ & _ & _ & _ & Hc5)
                          | (_ & _ & context & _ & _ & Hc5)]; eauto. }
    destruct Hc5 as (lines5 & ->). rewrite Hc4.
    unfold w3', w3, w2, w1, w0. cbn [logLines console].
    eexists. rewrite <- !app_assoc. reflexivity. }
  split; [exact H8|].
  assert (Hstored : forall (i : nat) (repo : GitHubService.Repo),
            repos !! i = Some repo ->
            exists r activities,
              GitHubReport.projects report !! i = Some r
              /\ heap w7 !! r
                 = Some (withActivities (projectOfRepo api repo) activities)).
  { intros i repo Hi.
    destruct (worldAfterRepos_minimal rt api repos w3' i repo Hi) as (r & Hr & Hp).
    fold refs in Hr. fold w4 in Hp. rewrite <- Hheap5 in Hp.
    exists r, (mappedTo w5 refs r activities). rewrite Hprojects.
    split; [exact Hr|]. exact (Hlook6 r _ Hp). }
  split.
  { intros i repo Hi. destruct (Hstored i repo Hi) as (r & acts & Hr & Hp).
    eexists. eexists. split; [exact Hr|]. split; [exact Hp|].
    unfold projectOfRepo, detailedProject, minimalProject.
    destruct (detailsFail repo), (GitHubService.owner repo); reflexivity. }
  split; [exact Hstored|].
  assert (Hc5 : exists activityLine,
            console w5
            = console w4
              ++ [chalk rt "blue" "ℹ" +:+ " " +:+ "Fetching recent user activity...";
                  activityLine]
            /\ closesUserActivity rt activityLine).
  { destruct Hcases5 as [(events & _ & _ & _ & _ & _ & Hc5)
                        | (_ & _ & context & _ & _ & Hc5)].
    - eexists. split; [exact Hc5|]. left. eexists. reflexivity.
    - eexists. split; [exact Hc5|]. right. reflexivity. }
  destruct Hc5 as (activityLine & Hc5 & Hcloses).
  exists activityLine, lines7.
  split; [|split; [exact Hcloses | split; [destruct u; exact Hdisplay | exact Hshape]]].
  unfold w7, w6'. cbn [logLines console]. rewrite Hc6, Hc5.
  unfold w4. rewrite worldAfterRepos_lines.
  unfold w3', w3, w2, w1, w0, linesBeforeReport. cbn [logLines console].
  rewrite <- !app_assoc. reflexivity.
Qed.

Lemma generateReport_auth_rejected (rt : Runtime) (api : GitHubService.Collaborators)
    (options : Index.Options) (w : World ProjectSummary.t) (e : JS.Error) :
  GitHubService.users_getAuthenticated api = JS.Rejected e ->
  Index.generateReport rt api options w
  = (Throw {| JS.message := "GitHub authentication failed" |},
     worldAfterError rt "Failed to connect to GitHub" (Some (JS.message e))
       (logLines [chalk rt "bold.blue"
                    (nl +:+ "🚀 GitHub Activity Report Generator" +:+ nl)] w)).
Proof.
  intros Hauth. unfold Index.generateReport. rewrite bind_consoleLog.
  now rewrite (bind_throw _ _ _ _ _ (validateConnection_rejected rt api e _ Hauth)).
Qed.

Lemma generateReport_repos_rejected (rt : Runtime) (api : GitHubService.Collaborators)
    (options : Index.Options) (w : World ProjectSummary.t)
    (user : GitHubService.User) (e : JS.Error) :
  GitHubService.users_getAuthenticated api = JS.Resolved user ->
  GitHubService.repos_listForUser api (reportUsername options user) = JS.Rejected e ->
  exists lines,
    Index.generateReport rt api options w
    = (Throw e,
       worldAfterError rt "Failed to fetch repositories" (Some (JS.message e))
         (logLines lines w)).
Proof.
  intros Hauth Hrepos. unfold Index.generateReport. rewrite bind_consoleLog.
  rewrite (bind_normal _ _ _ _ _ (validateConnection_resolved rt api user _ Hauth)).
  cbv beta zeta.
  destruct (checkRateLimit_run rt api
              (logLines [chalk rt "green" "✓" +:+ " " +:+ "Connected to GitHub as: "
                         +:+ GitHubService.login user]
                 (logLines [chalk rt "bold.blue"
                              (nl +:+ "🚀 GitHub Activity Report Generator" +:+ nl)] w)))
    as (rate & lines2 & H2 & _).
  rewrite (bind_normal _ _ _ _ _ H2).
  change (if truthyString (Index.opt_username options)
          then default ""%string (Index.opt_username options)
          else GitHubService.login user)
    with (reportUsername options user).
  rewrite (bind_throw _ _ _ _ _ (getUserRepos_rejected rt api _ e _ Hrepos)).
  rewrite !logLines_app. eexists. reflexivity.
Qed.

Lemma main_of_generateReport (rt : Runtime) (api : GitHubService.Collaborators)
    (options : Index.Options) (w : World ProjectSummary.t) :
  Index.main rt api options w
  = match Index.generateReport rt api options w with
    | (Normal _, w') => (Normal None, w')
    | (Throw e, w') =>
        (Normal (Some 1),
         worldAfterError rt "Failed to generate report" (Some (JS.message e)) w')
    end.
Proof.
  unfold Index.main, Eff.tryCatch, Eff.bind.
  destruct (Index.generateReport rt api options w) as [[report|e] w']; reflexivity.
Qed.

(** A rejected authentication is fatal: [generateReport] throws ['GitHub
    authentication failed'] before anything else is requested, the process
    exits with code 1, no file is written and no project is made; the
    logger holds the failure to connect, with the message of the rejection
    as its context, and the failure of the report. *)
Theorem authentication_failure_is_fatal (rt : Runtime)
    (api : GitHubService.Collaborators) (options : Index.Options)
    (w : World ProjectSummary.t) (e : JS.Error)
    (Hauth : GitHubService.users_getAuthenticated api = JS.Rejected e) :
  exists w0 w',
    Index.generateReport rt api options w
    = (Throw {| JS.message := "GitHub authentication failed" |}, w0)
    /\ Index.main rt api options w = (Normal (Some 1), w')
    /\ heap w' = heap w /\ files w' = files w
    /\ loggerErrors w'
       = loggerErrors w
         ++ [ {| entry_message := "Failed to connect to GitHub";
                 entry_context := Some (JS.message e);
                 entry_timestamp := toISOString rt (now rt) |};
              {| entry_message := "Failed to generate report";
                 entry_context := Some "GitHub authentication failed"%string;
                 entry_timestamp := toISOString rt (now rt) |} ]
    /\ console w'
       = console w
         ++ [ chalk rt "bold.blue" (nl +:+ "🚀 GitHub Activity Report Generator" +:+ nl);
              chalk rt "red" "✗" +:+ " " +:+ "Failed to connect to GitHub";
              chalk rt "red" "✗" +:+ " " +:+ "Failed to generate report" ].
Proof.
  eexists. eexists.
  split; [apply (generateReport_auth_rejected rt api options w e Hauth)|].
  split.
  { rewrite main_of_generateReport,
      (generateReport_auth_rejected rt api options w e Hauth). reflexivity. }
  cbn [worldAfterError logLines heap files loggerErrors console JS.message].
  repeat split; now rewrite <- !app_assoc.
Qed.

(** A rejected listing of the repositories is fatal as well: the error is
    thrown on as it is, the process exits with code 1 and no file is
    written. *)
Theorem listing_failure_is_fatal (rt : Runtime)
    (api : GitHubService.Collaborators) (options : Index.Options)
    (w : World ProjectSummary.t) (user : GitHubService.User) (e : JS.Error)
    (Hauth : GitHubService.users_getAuthenticated api = JS.Resolved user)
    (Hrepos : GitHubService.repos_listForUser api
                (if truthyString (Index.opt_username options)
                 then default ""%string (Index.opt_username options)
                 else GitHubService.login user)
              = JS.Rejected e) :
  exists w0 w',
    Index.generateReport rt api options w = (Throw e, w0)
    /\ Index.main rt api options w = (Normal (Some 1), w')
    /\ heap w' = heap w /\ files w' = files w
    /\ loggerErrors w'
       = loggerErrors w
         ++ [ {| entry_message := "Failed to fetch repositories";
                 entry_context := Some (JS.message e);
                 entry_timestamp := toISOString rt (now rt) |};
              {| entry_message := "Failed to generate report";
                 entry_context := Some (JS.message e);
                 entry_timestamp := toISOString rt (now rt) |} ].
Proof.
  destruct (generateReport_repos_rejected rt api options w user e Hauth Hrepos)
    as (lines & Hrun).
  eexists. eexists. split; [exact Hrun|].
  split; [rewrite main_of_generateReport, Hrun; reflexivity|].
  cbn [worldAfterError logLines heap files loggerErrors console].
  repeat split; now rewrite <- !app_assoc.
Qed.

(** When the user is authenticated, the repositories are listed and the
    file can be written, [generateReport] completes, whatever the other
    collaborators answer: failing pull requests, details, events or rate
    limits never stop it.  The process then ends by itself, exactly one
    file is written, with the markdown of the report, and the report holds
    one project for each listed repository, named after it. *)
Theorem generateReport_completes (rt : Runtime)
    (api : GitHubService.Collaborators) (options : Index.Options)
    (w : World ProjectSummary.t) (user : GitHubService.User)
    (repos : list GitHubService.Repo)
    (Hauth : GitHubService.users_getAuthenticated api = JS.Resolved user)
    (Hrepos : GitHubService.repos_listForUser api
                (if truthyString (Index.opt_username options)
                 then default ""%string (Index.opt_username options)
                 else GitHubService.login user)
              = JS.Resolved repos)
    (Hwrite : forall content,
                GitHubService.writeFile api (Index.output options) content
                = JS.Resolved tt) :
  exists (report : GitHubReport.t) (w' : World ProjectSummary.t) (markdown : string),
    Index.generateReport rt api options w = (Normal report, w')
    /\ Index.main rt api options w = (Normal None, w')
    /\ files w' = files w ++ [(Index.output options, markdown)]
    /\ Index.generateMarkdownReport rt report w' = (Normal markdown, w')
    /\ GitHubReport.totalReposAnalyzed report = length repos
    /\ length (GitHubReport.projects report) = length repos
    /\ (forall (i : nat) (repo : GitHubService.Repo),
          repos !! i = Some repo ->
          exists r p,
            GitHubReport.projects report !! i = Some r /\ heap w' !! r = Some p
            /\ ProjectSummary.name p = GitHubService.repo_name repo)
    /\ (exists more,
          loggerErrors w'
          = loggerErrors w
            ++ map (repoErrorEntry rt) (List.filter detailsFail repos) ++ more
          /\ (length more <= 1)%nat)
    /\ exists before,
         console w' = console w ++ before ++ summaryLines rt (loggerErrors w').
Proof.
  destruct (generateReport_through rt api options w user repos Hauth Hrepos)
    as (report & w5 & markdown & Hrun & _ & Htotal & Hlen & _ & Hfiles & _
        & Hlog & (lines & Hconsole) & Hmd & Hnames & _).
  rewrite Hwrite in Hrun.
  exists report, (worldAfterSaving rt (Index.output options) markdown w5), markdown.
  split; [exact Hrun|].
  split; [rewrite main_of_generateReport, Hrun; reflexivity|].
  split; [cbn [worldAfterSaving files]; now rewrite Hfiles|].
  split; [apply Hmd; reflexivity|].
  split; [exact Htotal|]. split; [exact Hlen|]. split; [exact Hnames|].
  split; [exact Hlog|].
  cbn [worldAfterSaving console loggerErrors]. rewrite Hconsole.
  exists (lines ++ [chalk rt "green" "✓" +:+ " " +:+ "Report saved to: "
                    +:+ Index.output options]).
  rewrite <- !app_assoc. reflexivity.
Qed.

(** Nothing in a run adds to the error list of the report: whenever
    [generateReport] completes, the list is empty, the summary says that
    there are no errors, and the markdown has no section on errors, whatever
    the logger holds. *)
Theorem report_errors_stay_empty (rt : Runtime)
    (api : GitHubService.Collaborators) (options : Index.Options)
    (w w' : World ProjectSummary.t) (report : GitHubReport.t)
    (Hrun : Index.generateReport rt api options w = (Normal report, w')) :
  GitHubReport.errors report = []
  /\ GitHubReport.totalReposAnalyzed report = length (GitHubReport.projects report)
  /\ exists summary,
       GitHubReport.getExecutiveSummary rt report w' = (Normal summary, w')
       /\ GitHubReport.hasErrors summary = false
       /\ GitHubReport.errorCount summary = 0%nat
       /\ Index.markdownErrors summary = ""%string.
Proof.
  destruct (GitHubService.users_getAuthenticated api) as [user|e] eqn:Hauth.
  2:{ rewrite (generateReport_auth_rejected rt api options w e Hauth) in Hrun.
      discriminate. }
  destruct (GitHubService.repos_listForUser api (reportUsername options user))
    as [repos|e] eqn:Hrepos.
  2:{ destruct (generateReport_repos_rejected rt api options w user e Hauth Hrepos)
        as (lines & Hthrow).
      rewrite Hthrow in Hrun. discriminate. }
  destruct (generateReport_through rt api options w user repos Hauth Hrepos)
    as (report' & w5 & markdown & Hrun' & _ & Htotal & Hlen & Herrors & _ & Halloc & _).
  rewrite Hrun' in Hrun.
  destruct (GitHubService.writeFile api (Index.output options) markdown);
    [|discriminate].
  injection Hrun as <- <-.
  split; [exact Herrors|]. split; [congruence|].
  destruct (reads_getExecutiveSummary (heap w5) rt report' Halloc)
    as (summary & (Hhas & Hcount & _) & Hsummary).
  exists summary. split; [apply Hsummary; reflexivity|].
  rewrite Herrors in Hhas, Hcount. simpl in Hhas, Hcount.
  split; [exact Hhas|]. split; [exact Hcount|].
  unfold Index.markdownErrors. now rewrite Hhas.
Qed.

Lemma authentication_failure_is_fatal_example :
  GitHubService.users_getAuthenticated unauthorizedApi
  = JS.Rejected {| JS.message := "Bad credentials" |}
  /\ exists w',
       Index.main dstRuntime unauthorizedApi exampleOptions Index.initialWorld
       = (Normal (Some 1), w')
       /\ files w' = [].
Proof.
  split; [reflexivity|].
  destruct (authentication_failure_is_fatal dstRuntime unauthorizedApi exampleOptions
              Index.initialWorld {| JS.message := "Bad credentials" |} eq_refl)
    as (w0 & w' & _ & Hmain & _ & Hfiles & _).
  exists w'. split; [exact Hmain | exact Hfiles].
Defined.

Lemma listing_failure_is_fatal_example :
  exists w',
    Index.main dstRuntime unlistedApi exampleOptions Index.initialWorld
    = (Normal (Some 1), w')
    /\ files w' = [].
Proof.
  destruct (listing_failure_is_fatal dstRuntime unlistedApi exampleOptions
              Index.initialWorld {| GitHubService.login := "me" |}
              {| JS.message := "Not Found" |} eq_refl eq_refl)
    as (w0 & w' & _ & Hmain & _ & Hfiles & _).
  exists w'. split; [exact Hmain | exact Hfiles].
Defined.

Lemma generateReport_completes_example :
  exists report w' markdown,
    Index.generateReport dstRuntime exampleApi exampleOptions Index.initialWorld
    = (Normal report, w')
    /\ files w' = [("github-report.md"%string, markdown)]
    /\ GitHubReport.totalReposAnalyzed report = 2%nat.
Proof.
  destruct (generateReport_completes dstRuntime exampleApi exampleOptions
              Index.initialWorld {| GitHubService.login := "me" |} exampleRepos
              eq_refl eq_refl (fun _ => eq_refl))
    as (report & w' & markdown & Hrun & _ & Hfiles & _ & Htotal & _).
  exists report, w', markdown. split; [exact Hrun|].
  split; [exact Hfiles | exact Htotal].
Defined.

Lemma report_errors_stay_empty_example :
  exists report w',
    Index.generateReport dstRuntime exampleApi exampleOptions Index.initialWorld
    = (Normal report, w')
    /\ GitHubReport.errors report = [].
Proof.
  destruct (Index.generateReport dstRuntime exampleApi exampleOptions Index.initialWorld)
    as [[report|e] w'] eqn:Hrun.
  - exists report, w'. split; [reflexivity|].
    exact (proj1 (report_errors_stay_empty dstRuntime exampleApi exampleOptions
                    Index.initialWorld w' report Hrun)).
  - vm_compute in Hrun. discriminate.
Defined.

(** A file that cannot be written is fatal too, but only after the whole
    report has been made and shown.  The console then holds the lines of
    the run up to the heading of the report, the lines of
    [displayConsoleReport] for the report, and the line of the fatal error,
    and nothing else: neither ['Report saved'] nor the summary of the logger
    is printed.  The process exits with code 1 and no file is recorded. *)
Theorem write_failure_is_fatal (rt : Runtime)
    (api : GitHubService.Collaborators) (options : Index.Options)
    (w : World ProjectSummary.t) (user : GitHubService.User)
    (repos : list GitHubService.Repo) (e : JS.Error)
    (Hauth : GitHubService.users_getAuthenticated api = JS.Resolved user)
    (Hrepos : GitHubService.repos_listForUser api
                (if truthyString (Index.opt_username options)
                 then default ""%string (Index.opt_username options)
                 else GitHubService.login user)
              = JS.Resolved repos)
    (Hwrite : forall content,
                GitHubService.writeFile api (Index.output options) content
                = JS.Rejected e) :
  exists (w0 w' : World ProjectSummary.t) (report : GitHubReport.t)
         (activityLine : string) (displayLines : list string),
    Index.generateReport rt api options w = (Throw e, w0)
    /\ Index.main rt api options w = (Normal (Some 1), w')
    /\ files w' = files w
    /\ (exists more,
          loggerErrors w'
          = loggerErrors w
            ++ map (repoErrorEntry rt) (List.filter detailsFail repos) ++ more
            ++ [{| entry_message := "Failed to generate report";
                   entry_context := Some (JS.message e);
                   entry_timestamp := toISOString rt (now rt) |}]
          /\ (length more <= 1)%nat)
    /\ length (GitHubReport.projects report) = length repos
    /\ (forall (i : nat) (repo : GitHubService.Repo),
          repos !! i = Some repo ->
          exists r p,
            GitHubReport.projects report !! i = Some r /\ heap w' !! r = Some p
            /\ ProjectSummary.name p = GitHubService.repo_name repo)
    /\ (forall w1, heap w1 = heap w' ->
                   Index.displayConsoleReport rt report w1
                   = (Normal tt, logLines displayLines w1))
    /\ closesUserActivity rt activityLine
    /\ console w'
       = console w
         ++ linesBeforeReport rt api
              (if truthyString (Index.opt_username options)
               then default ""%string (Index.opt_username options)
               else GitHubService.login user)
              user repos activityLine
         ++ displayLines
         ++ [chalk rt "red" "✗" +:+ " " +:+ "Failed to generate report"].
Proof.
  destruct (generateReport_through rt api options w user repos Hauth Hrepos)
    as (report & w5 & markdown & Hrun & _ & _ & Hlen & _ & Hfiles & _
        & (more & Hlog & Hmore) & _ & _ & Hnames & _
        & (activityLine & displayLines & Hconsole & Hcloses & Hdisplay & _)).
  rewrite Hwrite in Hrun.
  exists w5, (worldAfterError rt "Failed to generate report" (Some (JS.message e)) w5),
         report, activityLine, displayLines.
  split; [exact Hrun|].
  split; [rewrite main_of_generateReport, Hrun; reflexivity|].
  cbn [worldAfterError heap files loggerErrors console].
  split; [exact Hfiles|]. split.
  { exists more. rewrite Hlog. split; [now rewrite <- !app_assoc | exact Hmore]. }
  split; [exact Hlen|]. split; [exact Hnames|]. split; [exact Hdisplay|].
  split; [exact Hcloses|].
  rewrite Hconsole. now rewrite <- !app_assoc.
Qed.

Lemma write_failure_is_fatal_example :
  exists w' before,
    Index.main dstRuntime readOnlyApi exampleOptions Index.initialWorld
    = (Normal (Some 1), w')
    /\ files w' = []
    /\ console w'
       = before
         ++ [chalk dstRuntime "red" "✗" +:+ " " +:+ "Failed to generate report"].
Proof.
  destruct (write_failure_is_fatal dstRuntime readOnlyApi exampleOptions
              Index.initialWorld {| GitHubService.login := "me" |} exampleRepos
              {| JS.message := "EACCES: permission denied" |}
              eq_refl eq_refl (fun _ => eq_refl))
    as (w0 & w' & report & activityLine & displayLines
        & _ & Hmain & Hfiles & _ & _ & _ & _ & _ & Hconsole).
  exists w'. eexists. split; [exact Hmain|]. split; [exact Hfiles|].
  rewrite Hconsole, !app_assoc. reflexivity.
Defined.

(** C4.  In a run that completes, a repository whose details cannot be
    read (its owner is [null] or [undefined], so that [repo.owner.login]
    throws) still gets its project, made from the listing alone, and the
    failure is recorded, with message, context and time, and printed with
    the summary at the end of the console.  But the record goes to the list
    of the logger: the error list of the report stays empty, so that the
    summary of the report says that there are no errors and the markdown
    document has no section on errors. *)
Theorem detail_failure_not_in_report (rt : Runtime)
    (api : GitHubService.Collaborators) (options : Index.Options)
    (w : World ProjectSummary.t) (user : GitHubService.User)
    (repos : list GitHubService.Repo)
    (i : nat) (repo : GitHubService.Repo) (n : JS.Nullish)
    (Hauth : GitHubService.users_getAuthenticated api = JS.Resolved user)
    (Hrepos : GitHubService.repos_listForUser api
                (if truthyString (Index.opt_username options)
                 then default ""%string (Index.opt_username options)
                 else GitHubService.login user)
              = JS.Resolved repos)
    (Hwrite : forall content,
                GitHubService.writeFile api (Index.output options) content
                = JS.Resolved tt)
    (Hrepo : repos !! i = Some repo)
    (Howner : GitHubService.owner repo = JS.Absent n) :
  exists (report : GitHubReport.t) (w' : World ProjectSummary.t)
         (summary : GitHubReport.Summary) (markdown : string),
    Index.generateReport rt api options w = (Normal report, w')
    /\ In {| entry_message :=
               "Failed to process repo: " +:+ GitHubService.full_name repo;
             entry_context := Some (JS.message (JS.cannotRead n "login"));
             entry_timestamp := toISOString rt (now rt) |}
          (loggerErrors w')
    /\ (exists r activities,
          GitHubReport.projects report !! i = Some r
          /\ heap w' !! r = Some (withActivities (minimalProject repo) activities))
    /\ (exists before,
          console w' = console w ++ before ++ summaryLines rt (loggerErrors w'))
    /\ GitHubReport.errors report = []
    /\ GitHubReport.getExecutiveSummary rt report w' = (Normal summary, w')
    /\ GitHubReport.hasErrors summary = false
    /\ GitHubReport.errorCount summary = 0%nat
    /\ files w' = files w ++ [(Index.output options, markdown)]
    /\ Index.generateMarkdownReport rt report w' = (Normal markdown, w')
    /\ Index.markdownErrors summary = ""%string
    /\ exists activities activeSection allSection,
         markdown
         = Index.markdownHeader rt report summary
           +:+ Index.markdownActivities rt activities
           +:+ activeSection +:+ allSection +:+ Index.markdownFooter.
Proof.
  destruct (generateReport_through rt api options w user repos Hauth Hrepos)
    as (report & w5 & markdown & Hrun & _ & _ & _ & Herrors & Hfiles & Halloc
        & (more & Hlog & _) & (lines & Hconsole) & Hmd & _ & Hstored
        & (_ & _ & _ & _ & _
           & (summary' & activities & activeSection & allSection & Hsummary' & Hshape))).
  rewrite Hwrite in Hrun.
  destruct (reads_getExecutiveSummary (heap w5) rt report Halloc)
    as (summary & (Hhas & Hcount & _) & Hsummary).
  assert (summary' = summary) as ->.
  { pose proof (Hsummary' w5 eq_refl) as E. rewrite (Hsummary w5 eq_refl) in E.
    now injection E. }
  rewrite Herrors in Hhas, Hcount. simpl in Hhas, Hcount.
  assert (Hfail : detailsFail repo = true).
  { unfold detailsFail. now rewrite Howner. }
  exists report, (worldAfterSaving rt (Index.output options) markdown w5),
         summary, markdown.
  split; [exact Hrun|].
  cbn [worldAfterSaving heap loggerErrors console files].
  split.
  { rewrite Hlog. apply in_or_app. right. apply in_or_app. left.
    replace {| entry_message :=
                 "Failed to process repo: " +:+ GitHubService.full_name repo;
               entry_context := Some (JS.message (JS.cannotRead n "login"));
               entry_timestamp := toISOString rt (now rt) |}
      with (repoErrorEntry rt repo)
      by (unfold repoErrorEntry, ownerError; now rewrite Howner).
    apply in_map. apply filter_In. split; [|exact Hfail].
    apply list_elem_of_In. eapply list_elem_of_lookup_2. exact Hrepo. }
  split.
  { destruct (Hstored i repo Hrepo) as (r & mapped & Hr & Hp).
    exists r, mapped. split; [exact Hr|]. rewrite Hp.
    unfold projectOfRepo. now rewrite Hfail. }
  split.
  { rewrite Hconsole.
    exists (lines ++ [chalk rt "green" "✓" +:+ " " +:+ "Report saved to: "
                      +:+ Index.output options]).
    rewrite <- !app_assoc. reflexivity. }
  split; [exact Herrors|].
  split; [apply Hsummary; reflexivity|].
  split; [exact Hhas|]. split; [exact Hcount|].
  split; [now rewrite Hfiles|].
  split; [apply Hmd; reflexivity|].
  assert (Hnone : Index.markdownErrors summary = ""%string).
  { unfold Index.markdownErrors. now rewrite Hhas. }
  split; [exact Hnone|].
  exists activities, activeSection, allSection.
  rewrite Hshape, Hnone. reflexivity.
Qed.

Lemma detail_failure_not_in_report_example :
  exampleRepos !! 1%nat = Some exampleRepoBeta
  /\ GitHubService.owner exampleRepoBeta = JS.Absent JS.null
  /\ exists report w',
       Index.generateReport dstRuntime exampleApi exampleOptions Index.initialWorld
       = (Normal report, w')
       /\ In {| entry_message := "Failed to process repo: me/beta";
                entry_context :=
                  Some "Cannot read properties of null (reading 'login')"%string;
                entry_timestamp := toISOString dstRuntime (now dstRuntime) |}
             (loggerErrors w')
       /\ GitHubReport.errors report = [].
Proof.
  split; [reflexivity|]. split; [reflexivity|].
  destruct (detail_failure_not_in_report dstRuntime exampleApi exampleOptions
              Index.initialWorld {| GitHubService.login := "me" |} exampleRepos
              1%nat exampleRepoBeta JS.null
              eq_refl eq_refl (fun _ => eq_refl) eq_refl eq_refl)
    as (report & w' & summary & markdown & Hrun & Hlogged & _ & _ & Herrors & _).
  exists report, w'. split; [exact Hrun|]. split; [exact Hlogged | exact Herrors].
Defined.

(** ** The rate limit and the empty report *)

(** [checkRateLimit] never throws and only writes to the console: the
    quota with a warning when fewer than 10 requests remain, or the warning
    that the quota could not be read.  It adds no error to the logger. *)
Theorem checkRateLimit_soft (rt : Runtime) (api : GitHubService.Collaborators)
    (w : World ProjectSummary.t) :
  exists result w',
    GitHubService.checkRateLimit rt api w = (Normal result, w')
    /\ heap w' = heap w /\ loggerErrors w' = loggerErrors w /\ files w' = files w
    /\ (forall rate,
          GitHubService.rateLimit_get api = JS.Resolved rate ->
          result = Some rate
          /\ console w'
             = console w
               ++ (chalk rt "blue" "ℹ" +:+ " " +:+ "Rate limit: "
                   +:+ pretty (GitHubService.remaining rate)
                   +:+ " requests remaining (resets at "
                   +:+ toLocaleTimeString rt (GitHubService.reset rate * 1000) +:+ ")")
                  :: (if GitHubService.remaining rate <? 10
                      then [chalk rt "yellow" "⚠" +:+ " "
                            +:+ "Low rate limit remaining - consider waiting before making more requests"]
                      else []))
    /\ (forall e,
          GitHubService.rateLimit_get api = JS.Rejected e ->
          result = None
          /\ console w'
             = console w
               ++ [chalk rt "yellow" "⚠" +:+ " " +:+ "Could not check rate limit"]).
Proof.
  unfold GitHubService.checkRateLimit, Eff.tryCatch.
  destruct (GitHubService.rateLimit_get api) as [rate|e].
  - cbn [Eff.await]. unfold Eff.bind at 1. unfold Eff.ret at 1.
    unfold Logger.info. rewrite bind_consoleLog.
    destruct (GitHubService.remaining rate <? 10) eqn:Hlow.
    + unfold Logger.warning. rewrite bind_consoleLog, logLines_app.
      eexists. eexists. split; [reflexivity|].
      repeat (split; [reflexivity|]).
      split; [|discriminate].
      intros rate' Hrate. injection Hrate as <-.
      rewrite Hlow. split; reflexivity.
    + unfold Eff.bind, Eff.ret.
      eexists. eexists. split; [reflexivity|].
      repeat (split; [reflexivity|]).
      split; [|discriminate].
      intros rate' Hrate. injection Hrate as <-.
      rewrite Hlow. split; [reflexivity|].
      unfold logLines. cbn [console]. reflexivity.
  - cbn [Eff.await]. unfold Eff.bind at 1. unfold Eff.throw at 1.
    unfold Logger.warning. rewrite bind_consoleLog.
    eexists. eexists. split; [reflexivity|].
    repeat (split; [reflexivity|]).
    split; [discriminate|]. intros e' _. split; reflexivity.
Qed.

(** For a report without projects, as after an empty listing, the markdown
    is the header with all counts at zero, the section on errors if the
    report has errors, and the footer: no section on activities, on active
    projects or on all repositories. *)
Theorem markdown_of_empty_report (rt : Runtime) (report : GitHubReport.t)
    (w : World ProjectSummary.t)
    (Hempty : GitHubReport.projects report = []) :
  GitHubReport.getExecutiveSummary rt report w = (Normal (emptySummary report), w)
  /\ GitHubReport.getActiveProjects rt report w = (Normal [], w)
  /\ GitHubReport.getAllYesterdayActivities rt report w = (Normal [], w)
  /\ Index.generateMarkdownReport rt report w
     = (Normal
          (Index.markdownHeader rt report (emptySummary report)
           +:+ Index.markdownErrors (emptySummary report)
           +:+ Index.markdownFooter),
        w).
Proof.
  assert (Hactive : GitHubReport.getActiveProjects rt report w = (Normal [], w)).
  { unfold GitHubReport.getActiveProjects. now rewrite Hempty. }
  assert (Hall : GitHubReport.getAllYesterdayActivities rt report w = (Normal [], w)).
  { unfold GitHubReport.getAllYesterdayActivities. now rewrite Hempty. }
  assert (Hsummary : GitHubReport.getExecutiveSummary rt report w
                     = (Normal (emptySummary report), w)).
  { unfold GitHubReport.getExecutiveSummary.
    rewrite (bind_normal _ _ _ _ _ Hactive), (bind_normal _ _ _ _ _ Hall).
    reflexivity. }
  split; [exact Hsummary|]. split; [exact Hactive|]. split; [exact Hall|].
  unfold Index.generateMarkdownReport.
  rewrite (bind_normal _ _ _ _ _ Hsummary), (bind_normal _ _ _ _ _ Hactive),
    (bind_normal _ _ _ _ _ Hall).
  unfold Index.markdownActiveProjects, Index.markdownAllRepositories.
  rewrite Hempty. cbn [length Nat.ltb Nat.leb].
  unfold Eff.bind, Eff.ret, Index.markdownActivities.
  cbn [length Nat.ltb Nat.leb String.append].
  reflexivity.
Qed.

Lemma markdown_of_empty_report_example :
  GitHubReport.getActiveProjects dstRuntime (GitHubReport.new dstRuntime "me")
    Index.initialWorld
  = (Normal [], Index.initialWorld).
Proof.
  exact (proj1 (proj2 (markdown_of_empty_report dstRuntime
                         (GitHubReport.new dstRuntime "me") Index.initialWorld
                         eq_refl))).
Defined.
